(** * The (co)graphic command-line converter: [src/main/graphic_main.c]

    A shallow embedding of the functions of [graphic_main.c] ([printUsage],
    [matrixToGraph], [graphToMatrix], [main]) together with the properties
    that the specification states about them.

    The file is organised as follows.
    - [Base]: C data (integers, [printf] conversions, the [FileFormat] enum).
    - [Cmr]: the part of the CMR library interface the program uses.  Its
      headers ([cmr/matrix.h], [cmr/graph.h], [cmr/graphic.h], [cmr/element.h],
      [cmr/env.h]) are not part of the sources at hand.
    - [Run]: the effects of the program: what it writes to [stdout], which
      library calls it makes, and how a [CMR_CALL] propagates an error.
    - [Program]: the functions of [graphic_main.c], block by block.
    - [Expected]: the vocabulary of the statements (what a line of output
      looks like, when a run reaches the engine, how [main] ends).
    - [Samples]: concrete matrices, graphs and libraries.
    - [Behaviour]: more vocabulary, for the violator, the dot format and the
      extraction.
    - [CommandLine]: the command line read as a list of words, apart from
      the loop of [main].
    - the theorems: the serializer, matrix to graph, forest extraction, graph
      to matrix, the command line. *)

From Stdlib Require Import ZArith Lia String Ascii List DecimalString.
From stdpp Require Import base list.

Import ListNotations.
Local Open Scope Z_scope.
Local Open Scope string_scope.

(* ===================================================================== *)
(** ** C data *)
(* ===================================================================== *)

Module Base.

(** [FileFormat], lines 11-18. *)
Inductive FileFormat :=
| FILEFORMAT_UNDEFINED
| FILEFORMAT_MATRIX_DENSE
| FILEFORMAT_MATRIX_SPARSE
| FILEFORMAT_GRAPH_EDGELIST
| FILEFORMAT_GRAPH_DOT.

Definition FileFormat_eqb (a b : FileFormat) : bool :=
  match a, b with
  | FILEFORMAT_UNDEFINED, FILEFORMAT_UNDEFINED
  | FILEFORMAT_MATRIX_DENSE, FILEFORMAT_MATRIX_DENSE
  | FILEFORMAT_MATRIX_SPARSE, FILEFORMAT_MATRIX_SPARSE
  | FILEFORMAT_GRAPH_EDGELIST, FILEFORMAT_GRAPH_EDGELIST
  | FILEFORMAT_GRAPH_DOT, FILEFORMAT_GRAPH_DOT => true
  | _, _ => false
  end.

(** [EXIT_SUCCESS] and [EXIT_FAILURE] of [<stdlib.h>]. *)
Definition EXIT_SUCCESS : Z := 0.
Definition EXIT_FAILURE : Z := 1.

(** The characters that cannot be written inside a string literal. *)
Definition nl : string := String "010"%char EmptyString.
Definition dquote : string := String "034"%char EmptyString.

(** [printf("%d", z)]: the decimal digits of a signed integer. *)
Definition fmt_d (z : Z) : string := NilZero.string_of_int (Z.to_int z).

(** A [size_t] value handed to the conversion [%ld] is read back as a
    [long]: the same 64 bits, two's complement. *)
Definition as_long (x : Z) : Z := (x + 2 ^ 63) mod 2 ^ 64 - 2 ^ 63.

(** [printf("%ld", n)] for a [size_t] expression whose value is [n]
    (sums of [size_t] wrap around at 2^64). *)
Definition fmt_ld (n : Z) : string := fmt_d (as_long (n mod 2 ^ 64)).

End Base.
Export Base.

(* ===================================================================== *)
(** ** The CMR library interface used by the program *)
(* ===================================================================== *)

Module Cmr.

(** Modelled from the spec: the enum [CMR_ERROR] of [cmr/env.h] is missing.
    The program names [CMR_OKAY], [CMR_ERROR_INPUT] and [CMR_ERROR_MEMORY];
    the [default] branch of [main] stands for every other error code, which
    is [CMR_ERROR_OTHER] here. *)
Inductive CMR_ERROR :=
| CMR_OKAY
| CMR_ERROR_INPUT
| CMR_ERROR_MEMORY
| CMR_ERROR_OTHER.

(** [CMR_GRAPH_NODE] and [CMR_GRAPH_EDGE] are [int]s; [-1] is the value the
    program stores for "no edge". *)
Abbreviation CMR_GRAPH_NODE := Z (only parsing).
Abbreviation CMR_GRAPH_EDGE := Z (only parsing).

(** Modelled from the spec: the struct [CMR_GRAPH] of [cmr/graph.h] is
    missing.  A graph is what the program reads of it: the edges in the
    order in which [CMRgraphEdgesFirst] / [CMRgraphEdgesNext] enumerate
    them, and the two end nodes of an edge. *)
Record CMR_GRAPH := {
  graphEdges : list CMR_GRAPH_EDGE;
  CMRgraphEdgeU : CMR_GRAPH_EDGE -> CMR_GRAPH_NODE;
  CMRgraphEdgeV : CMR_GRAPH_EDGE -> CMR_GRAPH_NODE
}.

(** Modelled from the spec: the type [CMR_ELEMENT] of [cmr/element.h] is
    missing.  An element is row [i] or column [j] (0-based); an edge of an
    input graph may also carry neither. *)
Inductive CMR_ELEMENT :=
| Row (i : nat)
| Column (j : nat)
| Untagged.

Definition CMRelementIsRow (element : CMR_ELEMENT) : bool :=
  match element with Row _ => true | _ => false end.

Definition CMRelementIsColumn (element : CMR_ELEMENT) : bool :=
  match element with Column _ => true | _ => false end.

Definition CMRelementToRowIndex (element : CMR_ELEMENT) : nat :=
  match element with Row i => i | _ => 0%nat end.

Definition CMRelementToColumnIndex (element : CMR_ELEMENT) : nat :=
  match element with Column j => j | _ => 0%nat end.

Definition CMRrowToElement (row : nat) : CMR_ELEMENT := Row row.
Definition CMRcolumnToElement (column : nat) : CMR_ELEMENT := Column column.

(** Modelled from the spec: [CMRelementString] is missing; the display
    string of an element is [rN] or [cN] with [N] 1-based. *)
Definition CMRelementString (element : CMR_ELEMENT) : string :=
  match element with
  | Row i => "r" ++ fmt_d (Z.of_nat i + 1)
  | Column j => "c" ++ fmt_d (Z.of_nat j + 1)
  | Untagged => ""
  end.

(** Modelled from the spec: the struct [CMR_CHRMAT] of [cmr/matrix.h] is
    missing.  A matrix has its dimensions and its entries, each of them
    -1, 0 or +1. *)
Record CMR_CHRMAT := {
  numRows : nat;
  numColumns : nat;
  entries : list (list Z)
}.

(** Modelled from the spec: the struct [CMR_SUBMAT] of [cmr/matrix.h] is
    missing.  A submatrix is an ordered set of row indices and an ordered
    set of column indices; [numRows] and [numColumns] of the struct are the
    lengths of the two arrays. *)
Record CMR_SUBMAT := {
  rows : list nat;
  columns : list nat
}.

(** An open stream, as far as the program is concerned, is what the library
    will read from it. *)
Definition FILE := string.

(** What a recognition call leaves in the variables whose addresses it is
    given: [&isCoGraphic], [&graph], [&rowEdges], [&columnEdges] (in this
    order of parameters) and, when its address is passed, [&submatrix].
    A [NULL] array is the empty list. *)
Record TestOutput := {
  test_isGraphic : bool;
  test_graph : option CMR_GRAPH;
  test_forestEdges : list CMR_GRAPH_EDGE;
  test_coforestEdges : list CMR_GRAPH_EDGE;
  test_submatrix : option CMR_SUBMAT
}.

(** What [CMRcomputeGraphicMatrix] stores through [pmatrix], through
    [ptranspose] and through [pisCorrectForest]. *)
Record ComputeOutput := {
  compute_matrix : option CMR_CHRMAT;
  compute_transpose : option CMR_CHRMAT;
  compute_isCorrectForest : bool
}.

(** The library and the file system the program runs against.  Every field
    is the result of the call of that name: its error code and what it
    stores through its output pointers.  The calls that only release memory,
    collect statistics or format a matrix ([CMRfreeBlockArray],
    [CMRgraphFree], [CMRsubmatFree], [CMRchrmatFree], [CMRfreeEnvironment],
    [CMRstatsGraphicInit], [CMRstatsGraphicPrint], [CMRchrmatPrintDense],
    [CMRchrmatPrintSparse]) are taken to return [CMR_OKAY]. *)
Record World := {
  fopen : string -> option FILE;
  stdin : FILE;
  CMRcreateEnvironment : CMR_ERROR;
  CMRchrmatCreateFromDenseStream : FILE -> CMR_ERROR * option CMR_CHRMAT;
  CMRchrmatCreateFromSparseStream : FILE -> CMR_ERROR * option CMR_CHRMAT;
  (* matrix, "is the address of [submatrix] passed?" *)
  CMRtestGraphicMatrix : CMR_CHRMAT -> bool -> CMR_ERROR * TestOutput;
  CMRtestCographicMatrix : CMR_CHRMAT -> bool -> CMR_ERROR * TestOutput;
  CMRchrmatZoomSubmat : CMR_CHRMAT -> CMR_SUBMAT -> CMR_ERROR * option CMR_CHRMAT;
  CMRgraphCreateFromEdgeList :
    FILE -> CMR_ERROR * (option CMR_GRAPH * (CMR_GRAPH_EDGE -> CMR_ELEMENT));
  (* number of slots *)
  CMRallocBlockArray : nat -> CMR_ERROR;
  (* graph, "is [pmatrix] non-NULL?", "is [ptranspose] non-NULL?",
     numForestEdges, forestEdges, numCoforestEdges, coforestEdges *)
  CMRcomputeGraphicMatrix :
    CMR_GRAPH -> bool -> bool -> nat -> list CMR_GRAPH_EDGE -> nat ->
    list CMR_GRAPH_EDGE -> CMR_ERROR * ComputeOutput
}.

End Cmr.
Export Cmr.

(* ===================================================================== *)
(** ** Effects: output, library calls, error propagation *)
(* ===================================================================== *)

Module Run.

(** What a run of the program does that can be observed: text written to
    [stdout] by [printf] and [puts], a matrix handed to one of the library's
    printers for [stdout], and the request made to the reconstruction
    engine.  Diagnostics on [stderr] (they contain clock readings) are not
    recorded. *)
Inductive Event :=
| Stdout (text : string)
| ChrmatPrintDense (matrix : CMR_CHRMAT)
| ChrmatPrintSparse (matrix : CMR_CHRMAT)
| ComputeGraphicMatrix (pmatrix ptranspose : bool)
    (numForestEdges : nat) (forestEdges : list CMR_GRAPH_EDGE)
    (numCoforestEdges : nat) (coforestEdges : list CMR_GRAPH_EDGE).

(** How a function of return type [CMR_ERROR] ends: it reaches its
    [return CMR_OKAY] (or an intermediate value is available), it returns an
    error code, or it does something C leaves undefined (a [NULL]
    dereference, a read past the end of an array, a failed [assert]). *)
Inductive Outcome (A : Type) :=
| Return (a : A)
| Fail (error : CMR_ERROR)
| Undefined.
Arguments Return {A} a.
Arguments Fail {A} error.
Arguments Undefined {A}.

Definition Run (A : Type) : Type := list Event * Outcome A.

Definition ret {A} (a : A) : Run A := ([], Return a).
Definition fail {A} (error : CMR_ERROR) : Run A := ([], Fail error).
Definition undefined {A} : Run A := ([], Undefined).
Definition emit (e : Event) : Run unit := ([e], Return tt).

Definition bind {A B} (m : Run A) (k : A -> Run B) : Run B :=
  match m with
  | (t, Return a) => let (t', o) := k a in ((t ++ t')%list, o)
  | (t, Fail error) => (t, Fail error)
  | (t, Undefined) => (t, Undefined)
  end.

Definition trace {A} (m : Run A) : list Event := fst m.
Definition outcome {A} (m : Run A) : Outcome A := snd m.

(** [printf(...)] with the formatted text, and [puts(s)]. *)
Definition printf (text : string) : Run unit := emit (Stdout text).
Definition puts (s : string) : Run unit := emit (Stdout (s ++ nl)).

(** [CMR_CALL( f(..., &out) )]: a non-zero error code is returned at once,
    otherwise the run goes on with what the call stored. *)
Definition CMR_CALL {A} (call : CMR_ERROR * A) : Run A :=
  match call with
  | (CMR_OKAY, out) => ret out
  | (error, _) => fail error
  end.

(** [p->field] for a pointer [p]. *)
Definition deref {A} (p : option A) : Run A :=
  match p with
  | Some a => ret a
  | None => undefined
  end.

(** [array[i]] for an array the library allocated. *)
Definition read {A} (array : list A) (i : nat) : Run A := deref (array !! i).

(** [for (size_t i = 0; i < n; ++i) body(i)]. *)
Fixpoint forEach {A} (l : list A) (body : A -> Run unit) : Run unit :=
  match l with
  | [] => ret tt
  | x :: l' => bind (body x) (fun _ => forEach l' body)
  end.

Definition forRange (n : nat) (body : nat -> Run unit) : Run unit :=
  forEach (seq 0 n) body.

End Run.
Export Run.

Notation "'let*' x ':=' m 'in' k" := (bind m (fun x => k))
  (at level 10, x name, m at level 100, k at level 200).
Notation "m ';;;' k" := (bind m (fun _ => k))
  (at level 100, k at level 200, right associativity).

(* ===================================================================== *)
(** ** The program *)
(* ===================================================================== *)

Module Program.

(** *** Matrix to graph: [matrixToGraph], lines 47-246 *)

(** The statements every loop of lines 110-197 starts with:
<<
    CMR_GRAPH_EDGE e = edges[index];
    CMR_GRAPH_NODE u = CMRgraphEdgeU(graph, e);
    CMR_GRAPH_NODE v = CMRgraphEdgeV(graph, e);
    if (edgesReversed && edgesReversed[e]) { temp = u; u = v; v = temp; }
>>
    [edges] is [rowEdges] or [columnEdges]; the result is [(u, v)]. *)
Definition edgeEndpoints (graph : option CMR_GRAPH)
    (edgesReversed : option (CMR_GRAPH_EDGE -> bool))
    (edges : list CMR_GRAPH_EDGE) (index : nat)
    : Run (CMR_GRAPH_NODE * CMR_GRAPH_NODE) :=
  let* e := read edges index in
  let* g := deref graph in
  let u := CMRgraphEdgeU g e in
  let v := CMRgraphEdgeV g e in
  match edgesReversed with
  | Some reversed => if reversed e then ret (v, u) else ret (u, v)
  | None => ret (u, v)
  end.

(** [printf("%d %d r%ld\n", u, v, row+1)] (with [kind = "r"]) and
    [printf("%d %d c%ld\n", u, v, column+1)] (with [kind = "c"]). *)
Definition edgeListLine (kind : string) (index : nat)
    (uv : CMR_GRAPH_NODE * CMR_GRAPH_NODE) : string :=
  fmt_d (fst uv) ++ " " ++ fmt_d (snd uv) ++ " " ++ kind
    ++ fmt_ld (Z.of_nat index + 1) ++ nl.

(** The two [printf]s of the dot format, lines 182-183 and 196. *)
Definition dotRowLine (row : nat) (uv : CMR_GRAPH_NODE * CMR_GRAPH_NODE) : string :=
  " v_" ++ fmt_d (fst uv) ++ " -- v_" ++ fmt_d (snd uv) ++ " [label=" ++ dquote
    ++ CMRelementString (CMRrowToElement row) ++ dquote
    ++ ",style=bold,color=red];" ++ nl.

Definition dotColumnLine (column : nat) (uv : CMR_GRAPH_NODE * CMR_GRAPH_NODE) : string :=
  " v_" ++ fmt_d (fst uv) ++ " -- v_" ++ fmt_d (snd uv) ++ " [label=" ++ dquote
    ++ CMRelementString (CMRcolumnToElement column) ++ dquote ++ "];" ++ nl.

(** One loop of the serializer: for each [index] below [count], the edge is
    read from [edges] and its line is printed. *)
Definition printEdges (graph : option CMR_GRAPH)
    (edgesReversed : option (CMR_GRAPH_EDGE -> bool))
    (edges : list CMR_GRAPH_EDGE) (count : nat)
    (line : nat -> CMR_GRAPH_NODE * CMR_GRAPH_NODE -> string) : Run unit :=
  forRange count (fun index =>
    let* uv := edgeEndpoints graph edgesReversed edges index in
    printf (line index uv)).

(** Lines 106-199: the graph is written in [outputFormat]. *)
Definition printGraph (outputFormat : FileFormat) (cographic : bool)
    (matrix : CMR_CHRMAT) (graph : option CMR_GRAPH)
    (rowEdges columnEdges : list CMR_GRAPH_EDGE)
    (edgesReversed : option (CMR_GRAPH_EDGE -> bool)) : Run unit :=
  if FileFormat_eqb outputFormat FILEFORMAT_GRAPH_EDGELIST then
    if cographic then
      printEdges graph edgesReversed rowEdges (numColumns matrix) (edgeListLine "c") ;;;
      printEdges graph edgesReversed columnEdges (numRows matrix) (edgeListLine "r")
    else
      printEdges graph edgesReversed rowEdges (numRows matrix) (edgeListLine "r") ;;;
      printEdges graph edgesReversed columnEdges (numColumns matrix) (edgeListLine "c")
  else if FileFormat_eqb outputFormat FILEFORMAT_GRAPH_DOT then
    puts "graph G {" ;;;
    printEdges graph edgesReversed rowEdges (numRows matrix) dotRowLine ;;;
    printEdges graph edgesReversed columnEdges (numColumns matrix) dotColumnLine ;;;
    puts "}"
  else ret tt.

(** Lines 208-223: the elements of the violator.  The result is the value of
    the variable [submatrix] afterwards: [CMRsubmatFree(cmr, &submatrix)]
    releases the submatrix and resets the variable to [NULL].  (Line 238
    calls it again on the same variable, also when the variable was [NULL]
    all along; were the variable left dangling, lines 228 and 238 would use
    and release the memory a second time.) *)
Definition printViolatorElements (submatrix : option CMR_SUBMAT)
    (outputNonGraphicElements : bool) : Run (option CMR_SUBMAT) :=
  match submatrix with
  | Some sub =>
    if outputNonGraphicElements then
      printf (fmt_ld (Z.of_nat (length (rows sub))) ++ " rows:") ;;;
      forEach (rows sub) (fun r => printf (" " ++ fmt_ld (Z.of_nat r + 1))) ;;;
      printf (nl ++ fmt_ld (Z.of_nat (length (columns sub))) ++ " columns: ") ;;;
      forEach (columns sub) (fun c => printf (" " ++ fmt_ld (Z.of_nat c + 1))) ;;;
      printf nl ;;;
      ret None
    else ret submatrix
  | None => ret submatrix
  end.

(** Lines 225-236: the violator as a matrix, in the format of the input. *)
Definition printViolatorMatrix (w : World) (inputFormat : FileFormat)
    (matrix : CMR_CHRMAT) (submatrix : option CMR_SUBMAT)
    (outputNonGraphicMatrix : bool) : Run unit :=
  match submatrix with
  | Some sub =>
    if outputNonGraphicMatrix then
      let* zoomed := CMR_CALL (CMRchrmatZoomSubmat w matrix sub) in
      let* violatorMatrix := deref zoomed in
      if FileFormat_eqb inputFormat FILEFORMAT_MATRIX_DENSE then
        emit (ChrmatPrintDense violatorMatrix)
      else if FileFormat_eqb inputFormat FILEFORMAT_MATRIX_SPARSE then
        emit (ChrmatPrintSparse violatorMatrix)
      else ret tt
    else ret tt
  | None => ret tt
  end.

(** Lines 104-245: everything after the recognition call.  [edgesReversed]
    is the variable of line 83. *)
Definition matrixToGraph_output (w : World)
    (inputFormat outputFormat : FileFormat) (cographic : bool)
    (outputNonGraphicElements outputNonGraphicMatrix : bool)
    (matrix : CMR_CHRMAT) (isCoGraphic : bool) (graph : option CMR_GRAPH)
    (rowEdges columnEdges : list CMR_GRAPH_EDGE)
    (edgesReversed : option (CMR_GRAPH_EDGE -> bool))
    (submatrix : option CMR_SUBMAT) : Run unit :=
  (if isCoGraphic then
     printGraph outputFormat cographic matrix graph rowEdges columnEdges edgesReversed
   else ret tt) ;;;
  let* submatrix := printViolatorElements submatrix outputNonGraphicElements in
  printViolatorMatrix w inputFormat matrix submatrix outputNonGraphicMatrix.

(** [fopen] unless the name is [-], lines 58 and 259. *)
Definition openInstance (w : World) (instanceFileName : string) : option FILE :=
  if String.eqb instanceFileName "-" then Some (stdin w)
  else fopen w instanceFileName.

Definition matrixToGraph (w : World) (instanceFileName : string)
    (inputFormat outputFormat : FileFormat) (cographic : bool)
    (outputNonGraphicElements outputNonGraphicMatrix printStats : bool)
    : Run unit :=
  match openInstance w instanceFileName with
  | None => fail CMR_ERROR_INPUT
  | Some instanceFile =>
    CMR_CALL (CMRcreateEnvironment w, tt) ;;;
    (* Read matrix. *)
    let* matrix :=
      if FileFormat_eqb inputFormat FILEFORMAT_MATRIX_DENSE then
        CMR_CALL (CMRchrmatCreateFromDenseStream w instanceFile)
      else if FileFormat_eqb inputFormat FILEFORMAT_MATRIX_SPARSE then
        CMR_CALL (CMRchrmatCreateFromSparseStream w instanceFile)
      else ret None in
    let* matrix := deref matrix in    (* [matrix->numRows], line 74 *)
    (* Test for (co)graphicness. *)
    let edgesReversed : option (CMR_GRAPH_EDGE -> bool) := None in
    let psubmatrix := outputNonGraphicElements || outputNonGraphicMatrix in
    let* test :=
      if cographic then CMR_CALL (CMRtestCographicMatrix w matrix psubmatrix)
      else CMR_CALL (CMRtestGraphicMatrix w matrix psubmatrix) in
    let isCoGraphic := test_isGraphic test in
    let graph := test_graph test in
    let rowEdges := test_forestEdges test in
    let columnEdges := test_coforestEdges test in
    let submatrix := if psubmatrix then test_submatrix test else None in
    matrixToGraph_output w inputFormat outputFormat cographic
      outputNonGraphicElements outputNonGraphicMatrix
      matrix isCoGraphic graph rowEdges columnEdges edgesReversed submatrix
  end.

(** *** Graph to matrix: [graphToMatrix], lines 252-354 *)

(** Lines 278-288: the numbers of row-tagged and of column-tagged edges. *)
Definition countEdge (edgeElements : CMR_GRAPH_EDGE -> CMR_ELEMENT)
    (counts : nat * nat) (e : CMR_GRAPH_EDGE) : nat * nat :=
  let element := edgeElements e in
  if CMRelementIsRow element then (S (fst counts), snd counts)
  else if CMRelementIsColumn element then (fst counts, S (snd counts))
  else counts.

Definition countEdges (edgeElements : CMR_GRAPH_EDGE -> CMR_ELEMENT)
    (edges : list CMR_GRAPH_EDGE) : nat * nat :=
  fold_left (countEdge edgeElements) edges (0%nat, 0%nat).

(** Lines 293-294 and 297-298: [for (i = 0; i < n; ++i) block[i] = -1]. *)
Definition fillUnassigned (block : list CMR_GRAPH_EDGE) (n : nat)
    : list CMR_GRAPH_EDGE :=
  fold_left (fun array i => <[i := -1]> array) (seq 0 n) block.

(** Lines 302-315: the body of the extraction loop, on the two arrays. *)
Definition scanEdge (edgeElements : CMR_GRAPH_EDGE -> CMR_ELEMENT)
    (numForestEdges numCoforestEdges : nat)
    (arrays : list CMR_GRAPH_EDGE * list CMR_GRAPH_EDGE) (e : CMR_GRAPH_EDGE)
    : list CMR_GRAPH_EDGE * list CMR_GRAPH_EDGE :=
  let element := edgeElements e in
  if CMRelementIsRow element then
    let rowIndex := CMRelementToRowIndex element in
    if (rowIndex <? numForestEdges)%nat
    then (<[rowIndex := e]> (fst arrays), snd arrays)
    else arrays
  else if CMRelementIsColumn element then
    let columnIndex := CMRelementToColumnIndex element in
    if (columnIndex <? numCoforestEdges)%nat
    then (fst arrays, <[columnIndex := e]> (snd arrays))
    else arrays
  else arrays.

(** Lines 300-316: the extraction loop. *)
Definition scanEdges (edgeElements : CMR_GRAPH_EDGE -> CMR_ELEMENT)
    (numForestEdges numCoforestEdges : nat)
    (arrays : list CMR_GRAPH_EDGE * list CMR_GRAPH_EDGE)
    (edges : list CMR_GRAPH_EDGE) :=
  fold_left (scanEdge edgeElements numForestEdges numCoforestEdges) edges arrays.

(** Lines 277-316 without the two allocations: the counts and the arrays
    [forestEdges] and [coforestEdges].  A fresh block has as many slots as
    were asked for; what it holds does not matter, every slot is
    overwritten by [fillUnassigned] before it is read. *)
Definition extractForest (graph : CMR_GRAPH)
    (edgeElements : CMR_GRAPH_EDGE -> CMR_ELEMENT)
    : nat * nat * (list CMR_GRAPH_EDGE * list CMR_GRAPH_EDGE) :=
  let counts := countEdges edgeElements (graphEdges graph) in
  let numForestEdges := fst counts in
  let numCoforestEdges := snd counts in
  let forestEdges := fillUnassigned (replicate numForestEdges 0) numForestEdges in
  let coforestEdges := fillUnassigned (replicate numCoforestEdges 0) numCoforestEdges in
  (numForestEdges, numCoforestEdges,
   scanEdges edgeElements numForestEdges numCoforestEdges
     (forestEdges, coforestEdges) (graphEdges graph)).

(** A call [CMR_CALL( CMRcomputeGraphicMatrix(cmr, graph, pmatrix,
    ptranspose, numForestEdges, forestEdges, numCoforestEdges,
    coforestEdges, &isCorrectForest) )]. *)
Definition computeGraphicMatrix (w : World) (graph : CMR_GRAPH)
    (pmatrix ptranspose : bool)
    (numForestEdges : nat) (forestEdges : list CMR_GRAPH_EDGE)
    (numCoforestEdges : nat) (coforestEdges : list CMR_GRAPH_EDGE)
    : Run ComputeOutput :=
  emit (ComputeGraphicMatrix pmatrix ptranspose numForestEdges forestEdges
          numCoforestEdges coforestEdges) ;;;
  CMR_CALL (CMRcomputeGraphicMatrix w graph pmatrix ptranspose numForestEdges
              forestEdges numCoforestEdges coforestEdges).

(** Lines 337-342.  For an output format that is not a matrix format the
    source has [assert(false)]: a build with assertions ends the process
    there, a build without them ([NDEBUG]) prints nothing and goes on.  The
    source does not settle which, and the run is left undetermined
    ([Undefined]); [main] calls [graphToMatrix] with a matrix format only,
    and every statement about this function is for a matrix format or holds
    for both builds. *)
Definition printMatrix (outputFormat : FileFormat) (matrix : option CMR_CHRMAT)
    : Run unit :=
  if FileFormat_eqb outputFormat FILEFORMAT_MATRIX_DENSE then
    let* m := deref matrix in emit (ChrmatPrintDense m)
  else if FileFormat_eqb outputFormat FILEFORMAT_MATRIX_SPARSE then
    let* m := deref matrix in emit (ChrmatPrintSparse m)
  else undefined.   (* [assert(false)] *)

Definition graphToMatrix (w : World) (instanceFileName : string)
    (inputFormat outputFormat : FileFormat) (cographic : bool) : Run unit :=
  match openInstance w instanceFileName with
  | None => fail CMR_ERROR_INPUT
  | Some instanceFile =>
    CMR_CALL (CMRcreateEnvironment w, tt) ;;;
    (* Read edge list. *)
    let* input :=
      if FileFormat_eqb inputFormat FILEFORMAT_GRAPH_EDGELIST then
        CMR_CALL (CMRgraphCreateFromEdgeList w instanceFile)
      else ret (None, fun _ => Untagged) in
    let edgeElements := snd input in
    let* graph := deref (fst input) in   (* [CMRgraphEdgesFirst(graph)] *)
    (* Scan edges for (co)forest edges. *)
    let counts := countEdges edgeElements (graphEdges graph) in
    let numForestEdges := fst counts in
    let numCoforestEdges := snd counts in
    (* Create list of (co)forest edges. *)
    CMR_CALL (CMRallocBlockArray w numForestEdges, tt) ;;;
    let forestEdges := fillUnassigned (replicate numForestEdges 0) numForestEdges in
    CMR_CALL (CMRallocBlockArray w numCoforestEdges, tt) ;;;
    let coforestEdges := fillUnassigned (replicate numCoforestEdges 0) numCoforestEdges in
    let arrays := scanEdges edgeElements numForestEdges numCoforestEdges
                    (forestEdges, coforestEdges) (graphEdges graph) in
    let forestEdges := fst arrays in
    let coforestEdges := snd arrays in
    let* matrix :=
      if cographic then
        let* out := computeGraphicMatrix w graph false true numForestEdges
                      forestEdges numCoforestEdges coforestEdges in
        ret (compute_transpose out)
      else
        let* out := computeGraphicMatrix w graph true false numForestEdges
                      forestEdges numCoforestEdges coforestEdges in
        ret (compute_matrix out) in
    printMatrix outputFormat matrix
  end.

(** *** The command line: [printUsage] and [main], lines 26-41 and 356-481 *)

Definition printUsage (program : string) : Run Z :=
  printf ("Usage: " ++ program ++ " [OPTION]... FILE" ++ nl ++ nl) ;;;
  puts "Converts graph to (co)graphic matrix or tests if matrix is (co)graphic, depending on input FILE." ;;;
  puts "Options:" ;;;
  puts "  -i FORMAT  Format of input FILE; default: `dense'." ;;;
  puts "  -o FORMAT  Format of output; default: `edgelist' if input is a matrix and `dense' if input is a graph." ;;;
  puts "  -t         Tests for being / converts to cographic matrix." ;;;
  puts "  -n         Output the elements of a minimal non-(co)graphic submatrix." ;;;
  puts "  -N         Output a minimal non-(co)graphic submatrix." ;;;
  puts "  -s         Print statistics about the computation to stderr." ;;;
  puts "Formats for matrices: dense, sparse" ;;;
  puts "Formats for graphs: edgelist, dot (output only)" ;;;
  puts "If FILE is `-', then the input will be read from stdin." ;;;
  ret EXIT_FAILURE.

(** The local variables of [main] that the options set, lines 358-364. *)
Record Options := {
  inputFormat : FileFormat;
  outputFormat : FileFormat;
  transposed : bool;
  instanceFileName : option string;
  outputNonGraphicElements : bool;
  outputNonGraphicMatrix : bool;
  printStats : bool
}.

Definition initialOptions : Options :=
  {| inputFormat := FILEFORMAT_UNDEFINED; outputFormat := FILEFORMAT_UNDEFINED;
     transposed := false; instanceFileName := None;
     outputNonGraphicElements := false; outputNonGraphicMatrix := false;
     printStats := false |}.

Definition setInputFormat (f : FileFormat) (o : Options) : Options :=
  {| inputFormat := f; outputFormat := outputFormat o;
     transposed := transposed o; instanceFileName := instanceFileName o;
     outputNonGraphicElements := outputNonGraphicElements o;
     outputNonGraphicMatrix := outputNonGraphicMatrix o;
     printStats := printStats o |}.

Definition setOutputFormat (f : FileFormat) (o : Options) : Options :=
  {| inputFormat := inputFormat o; outputFormat := f;
     transposed := transposed o; instanceFileName := instanceFileName o;
     outputNonGraphicElements := outputNonGraphicElements o;
     outputNonGraphicMatrix := outputNonGraphicMatrix o;
     printStats := printStats o |}.

Definition setTransposed (o : Options) : Options :=
  {| inputFormat := inputFormat o; outputFormat := outputFormat o;
     transposed := true; instanceFileName := instanceFileName o;
     outputNonGraphicElements := outputNonGraphicElements o;
     outputNonGraphicMatrix := outputNonGraphicMatrix o;
     printStats := printStats o |}.

Definition setInstanceFileName (name : string) (o : Options) : Options :=
  {| inputFormat := inputFormat o; outputFormat := outputFormat o;
     transposed := transposed o; instanceFileName := Some name;
     outputNonGraphicElements := outputNonGraphicElements o;
     outputNonGraphicMatrix := outputNonGraphicMatrix o;
     printStats := printStats o |}.

Definition setOutputNonGraphicElements (o : Options) : Options :=
  {| inputFormat := inputFormat o; outputFormat := outputFormat o;
     transposed := transposed o; instanceFileName := instanceFileName o;
     outputNonGraphicElements := true;
     outputNonGraphicMatrix := outputNonGraphicMatrix o;
     printStats := printStats o |}.

Definition setOutputNonGraphicMatrix (o : Options) : Options :=
  {| inputFormat := inputFormat o; outputFormat := outputFormat o;
     transposed := transposed o; instanceFileName := instanceFileName o;
     outputNonGraphicElements := outputNonGraphicElements o;
     outputNonGraphicMatrix := true;
     printStats := printStats o |}.

Definition setPrintStats (o : Options) : Options :=
  {| inputFormat := inputFormat o; outputFormat := outputFormat o;
     transposed := transposed o; instanceFileName := instanceFileName o;
     outputNonGraphicElements := outputNonGraphicElements o;
     outputNonGraphicMatrix := outputNonGraphicMatrix o;
     printStats := true |}.

(** [return printUsage(argv[0])] after a message. *)
Definition usageError {A} (program message : string) : Run (Z + A) :=
  printf message ;;;
  let* code := printUsage program in
  ret (inl code).

(** Lines 365-419: the loop over [argv[1..argc)].  The result is [inl code]
    when [main] returns from inside the loop, and the options otherwise. *)
Fixpoint parseArguments (program : string) (args : list string) (o : Options)
    : Run (Z + Options) :=
  match args with
  | [] => ret (inr o)
  | arg :: rest =>
    let positional :=      (* lines 412-418 *)
      match instanceFileName o with
      | None => parseArguments program rest (setInstanceFileName arg o)
      | Some name =>
        usageError program
          ("Error: Two input files <" ++ name ++ "> and <" ++ arg ++ "> specified."
             ++ nl ++ nl)
      end in
    if String.eqb arg "-h" then
      printUsage program ;;; ret (inl EXIT_SUCCESS)
    else if String.eqb arg "-t" then parseArguments program rest (setTransposed o)
    else if String.eqb arg "-n" then
      parseArguments program rest (setOutputNonGraphicElements o)
    else if String.eqb arg "-N" then
      parseArguments program rest (setOutputNonGraphicMatrix o)
    else if String.eqb arg "-s" then parseArguments program rest (setPrintStats o)
    else if String.eqb arg "-i" then
      match rest with
      | value :: rest' =>
        if String.eqb value "dense" then
          parseArguments program rest' (setInputFormat FILEFORMAT_MATRIX_DENSE o)
        else if String.eqb value "sparse" then
          parseArguments program rest' (setInputFormat FILEFORMAT_MATRIX_SPARSE o)
        else if String.eqb value "edgelist" then
          parseArguments program rest' (setInputFormat FILEFORMAT_GRAPH_EDGELIST o)
        else
          usageError program
            ("Error: unknown input file format <" ++ value ++ ">." ++ nl ++ nl)
      | [] => positional     (* [a+1 < argc] fails *)
      end
    else if String.eqb arg "-o" then
      match rest with
      | value :: rest' =>
        if String.eqb value "dense" then
          parseArguments program rest' (setOutputFormat FILEFORMAT_MATRIX_DENSE o)
        else if String.eqb value "sparse" then
          parseArguments program rest' (setOutputFormat FILEFORMAT_MATRIX_SPARSE o)
        else if String.eqb value "edgelist" then
          parseArguments program rest' (setOutputFormat FILEFORMAT_GRAPH_EDGELIST o)
        else if String.eqb value "dot" then
          parseArguments program rest' (setOutputFormat FILEFORMAT_GRAPH_DOT o)
        else
          usageError program
            ("Error: unknown output format <" ++ value ++ ">." ++ nl ++ nl)
      | [] => positional
      end
    else positional
  end.

Definition isMatrixFormat (f : FileFormat) : bool :=
  FileFormat_eqb f FILEFORMAT_MATRIX_DENSE || FileFormat_eqb f FILEFORMAT_MATRIX_SPARSE.

(** What [main] has decided when it reaches line 461. *)
Record Job := {
  job_instanceFileName : string;
  job_inputFormat : FileFormat;
  job_outputFormat : FileFormat
}.

(** Lines 421-459: the file name must be there, and the two formats are
    completed or rejected. *)
Definition resolveFormats (program : string) (o : Options) : Run (Z + Job) :=
  match instanceFileName o with
  | None => usageError program ("No input file specified." ++ nl ++ nl)
  | Some name =>
    let job i f := ret (inr {| job_instanceFileName := name;
                               job_inputFormat := i; job_outputFormat := f |}) in
    if FileFormat_eqb (inputFormat o) FILEFORMAT_UNDEFINED then
      if FileFormat_eqb (outputFormat o) FILEFORMAT_UNDEFINED then
        job FILEFORMAT_MATRIX_DENSE FILEFORMAT_GRAPH_EDGELIST
      else if isMatrixFormat (outputFormat o) then
        job FILEFORMAT_GRAPH_EDGELIST (outputFormat o)
      else job FILEFORMAT_MATRIX_DENSE (outputFormat o)
    else if isMatrixFormat (inputFormat o) then
      if FileFormat_eqb (outputFormat o) FILEFORMAT_UNDEFINED then
        job (inputFormat o) FILEFORMAT_GRAPH_EDGELIST
      else if isMatrixFormat (outputFormat o) then
        usageError program ("Either input or output must be a graph." ++ nl ++ nl)
      else job (inputFormat o) (outputFormat o)
    else
      (* Input format is graph format. *)
      if FileFormat_eqb (outputFormat o) FILEFORMAT_UNDEFINED then
        job (inputFormat o) FILEFORMAT_MATRIX_DENSE
      else if negb (isMatrixFormat (outputFormat o)) then
        usageError program ("Either input or output must be a matrix." ++ nl ++ nl)
      else job (inputFormat o) (outputFormat o)
  end.

(** Lines 358-459: [inl code] when [main] returns before any conversion. *)
Definition setup (argv : list string) : Run (Z + (Options * Job)) :=
  let program := hd "" argv in
  let* parsed := parseArguments program (tl argv) initialOptions in
  match parsed with
  | inl code => ret (inl code)
  | inr o =>
    let* resolved := resolveFormats program o in
    match resolved with
    | inl code => ret (inl code)
    | inr job => ret (inr (o, job))
    end
  end.

(** The value a function of return type [CMR_ERROR] hands to its caller. *)
Definition returned (call : Run unit) : Run CMR_ERROR :=
  match call with
  | (t, Return _) => (t, Return CMR_OKAY)
  | (t, Fail error) => (t, Return error)
  | (t, Undefined) => (t, Undefined)
  end.

(** Lines 461-468: the value assigned to [error]. *)
Definition convert (w : World) (o : Options) (job : Job) : Run CMR_ERROR :=
  if isMatrixFormat (job_inputFormat job) then
    returned (matrixToGraph w (job_instanceFileName job) (job_inputFormat job)
                (job_outputFormat job) (transposed o) (outputNonGraphicElements o)
                (outputNonGraphicMatrix o) (printStats o))
  else
    returned (graphToMatrix w (job_instanceFileName job) (job_inputFormat job)
                (job_outputFormat job) (transposed o)).

(** Lines 470-480: the [switch]. *)
Definition exitCode (error : CMR_ERROR) : Run Z :=
  match error with
  | CMR_ERROR_INPUT => puts "Input error." ;;; ret EXIT_FAILURE
  | CMR_ERROR_MEMORY => puts "Memory error." ;;; ret EXIT_FAILURE
  | _ => ret EXIT_SUCCESS
  end.

Definition main (w : World) (argv : list string) : Run Z :=
  let* ready := setup argv in
  match ready with
  | inl code => ret code
  | inr (o, job) =>
    let* error := convert w o job in
    exitCode error
  end.

End Program.
Export Program.

(* ===================================================================== *)
(** ** Reading the output *)
(* ===================================================================== *)

Module Expected.

(** Whether the reversal flag of edge [e] is present and set. *)
Definition reversed (edgesReversed : option (CMR_GRAPH_EDGE -> bool))
    (e : CMR_GRAPH_EDGE) : bool :=
  match edgesReversed with
  | Some flags => flags e
  | None => false
  end.

(** The end nodes of [e] in the order they are to be printed. *)
Definition endpoints (g : CMR_GRAPH)
    (edgesReversed : option (CMR_GRAPH_EDGE -> bool)) (e : CMR_GRAPH_EDGE)
    : CMR_GRAPH_NODE * CMR_GRAPH_NODE :=
  if reversed edgesReversed e
  then (CMRgraphEdgeV g e, CMRgraphEdgeU g e)
  else (CMRgraphEdgeU g e, CMRgraphEdgeV g e).

(** The line ["<u> <v> <kind><index+1>"] of the edge-list format. *)
Definition line (u v : Z) (kind : string) (index : nat) : Event :=
  Stdout (fmt_d u ++ " " ++ fmt_d v ++ " " ++ kind ++ fmt_ld (Z.of_nat index + 1) ++ nl).

(** The edge-list lines of [count] rows (or columns) whose edges are given
    by [edge]. *)
Definition lines (g : CMR_GRAPH) (edgesReversed : option (CMR_GRAPH_EDGE -> bool))
    (kind : string) (count : nat) (edge : nat -> CMR_GRAPH_EDGE) : list Event :=
  map (fun index =>
         let uv := endpoints g edgesReversed (edge index) in
         line (fst uv) (snd uv) kind index)
      (seq 0 count).

(** The lines of one loop when every edge is printed from U to V. *)
Definition linesUV (g : CMR_GRAPH) (count : nat) (edge : nat -> CMR_GRAPH_EDGE)
    (text : nat -> CMR_GRAPH_NODE * CMR_GRAPH_NODE -> string) : list Event :=
  map (fun index =>
         Stdout (text index (CMRgraphEdgeU g (edge index), CMRgraphEdgeV g (edge index))))
      (seq 0 count).

(** Is this event a request to the reconstruction engine? *)
Definition isRequest (e : Event) : bool :=
  match e with
  | ComputeGraphicMatrix _ _ _ _ _ _ => true
  | _ => false
  end.

(** Is this event a matrix handed to a printer? *)
Definition isMatrixPrint (e : Event) : bool :=
  match e with
  | ChrmatPrintDense _ | ChrmatPrintSparse _ => true
  | _ => false
  end.

(** Whether the serializer reads the columns from its first array and the
    rows from its second. *)
Definition swapsRoles (outputFormat : FileFormat) (cographic : bool) : bool :=
  cographic && FileFormat_eqb outputFormat FILEFORMAT_GRAPH_EDGELIST.

(** The text of a graph in [outputFormat] when every edge is printed from
    its node U to its node V. *)
Definition graphTextUV (outputFormat : FileFormat) (cographic : bool)
    (matrix : CMR_CHRMAT) (g : CMR_GRAPH)
    (rowEdges columnEdges : list CMR_GRAPH_EDGE) : list Event :=
  let slot (edges : list CMR_GRAPH_EDGE) index := nth index edges (-1) in
  match outputFormat with
  | FILEFORMAT_GRAPH_EDGELIST =>
    if cographic then
      linesUV g (numColumns matrix) (slot rowEdges) (edgeListLine "c")
        ++ linesUV g (numRows matrix) (slot columnEdges) (edgeListLine "r")
    else
      linesUV g (numRows matrix) (slot rowEdges) (edgeListLine "r")
        ++ linesUV g (numColumns matrix) (slot columnEdges) (edgeListLine "c")
  | FILEFORMAT_GRAPH_DOT =>
    Stdout ("graph G {" ++ nl)
      :: linesUV g (numRows matrix) (slot rowEdges) dotRowLine
      ++ linesUV g (numColumns matrix) (slot columnEdges) dotColumnLine
      ++ [Stdout ("}" ++ nl)]
  | _ => []
  end%list.

(** The text of the element list of a violator, lines 214-220. *)
Definition violatorElementsText (sub : CMR_SUBMAT) : list Event :=
  (Stdout (fmt_ld (Z.of_nat (length (rows sub))) ++ " rows:")
     :: map (fun r => Stdout (" " ++ fmt_ld (Z.of_nat r + 1))) (rows sub)
     ++ Stdout (nl ++ fmt_ld (Z.of_nat (length (columns sub))) ++ " columns: ")
     :: map (fun c => Stdout (" " ++ fmt_ld (Z.of_nat c + 1))) (columns sub)
     ++ [Stdout nl])%list.

(** The matrix the library reads from [file] when the input format is
    [inputFormat], lines 67-71. *)
Definition readMatrix (w : World) (inputFormat : FileFormat) (file : FILE)
    : CMR_ERROR * option CMR_CHRMAT :=
  if FileFormat_eqb inputFormat FILEFORMAT_MATRIX_DENSE then
    CMRchrmatCreateFromDenseStream w file
  else if FileFormat_eqb inputFormat FILEFORMAT_MATRIX_SPARSE then
    CMRchrmatCreateFromSparseStream w file
  else (CMR_OKAY, None).

(** The answer of the recognition call of lines 89-98. *)
Definition testMatrix (w : World) (cographic : bool) (matrix : CMR_CHRMAT)
    (psubmatrix : bool) : CMR_ERROR * TestOutput :=
  if cographic then CMRtestCographicMatrix w matrix psubmatrix
  else CMRtestGraphicMatrix w matrix psubmatrix.

(** A run of [graphToMatrix] gets as far as the reconstruction engine: the
    file opens, the library reads the graph [g] with the tags
    [edgeElements] from it, and the two arrays are allocated. *)
Definition reachesEngine (w : World) (name : string) (inputFormat : FileFormat)
    (g : CMR_GRAPH) (edgeElements : CMR_GRAPH_EDGE -> CMR_ELEMENT) : Prop :=
  exists file,
    openInstance w name = Some file /\
    CMRcreateEnvironment w = CMR_OKAY /\
    inputFormat = FILEFORMAT_GRAPH_EDGELIST /\
    CMRgraphCreateFromEdgeList w file = (CMR_OKAY, (Some g, edgeElements)) /\
    CMRallocBlockArray w (fst (countEdges edgeElements (graphEdges g))) = CMR_OKAY /\
    CMRallocBlockArray w (snd (countEdges edgeElements (graphEdges g))) = CMR_OKAY.

(** The request [graphToMatrix] makes for the graph [g]: the matrix in the
    slot [pmatrix] or in the slot [ptranspose], with the extracted arrays. *)
Definition requestFor (pmatrix ptranspose : bool) (g : CMR_GRAPH)
    (edgeElements : CMR_GRAPH_EDGE -> CMR_ELEMENT) : Event :=
  let extracted := extractForest g edgeElements in
  ComputeGraphicMatrix pmatrix ptranspose
    (fst (fst extracted)) (fst (snd extracted))
    (snd (fst extracted)) (snd (snd extracted)).

(** The answer of the engine to that request. *)
Definition answerFor (w : World) (pmatrix ptranspose : bool) (g : CMR_GRAPH)
    (edgeElements : CMR_GRAPH_EDGE -> CMR_ELEMENT) : CMR_ERROR * ComputeOutput :=
  let extracted := extractForest g edgeElements in
  CMRcomputeGraphicMatrix w g pmatrix ptranspose
    (fst (fst extracted)) (fst (snd extracted))
    (snd (fst extracted)) (snd (snd extracted)).

(** A matrix handed to the printer of [outputFormat]. *)
Definition matrixPrint (outputFormat : FileFormat) (matrix : CMR_CHRMAT) : Event :=
  if FileFormat_eqb outputFormat FILEFORMAT_MATRIX_DENSE
  then ChrmatPrintDense matrix
  else ChrmatPrintSparse matrix.

(** [main] returns from its command-line handling with [code], before any
    conversion is started. *)
Definition returnsEarly (argv : list string) (code : Z) : Prop :=
  outcome (setup argv) = Return (inl code).

(** The command line is rejected: [main] returns what [printUsage]
    returns. *)
Definition rejected (argv : list string) : Prop := returnsEarly argv EXIT_FAILURE.

(** The conversion is started and returns [error] to [main]. *)
Definition conversionReturns (w : World) (argv : list string) (error : CMR_ERROR)
    : Prop :=
  exists o job,
    outcome (setup argv) = Return (inr (o, job)) /\
    outcome (convert w o job) = Return error.

(** The process ends with exit code [code]. *)
Definition exitsWith (w : World) (argv : list string) (code : Z) : Prop :=
  outcome (main w argv) = Return code.

(** The three ways the command-line loop can end. *)
Definition endsParsing {A} (result : Outcome (Z + A)) : Prop :=
  result = Return (inl EXIT_SUCCESS) \/
  result = Return (inl EXIT_FAILURE) \/
  exists a, result = Return (inr a).

End Expected.
Export Expected.

(* ===================================================================== *)
(** ** Sample inputs *)
(* ===================================================================== *)

Module Samples.

(** A library that reads [matrix] from every stream and answers the two
    recognition calls with [graphic] and [cographic]. *)
Definition matrixWorld (matrix : CMR_CHRMAT) (graphic cographic : TestOutput)
    (zoomed : option CMR_CHRMAT) : World :=
  {| fopen := fun _ => Some "";
     stdin := "";
     CMRcreateEnvironment := CMR_OKAY;
     CMRchrmatCreateFromDenseStream := fun _ => (CMR_OKAY, Some matrix);
     CMRchrmatCreateFromSparseStream := fun _ => (CMR_OKAY, Some matrix);
     CMRtestGraphicMatrix := fun _ _ => (CMR_OKAY, graphic);
     CMRtestCographicMatrix := fun _ _ => (CMR_OKAY, cographic);
     CMRchrmatZoomSubmat := fun _ _ => (CMR_OKAY, zoomed);
     CMRgraphCreateFromEdgeList := fun _ => (CMR_ERROR_INPUT, (None, fun _ => Untagged));
     CMRallocBlockArray := fun _ => CMR_OKAY;
     CMRcomputeGraphicMatrix := fun _ _ _ _ _ _ _ =>
       (CMR_ERROR_OTHER,
        {| compute_matrix := None; compute_transpose := None;
           compute_isCorrectForest := false |}) |}.

(** A library that reads [graph] with the tags [edgeElements] from every
    stream and answers the reconstruction call with [out]. *)
Definition graphWorld (graph : CMR_GRAPH)
    (edgeElements : CMR_GRAPH_EDGE -> CMR_ELEMENT) (out : ComputeOutput) : World :=
  {| fopen := fun _ => Some "";
     stdin := "";
     CMRcreateEnvironment := CMR_OKAY;
     CMRchrmatCreateFromDenseStream := fun _ => (CMR_ERROR_INPUT, None);
     CMRchrmatCreateFromSparseStream := fun _ => (CMR_ERROR_INPUT, None);
     CMRtestGraphicMatrix := fun _ _ =>
       (CMR_ERROR_OTHER,
        {| test_isGraphic := false; test_graph := None; test_forestEdges := [];
           test_coforestEdges := []; test_submatrix := None |});
     CMRtestCographicMatrix := fun _ _ =>
       (CMR_ERROR_OTHER,
        {| test_isGraphic := false; test_graph := None; test_forestEdges := [];
           test_coforestEdges := []; test_submatrix := None |});
     CMRchrmatZoomSubmat := fun _ _ => (CMR_ERROR_OTHER, None);
     CMRgraphCreateFromEdgeList := fun _ => (CMR_OKAY, (Some graph, edgeElements));
     CMRallocBlockArray := fun _ => CMR_OKAY;
     CMRcomputeGraphicMatrix := fun _ _ _ _ _ _ _ => (CMR_OKAY, out) |}.

(** Four edges on the nodes 0, 1, 2: edge 0 joins 0 and 1, edge 1 joins 1
    and 2, edge 2 joins 0 and 2, edge 3 joins 1 and 2 again. *)
Definition fourEdges : CMR_GRAPH :=
  {| graphEdges := [0; 1; 2; 3];
     CMRgraphEdgeU := fun e => if Z.eqb e 0 then 0 else if Z.eqb e 2 then 0 else 1;
     CMRgraphEdgeV := fun e => if Z.eqb e 0 then 1 else 2 |}.

(** The matrix [[1,0],[0,1]] and a graph for it: the rows are the edges 0
    and 1 of the path 0 - 1 - 2, and each column is an edge parallel to the
    edge of its row. *)
Definition identity2 : CMR_CHRMAT :=
  {| numRows := 2; numColumns := 2; entries := [[1; 0]; [0; 1]] |}.

Definition identity2Graph : CMR_GRAPH :=
  {| graphEdges := [0; 1; 2; 3];
     CMRgraphEdgeU := fun e => if Z.eqb e 0 then 0 else if Z.eqb e 2 then 0 else 1;
     CMRgraphEdgeV := fun e => if Z.eqb e 0 then 1 else if Z.eqb e 2 then 1 else 2 |}.

(** The matrix [[1,1],[0,1]] is cographic: its transpose is the matrix of
    [fourEdges] for the forest of the edges 0 and 1.  The cographic test
    hands back the edges of the two columns (0 and 1) in its first array
    and the edges of the two rows (2 and 3) in its second. *)
Definition triangular2 : CMR_CHRMAT :=
  {| numRows := 2; numColumns := 2; entries := [[1; 1]; [0; 1]] |}.

Definition triangular2Cographic : TestOutput :=
  {| test_isGraphic := true; test_graph := Some fourEdges;
     test_forestEdges := [0; 1]; test_coforestEdges := [2; 3];
     test_submatrix := None |}.

(** The matrix of the Fano matroid is neither graphic nor cographic, and
    no proper submatrix of it is a violator: the violator is all of it. *)
Definition fano : CMR_CHRMAT :=
  {| numRows := 3; numColumns := 4;
     entries := [[1; 1; 0; 1]; [1; 0; 1; 1]; [0; 1; 1; 1]] |}.

Definition fanoNotGraphic : TestOutput :=
  {| test_isGraphic := false; test_graph := None; test_forestEdges := [];
     test_coforestEdges := [];
     test_submatrix := Some {| rows := [0; 1; 2]%nat; columns := [0; 1; 2; 3]%nat |} |}.

(** A tagged input graph: a triangle whose edges 0 and 1 are the rows 1 and
    2 and whose edge 2 is column 1. *)
Definition triangle : CMR_GRAPH :=
  {| graphEdges := [0; 1; 2];
     CMRgraphEdgeU := fun e => e;
     CMRgraphEdgeV := fun e => (e + 1) mod 3 |}.

Definition triangleElements (e : CMR_GRAPH_EDGE) : CMR_ELEMENT :=
  if Z.eqb e 0 then Row 0 else if Z.eqb e 1 then Row 1 else if Z.eqb e 2 then Column 0
  else Untagged.

(** The same triangle with tags out of range: edge 0 is row 8, edge 1 has
    no tag, edge 2 is column 5. *)
Definition strayElements (e : CMR_GRAPH_EDGE) : CMR_ELEMENT :=
  if Z.eqb e 0 then Row 8 else if Z.eqb e 2 then Column 5 else Untagged.

Definition rowColumn : CMR_CHRMAT :=
  {| numRows := 2; numColumns := 1; entries := [[1]; [1]] |}.

End Samples.
Export Samples.

(* ===================================================================== *)
(** ** Further vocabulary: the command line, the violator, the extraction *)
(* ===================================================================== *)

Module Behaviour.

(** The text [printUsage] writes. *)
Definition usageText (program : string) : list Event := trace (printUsage program).

(** [o'] is obtained from [o] by the assignments the loop over the arguments
    can make: the four flags, an input format out of dense, sparse and
    edgelist, an output format out of these and dot, and the file name while
    there is none yet. *)
Inductive assigned (o : Options) : Options -> Prop :=
| assigned_none : assigned o o
| assigned_transposed o' : assigned (setTransposed o) o' -> assigned o o'
| assigned_elements o' : assigned (setOutputNonGraphicElements o) o' -> assigned o o'
| assigned_matrix o' : assigned (setOutputNonGraphicMatrix o) o' -> assigned o o'
| assigned_stats o' : assigned (setPrintStats o) o' -> assigned o o'
| assigned_input f o' :
    f = FILEFORMAT_MATRIX_DENSE \/ f = FILEFORMAT_MATRIX_SPARSE \/
    f = FILEFORMAT_GRAPH_EDGELIST ->
    assigned (setInputFormat f o) o' -> assigned o o'
| assigned_output f o' :
    f <> FILEFORMAT_UNDEFINED ->
    assigned (setOutputFormat f o) o' -> assigned o o'
| assigned_file name o' :
    instanceFileName o = None ->
    assigned (setInstanceFileName name o) o' -> assigned o o'.

(** What a run of the command-line handling looks like from outside: either
    it has printed nothing and hands on a value that satisfies [good], or it
    has ended [main]: with [EXIT_SUCCESS] after the usage text alone, or
    with [EXIT_FAILURE] after one message and the usage text. *)
Definition handled {A} (program : string) (good : A -> Prop) (run : Run (Z + A))
    : Prop :=
  match run with
  | (t, Return (inr a)) => t = [] /\ good a
  | (t, Return (inl code)) =>
    (code = EXIT_SUCCESS /\ t = usageText program) \/
    (code = EXIT_FAILURE /\ exists message, t = Stdout message :: usageText program)
  | _ => False
  end.

(** A job with one matrix format and one graph format, as the two
    conversions expect them. *)
Definition wellFormed (job : Job) : Prop :=
  (isMatrixFormat (job_inputFormat job) = true /\
   (job_outputFormat job = FILEFORMAT_GRAPH_EDGELIST \/
    job_outputFormat job = FILEFORMAT_GRAPH_DOT))
  \/
  (job_inputFormat job = FILEFORMAT_GRAPH_EDGELIST /\
   isMatrixFormat (job_outputFormat job) = true).

(** What [main] prints after the conversion has returned [error]. *)
Definition errorText (error : CMR_ERROR) : list Event :=
  match error with
  | CMR_ERROR_INPUT => [Stdout ("Input error." ++ nl)]
  | CMR_ERROR_MEMORY => [Stdout ("Memory error." ++ nl)]
  | _ => []
  end.

(** A link of the dot format: [ v_<u> -- v_<v> [label="<label>"<attributes>];]. *)
Definition dotEdge (u v : Z) (label attributes : string) : Event :=
  Stdout (" v_" ++ fmt_d u ++ " -- v_" ++ fmt_d v ++ " [label=" ++ dquote ++ label
            ++ dquote ++ attributes ++ "];" ++ nl).

(** The links of [count] rows (or columns) whose edges are given by [edge]:
    the label is [kind] followed by the 1-based index. *)
Definition dotEdges (g : CMR_GRAPH) (edgesReversed : option (CMR_GRAPH_EDGE -> bool))
    (kind attributes : string) (count : nat) (edge : nat -> CMR_GRAPH_EDGE)
    : list Event :=
  map (fun index =>
         let uv := endpoints g edgesReversed (edge index) in
         dotEdge (fst uv) (snd uv) (kind ++ fmt_d (Z.of_nat index + 1)) attributes)
      (seq 0 count).

(** A run of [matrixToGraph] gets as far as the answer of the test: the file
    opens, the library reads [matrix] from it and the test answers [test]
    without an error. *)
Definition testAnswers (w : World) (name : string) (inputFormat : FileFormat)
    (cographic psubmatrix : bool) (matrix : CMR_CHRMAT) (test : TestOutput) : Prop :=
  exists file,
    openInstance w name = Some file /\
    CMRcreateEnvironment w = CMR_OKAY /\
    readMatrix w inputFormat file = (CMR_OKAY, Some matrix) /\
    testMatrix w cographic matrix psubmatrix = (CMR_OKAY, test).

(** A library like [matrixWorld] whose files cannot be opened. *)
Definition closedWorld (w : World) : World :=
  {| fopen := fun _ => None;
     stdin := stdin w;
     CMRcreateEnvironment := CMRcreateEnvironment w;
     CMRchrmatCreateFromDenseStream := CMRchrmatCreateFromDenseStream w;
     CMRchrmatCreateFromSparseStream := CMRchrmatCreateFromSparseStream w;
     CMRtestGraphicMatrix := CMRtestGraphicMatrix w;
     CMRtestCographicMatrix := CMRtestCographicMatrix w;
     CMRchrmatZoomSubmat := CMRchrmatZoomSubmat w;
     CMRgraphCreateFromEdgeList := CMRgraphCreateFromEdgeList w;
     CMRallocBlockArray := CMRallocBlockArray w;
     CMRcomputeGraphicMatrix := CMRcomputeGraphicMatrix w |}.

(** Equality of elements. *)
Definition CMR_ELEMENT_eqb (a b : CMR_ELEMENT) : bool :=
  match a, b with
  | Row i, Row j => Nat.eqb i j
  | Column i, Column j => Nat.eqb i j
  | Untagged, Untagged => true
  | _, _ => false
  end.

(** The edges that carry the tag [element], in the order of enumeration. *)
Definition tagged (edgeElements : CMR_GRAPH_EDGE -> CMR_ELEMENT)
    (element : CMR_ELEMENT) (edges : list CMR_GRAPH_EDGE) : list CMR_GRAPH_EDGE :=
  List.filter (fun e => CMR_ELEMENT_eqb (edgeElements e) element) edges.

(** The last edge, in the order of enumeration, that carries the tag
    [element], and -1 when no edge does. *)
Definition lastTagged (edgeElements : CMR_GRAPH_EDGE -> CMR_ELEMENT)
    (element : CMR_ELEMENT) (edges : list CMR_GRAPH_EDGE) : CMR_GRAPH_EDGE :=
  List.last (tagged edgeElements element edges) (-1).

(** The triangle with two edges for row 1 and none for row 2: edge 0 and
    edge 2 are row 1, edge 1 is row 3. *)
Definition clashingElements (e : CMR_GRAPH_EDGE) : CMR_ELEMENT :=
  if Z.eqb e 0 then Row 0 else if Z.eqb e 1 then Row 2 else if Z.eqb e 2 then Row 0
  else Untagged.

(** The text of a graph in [outputFormat] when every edge is printed from
    its node U to its node V, spelled out with [line] and [dotEdge]: in the
    edge-list format the lines of the rows and of the columns (the columns
    first, and read from the first array, in the cographic case); in the dot
    format the line [graph G {], the links of the rows, the links of the
    columns and the line [}]. *)
Definition graphFromUtoV (outputFormat : FileFormat) (cographic : bool)
    (matrix : CMR_CHRMAT) (g : CMR_GRAPH)
    (rowEdges columnEdges : list CMR_GRAPH_EDGE) : list Event :=
  let edgeLine kind edges index :=
    let e := nth index edges (-1) in
    line (CMRgraphEdgeU g e) (CMRgraphEdgeV g e) kind index in
  let link kind attributes edges index :=
    let e := nth index edges (-1) in
    dotEdge (CMRgraphEdgeU g e) (CMRgraphEdgeV g e)
            (kind ++ fmt_d (Z.of_nat index + 1)) attributes in
  match outputFormat with
  | FILEFORMAT_GRAPH_EDGELIST =>
    if cographic then
      map (edgeLine "c" rowEdges) (seq 0 (numColumns matrix))
        ++ map (edgeLine "r" columnEdges) (seq 0 (numRows matrix))
    else
      map (edgeLine "r" rowEdges) (seq 0 (numRows matrix))
        ++ map (edgeLine "c" columnEdges) (seq 0 (numColumns matrix))
  | FILEFORMAT_GRAPH_DOT =>
    Stdout ("graph G {" ++ nl)
      :: map (link "r" ",style=bold,color=red" rowEdges) (seq 0 (numRows matrix))
      ++ map (link "c" "" columnEdges) (seq 0 (numColumns matrix))
      ++ [Stdout ("}" ++ nl)]
  | _ => []
  end%list.

End Behaviour.
Export Behaviour.

(* ===================================================================== *)
(** ** The command line, read as a list of words *)
(* ===================================================================== *)

Module CommandLine.

(** What an argument stands for.  [-i] and [-o] take the argument that
    follows them as their value, whatever it is; at the very end of the
    command line they are file names like any other argument. *)
Inductive Word :=
| HelpWord                       (* -h *)
| TransposeWord                  (* -t *)
| ElementsWord                   (* -n *)
| MatrixWord                     (* -N *)
| StatsWord                      (* -s *)
| InputWord (value : string)     (* -i value *)
| OutputWord (value : string)    (* -o value *)
| FileWord (name : string).      (* any other argument *)

Fixpoint words (args : list string) : list Word :=
  match args with
  | [] => []
  | arg :: rest =>
    if String.eqb arg "-h" then HelpWord :: words rest
    else if String.eqb arg "-t" then TransposeWord :: words rest
    else if String.eqb arg "-n" then ElementsWord :: words rest
    else if String.eqb arg "-N" then MatrixWord :: words rest
    else if String.eqb arg "-s" then StatsWord :: words rest
    else if String.eqb arg "-i" then
      match rest with
      | value :: rest' => InputWord value :: words rest'
      | [] => [FileWord arg]
      end
    else if String.eqb arg "-o" then
      match rest with
      | value :: rest' => OutputWord value :: words rest'
      | [] => [FileWord arg]
      end
    else FileWord arg :: words rest
  end.

(** The formats that can be named after [-i] and after [-o]. *)
Definition inputFormatNamed (value : string) : option FileFormat :=
  if String.eqb value "dense" then Some FILEFORMAT_MATRIX_DENSE
  else if String.eqb value "sparse" then Some FILEFORMAT_MATRIX_SPARSE
  else if String.eqb value "edgelist" then Some FILEFORMAT_GRAPH_EDGELIST
  else None.

Definition outputFormatNamed (value : string) : option FileFormat :=
  if String.eqb value "dense" then Some FILEFORMAT_MATRIX_DENSE
  else if String.eqb value "sparse" then Some FILEFORMAT_MATRIX_SPARSE
  else if String.eqb value "edgelist" then Some FILEFORMAT_GRAPH_EDGELIST
  else if String.eqb value "dot" then Some FILEFORMAT_GRAPH_DOT
  else None.

Definition isFileWord (w : Word) : bool :=
  match w with FileWord _ => true | _ => false end.

Definition isTransposeWord (w : Word) : bool :=
  match w with TransposeWord => true | _ => false end.

Definition isElementsWord (w : Word) : bool :=
  match w with ElementsWord => true | _ => false end.

Definition isMatrixWord (w : Word) : bool :=
  match w with MatrixWord => true | _ => false end.

Definition isStatsWord (w : Word) : bool :=
  match w with StatsWord => true | _ => false end.

(** A word the program refuses: a format name it does not know, or a file
    name when there has been one already. *)
Definition refuses (fileSeen : bool) (w : Word) : bool :=
  match w with
  | InputWord value => match inputFormatNamed value with Some _ => false | None => true end
  | OutputWord value => match outputFormatNamed value with Some _ => false | None => true end
  | FileWord _ => fileSeen
  | _ => false
  end.

(** Reading the words from left to right: the reading ends at the first
    [-h] and at the first word that is refused, whichever comes first. *)
Inductive Scan := ScanHelp | ScanRefused | ScanComplete.

Fixpoint scanWords (fileSeen : bool) (ws : list Word) : Scan :=
  match ws with
  | [] => ScanComplete
  | HelpWord :: _ => ScanHelp
  | w :: rest =>
    if refuses fileSeen w then ScanRefused
    else scanWords (fileSeen || isFileWord w) rest
  end.

(** The file names, and the known formats named after [-i] and after [-o],
    in the order of the command line. *)
Definition fileNames (ws : list Word) : list string :=
  flat_map (fun w => match w with FileWord name => [name] | _ => [] end) ws.

Definition inputFormats (ws : list Word) : list FileFormat :=
  flat_map (fun w => match w with
                     | InputWord value =>
                       match inputFormatNamed value with Some f => [f] | None => [] end
                     | _ => []
                     end) ws.

Definition outputFormats (ws : list Word) : list FileFormat :=
  flat_map (fun w => match w with
                     | OutputWord value =>
                       match outputFormatNamed value with Some f => [f] | None => [] end
                     | _ => []
                     end) ws.

(** The format given last, [FILEFORMAT_UNDEFINED] when none is given. *)
Definition givenInput (ws : list Word) : FileFormat :=
  List.last (inputFormats ws) FILEFORMAT_UNDEFINED.

Definition givenOutput (ws : list Word) : FileFormat :=
  List.last (outputFormats ws) FILEFORMAT_UNDEFINED.

(** The formats of the conversion for the formats given: a matrix format is
    paired with a graph format, a format that is not given is completed (the
    input with dense, or with edgelist when the output is a matrix; the
    output with edgelist for a matrix, with dense for a graph), and two
    formats of the same kind do not go together. *)
Definition pairing (input output : FileFormat) : option (FileFormat * FileFormat) :=
  match input, output with
  | FILEFORMAT_UNDEFINED, FILEFORMAT_UNDEFINED =>
    Some (FILEFORMAT_MATRIX_DENSE, FILEFORMAT_GRAPH_EDGELIST)
  | FILEFORMAT_UNDEFINED, (FILEFORMAT_MATRIX_DENSE | FILEFORMAT_MATRIX_SPARSE) =>
    Some (FILEFORMAT_GRAPH_EDGELIST, output)
  | FILEFORMAT_UNDEFINED, (FILEFORMAT_GRAPH_EDGELIST | FILEFORMAT_GRAPH_DOT) =>
    Some (FILEFORMAT_MATRIX_DENSE, output)
  | (FILEFORMAT_MATRIX_DENSE | FILEFORMAT_MATRIX_SPARSE), FILEFORMAT_UNDEFINED =>
    Some (input, FILEFORMAT_GRAPH_EDGELIST)
  | (FILEFORMAT_MATRIX_DENSE | FILEFORMAT_MATRIX_SPARSE),
    (FILEFORMAT_GRAPH_EDGELIST | FILEFORMAT_GRAPH_DOT) => Some (input, output)
  | FILEFORMAT_GRAPH_EDGELIST, FILEFORMAT_UNDEFINED =>
    Some (FILEFORMAT_GRAPH_EDGELIST, FILEFORMAT_MATRIX_DENSE)
  | FILEFORMAT_GRAPH_EDGELIST, (FILEFORMAT_MATRIX_DENSE | FILEFORMAT_MATRIX_SPARSE) =>
    Some (input, output)
  | _, _ => None
  end.

(** A conversion the command line asks for. *)
Record Conversion := {
  conv_file : string;
  conv_input : FileFormat;
  conv_output : FileFormat;
  conv_cographic : bool;    (* -t *)
  conv_elements : bool;     (* -n *)
  conv_matrix : bool;       (* -N *)
  conv_stats : bool         (* -s *)
}.

(** What a command line amounts to: it asks for help ([-h] is read before
    anything is refused); or it is refused (a word is refused before any
    [-h], or, with all words read, there is no file name or the formats do
    not go together); or it asks for a conversion. *)
Inductive Reading :=
| AsksForHelp
| Refused
| Converts (c : Conversion).

Definition reading (argv : list string) : Reading :=
  let ws := words (tl argv) in
  match scanWords false ws with
  | ScanHelp => AsksForHelp
  | ScanRefused => Refused
  | ScanComplete =>
    match fileNames ws, pairing (givenInput ws) (givenOutput ws) with
    | name :: _, Some (input, output) =>
      Converts {| conv_file := name; conv_input := input; conv_output := output;
                  conv_cographic := existsb isTransposeWord ws;
                  conv_elements := existsb isElementsWord ws;
                  conv_matrix := existsb isMatrixWord ws;
                  conv_stats := existsb isStatsWord ws |}
    | _, _ => Refused
    end
  end.

(** The conversion itself: [matrixToGraph] for a matrix, [graphToMatrix] for
    an edge list. *)
Definition conversion (w : World) (c : Conversion) : Run unit :=
  if isMatrixFormat (conv_input c) then
    matrixToGraph w (conv_file c) (conv_input c) (conv_output c) (conv_cographic c)
                  (conv_elements c) (conv_matrix c) (conv_stats c)
  else
    graphToMatrix w (conv_file c) (conv_input c) (conv_output c) (conv_cographic c).

(** The conversion the command line asks for returns the error code
    [error], or returns [CMR_OKAY]. *)
Definition conversionFails (w : World) (argv : list string) (error : CMR_ERROR) : Prop :=
  exists c, reading argv = Converts c /\ outcome (conversion w c) = Fail error.

Definition conversionSucceeds (w : World) (argv : list string) : Prop :=
  exists c, reading argv = Converts c /\ outcome (conversion w c) = Return tt.

(** The options after the word [w]: what the loop of [main] assigns. *)
Definition applyWord (o : Options) (w : Word) : Options :=
  match w with
  | HelpWord => o
  | TransposeWord => setTransposed o
  | ElementsWord => setOutputNonGraphicElements o
  | MatrixWord => setOutputNonGraphicMatrix o
  | StatsWord => setPrintStats o
  | InputWord value =>
    match inputFormatNamed value with Some f => setInputFormat f o | None => o end
  | OutputWord value =>
    match outputFormatNamed value with Some f => setOutputFormat f o | None => o end
  | FileWord name =>
    match instanceFileName o with None => setInstanceFileName name o | Some _ => o end
  end.

Definition hasFile (o : Options) : bool :=
  match instanceFileName o with Some _ => true | None => false end.

(** The outcome of the loop of [main] for a list of words. *)
Definition afterWords (o : Options) (ws : list Word) : Outcome (Z + Options) :=
  match scanWords (hasFile o) ws with
  | ScanHelp => Return (inl EXIT_SUCCESS)
  | ScanRefused => Return (inl EXIT_FAILURE)
  | ScanComplete => Return (inr (fold_left applyWord ws o))
  end.

(** The job of a conversion. *)
Definition jobOf (c : Conversion) : Job :=
  {| job_instanceFileName := conv_file c;
     job_inputFormat := conv_input c;
     job_outputFormat := conv_output c |}.

End CommandLine.
Export CommandLine.

(* ===================================================================== *)
(** ** Tactics *)
(* ===================================================================== *)

(** Simplification of the tests of the extraction loop that leaves the
    comparisons of indices alone. *)
Ltac scan_simpl :=
  cbn [CMRelementIsRow CMRelementIsColumn CMRelementToRowIndex
       CMRelementToColumnIndex fst snd].

(** Taking apart what is known about a run of [main]: existentials,
    conjunctions and alternatives are split, and equations between outcomes
    are used. *)
Ltac split_run :=
  repeat match goal with
         | H : exists _, _ |- _ => destruct H as [? H]
         | H : _ /\ _ |- _ => destruct H as [? H]
         | H : _ \/ _ |- _ => destruct H as [H | H]
         | H : Return _ = Return _ |- _ => injection H as H
         | H : inr _ = inr _ |- _ => injection H as H
         | H : @eq Z _ _ |- _ => first [subst | discriminate H]
         | H : @eq (Outcome _) _ _ |- _ => discriminate H
         | H : @eq CMR_ERROR _ _ |- _ => discriminate H
         | H : @eq (_ + _) _ _ |- _ => discriminate H
         end.

(** The same for what is known about the reading of a command line; what
    is left is closed by a contradiction between equations. *)
Ltac split_reading :=
  repeat match goal with
         | H : exists _, _ |- _ => destruct H as [? H]
         | H : _ /\ _ |- _ => destruct H as [? H]
         | H : _ \/ _ |- _ => destruct H as [H | H]
         | H : Return _ = Return _ |- _ => injection H as ->
         | H : Return _ = Return _ |- _ => injection H as <-
         | H : Converts _ = Converts _ |- _ => injection H as ->
         | H : Converts _ = Converts _ |- _ => injection H as <-
         end;
  try discriminate; try congruence; try lia.

(* ===================================================================== *)
(** ** Runs: how [bind] and the loops compute *)
(* ===================================================================== *)

Section RunLemmas.

Context {A B : Type}.

Lemma bind_ret_l (a : A) (k : A -> Run B) : bind (ret a) k = k a.
Proof. unfold bind, ret. destruct (k a); reflexivity. Qed.

Lemma bind_returns (m : Run A) (k : A -> Run B) (t : list Event) (a : A) :
  m = (t, Return a) -> bind m k = ((t ++ fst (k a))%list, snd (k a)).
Proof. intros ->. unfold bind. destruct (k a); reflexivity. Qed.



Lemma CMR_CALL_okay (out : A) : CMR_CALL (CMR_OKAY, out) = ret out.
Proof. reflexivity. Qed.


End RunLemmas.

Lemma bind_emit {B} (e : Event) (k : unit -> Run B) :
  bind (emit e) k = (e :: fst (k tt), snd (k tt)).
Proof. unfold bind, emit. destruct (k tt); reflexivity. Qed.

(** A loop whose body only prints: one [printf] per element, in order. *)
Lemma forEach_printf {A} (l : list A) (body : A -> Run unit) (text : A -> string) :
  (forall x, In x l -> body x = printf (text x)) ->
  forEach l body = (map (fun x => Stdout (text x)) l, Return tt).
Proof.
  induction l as [|x l IH]; intros Hbody; [reflexivity|].
  cbn [forEach map].
  rewrite (Hbody x (or_introl eq_refl)).
  unfold printf. rewrite bind_emit, IH by (intros y Hy; apply Hbody; right; exact Hy).
  reflexivity.
Qed.

Section Serializer.

Variable g : CMR_GRAPH.
Variable edgesReversed : option (CMR_GRAPH_EDGE -> bool).

(** Reading an edge that is there gives its end nodes, swapped when its
    flag is present and set. *)
Lemma edgeEndpoints_defined (edges : list CMR_GRAPH_EDGE) (index : nat)
    (e : CMR_GRAPH_EDGE) :
  edges !! index = Some e ->
  edgeEndpoints (Some g) edgesReversed edges index = ret (endpoints g edgesReversed e).
Proof.
  intros He. unfold edgeEndpoints, read. rewrite He. cbn [deref].
  rewrite !bind_ret_l. unfold endpoints, reversed.
  destruct edgesReversed as [flags|]; [destruct (flags e)|]; reflexivity.
Qed.

(** One loop of the serializer, when the array covers the index range. *)
Lemma printEdges_defined (edges : list CMR_GRAPH_EDGE) (count : nat)
    (text : nat -> CMR_GRAPH_NODE * CMR_GRAPH_NODE -> string)
    (edge : nat -> CMR_GRAPH_EDGE) :
  (forall index, (index < count)%nat -> edges !! index = Some (edge index)) ->
  printEdges (Some g) edgesReversed edges count text =
    (map (fun index => Stdout (text index (endpoints g edgesReversed (edge index))))
         (seq 0 count),
     Return tt).
Proof.
  intros Hedges. unfold printEdges, forRange.
  apply forEach_printf with (text := fun index => text index (endpoints g edgesReversed (edge index))).
  intros index Hin. apply in_seq in Hin.
  rewrite (edgeEndpoints_defined edges index (edge index)) by (apply Hedges; lia).
  rewrite bind_ret_l. reflexivity.
Qed.

Lemma printEdges_lines (edges : list CMR_GRAPH_EDGE) (count : nat) (kind : string)
    (edge : nat -> CMR_GRAPH_EDGE) :
  (forall index, (index < count)%nat -> edges !! index = Some (edge index)) ->
  printEdges (Some g) edgesReversed edges count (edgeListLine kind) =
    (lines g edgesReversed kind count edge, Return tt).
Proof. intros Hedges. rewrite (printEdges_defined _ _ _ edge Hedges). reflexivity. Qed.

End Serializer.

(** With no flags at all, every edge goes out from U to V. *)
Lemma printEdges_absent (g : CMR_GRAPH) (edges : list CMR_GRAPH_EDGE) (count : nat)
    (text : nat -> CMR_GRAPH_NODE * CMR_GRAPH_NODE -> string)
    (edge : nat -> CMR_GRAPH_EDGE) :
  (forall index, (index < count)%nat -> edges !! index = Some (edge index)) ->
  printEdges (Some g) None edges count text = (linesUV g count edge text, Return tt).
Proof. intros Hedges. rewrite (printEdges_defined _ _ _ _ _ edge Hedges). reflexivity. Qed.

(** Two runs that both return, one after the other. *)
Lemma bind_then {B} (m : Run unit) (k : Run B) (t : list Event) :
  m = (t, Return tt) -> bind m (fun _ => k) = ((t ++ fst k)%list, snd k).
Proof. intros H. apply (bind_returns m (fun _ => k) t tt H). Qed.

(* ===================================================================== *)
(** ** The serializer *)
(* ===================================================================== *)

(** C4.  Edge-list output after a positive verdict: row [i] gives the one
    line ["<u> <v> r<i+1>"] and column [j] the one line ["<u> <v> c<j+1>"],
    where [u], [v] are the end nodes of the edge of that row or column,
    swapped exactly when the reversal flag of the edge is present and set.
    In the graphic case the row lines come first, in the cographic case the
    column lines come first.  ([rowEdge i] and [columnEdge j] name the edges
    the arrays hold for row [i] and column [j].) *)
Theorem edge_list_lines (cographic : bool) (matrix : CMR_CHRMAT) (g : CMR_GRAPH)
    (rowEdges columnEdges : list CMR_GRAPH_EDGE)
    (edgesReversed : option (CMR_GRAPH_EDGE -> bool))
    (rowEdge columnEdge : nat -> CMR_GRAPH_EDGE) :
  (forall i, (i < numRows matrix)%nat ->
     (if cographic then columnEdges else rowEdges) !! i = Some (rowEdge i)) ->
  (forall j, (j < numColumns matrix)%nat ->
     (if cographic then rowEdges else columnEdges) !! j = Some (columnEdge j)) ->
  let rowLines := lines g edgesReversed "r" (numRows matrix) rowEdge in
  let columnLines := lines g edgesReversed "c" (numColumns matrix) columnEdge in
  printGraph FILEFORMAT_GRAPH_EDGELIST cographic matrix (Some g) rowEdges columnEdges
             edgesReversed
  = (if cographic then (columnLines ++ rowLines)%list else (rowLines ++ columnLines)%list,
     Return tt).
Proof.
  intros Hrows Hcolumns rowLines columnLines.
  unfold printGraph. cbn [FileFormat_eqb].
  destruct cographic.
  - rewrite (bind_then _ _ columnLines) by (apply printEdges_lines, Hcolumns).
    rewrite (printEdges_lines _ _ _ _ _ rowEdge Hrows). reflexivity.
  - rewrite (bind_then _ _ rowLines) by (apply printEdges_lines, Hrows).
    rewrite (printEdges_lines _ _ _ _ _ columnEdge Hcolumns). reflexivity.
Qed.

(** The cographic matrix [[1,1],[0,1]] with the flag of edge 2 set: the
    column lines come first, and the line of row 1 runs from node 2 to
    node 0. *)
Lemma edge_list_lines_witness :
  printGraph FILEFORMAT_GRAPH_EDGELIST true triangular2 (Some fourEdges) [0; 1] [2; 3]
             (Some (fun e => Z.eqb e 2))
  = ([line 0 1 "c" 0; line 1 2 "c" 1; line 2 0 "r" 0; line 1 2 "r" 1], Return tt).
Proof.
  apply (edge_list_lines true triangular2 fourEdges [0; 1] [2; 3]
           (Some (fun e => Z.eqb e 2))
           (fun i => nth i [2; 3] 0) (fun j => nth j [0; 1] 0)).
  - intros [|[|i]] Hi; [reflexivity | reflexivity | cbn in Hi; lia].
  - intros [|[|j]] Hj; [reflexivity | reflexivity | cbn in Hj; lia].
Defined.

(** C3, as stated, fails: for the matrix [[1,0],[0,1]] in the graphic
    direction the edge-list output does not stop after the two row lines,
    whatever nodes they name. *)
Lemma identity2_not_rows_only :
  ~ exists u0 v0 u1 v1,
      printGraph FILEFORMAT_GRAPH_EDGELIST false identity2 (Some identity2Graph)
                 [0; 1] [2; 3] None
      = ([line u0 v0 "r" 0; line u1 v1 "r" 1], Return tt).
Proof.
  intros (u0 & v0 & u1 & v1 & H).
  apply (f_equal (fun run => length (trace run))) in H.
  vm_compute in H. discriminate H.
Qed.

(** C3, amended.  For the matrix [[1,0],[0,1]] in the graphic direction with
    edge-list output, the serializer emits the line ["<u0> <v0> r1"], then
    ["<u1> <v1> r2"], and then one line for each of the two columns,
    ["<u2> <v2> c1"] and ["<u3> <v3> c2"]; [e0], [e1] are the edges of the
    rows and [f0], [f1] the edges of the columns. *)
Theorem identity2_edge_list (g : CMR_GRAPH) (e0 e1 f0 f1 : CMR_GRAPH_EDGE) :
  printGraph FILEFORMAT_GRAPH_EDGELIST false identity2 (Some g) [e0; e1] [f0; f1] None
  = ([line (CMRgraphEdgeU g e0) (CMRgraphEdgeV g e0) "r" 0;
      line (CMRgraphEdgeU g e1) (CMRgraphEdgeV g e1) "r" 1;
      line (CMRgraphEdgeU g f0) (CMRgraphEdgeV g f0) "c" 0;
      line (CMRgraphEdgeU g f1) (CMRgraphEdgeV g f1) "c" 1],
     Return tt).
Proof. reflexivity. Qed.

(** The dot branch of the serializer never looks at the [cographic] flag. *)
Lemma dot_ignores_cographic (matrix : CMR_CHRMAT) (graph : option CMR_GRAPH)
    (rowEdges columnEdges : list CMR_GRAPH_EDGE)
    (edgesReversed : option (CMR_GRAPH_EDGE -> bool)) :
  printGraph FILEFORMAT_GRAPH_DOT true matrix graph rowEdges columnEdges edgesReversed
  = printGraph FILEFORMAT_GRAPH_DOT false matrix graph rowEdges columnEdges edgesReversed.
Proof. reflexivity. Qed.

(** C1.  The cographic matrix [[1,1],[0,1]]: its columns are the edges 0 and
    1 (first array of the test), its rows the edges 2 and 3 (second array).
    The edge-list output resolves the roles swapped: column 1 is edge 0,
    from node 0 to node 1, and row 1 is edge 2, from node 0 to node 2.  The
    dot output does not: it labels edge 0 with [r1] and edge 2 with [c1]. *)
Theorem cographic_dot_output_not_swapped :
  let w := matrixWorld triangular2 triangular2Cographic triangular2Cographic None in
  matrixToGraph w "matrix" FILEFORMAT_MATRIX_DENSE FILEFORMAT_GRAPH_EDGELIST
                true false false false
  = ([line 0 1 "c" 0; line 1 2 "c" 1; line 0 2 "r" 0; line 1 2 "r" 1], Return tt)
  /\
  matrixToGraph w "matrix" FILEFORMAT_MATRIX_DENSE FILEFORMAT_GRAPH_DOT
                true false false false
  = ([Stdout ("graph G {" ++ nl);
      Stdout (dotRowLine 0 (0, 1)); Stdout (dotRowLine 1 (1, 2));
      Stdout (dotColumnLine 0 (0, 2)); Stdout (dotColumnLine 1 (1, 2));
      Stdout ("}" ++ nl)],
     Return tt).
Proof. split; vm_compute; reflexivity. Qed.

(* ===================================================================== *)
(** ** Matrix to graph *)
(* ===================================================================== *)

Lemma lookup_slot (edges : list CMR_GRAPH_EDGE) (count : nat) :
  (count <= length edges)%nat ->
  forall index, (index < count)%nat -> edges !! index = Some (nth index edges (-1)).
Proof.
  intros Hcount index Hindex.
  destruct (lookup_lt_is_Some_2 edges index) as [e He]; [lia|].
  rewrite He. f_equal. symmetry. apply nth_lookup_Some with (d := -1). exact He.
Qed.

(** The serializer as [matrixToGraph] runs it: no reversal flags. *)
Lemma printGraph_absent (outputFormat : FileFormat) (cographic : bool)
    (matrix : CMR_CHRMAT) (g : CMR_GRAPH) (rowEdges columnEdges : list CMR_GRAPH_EDGE) :
  ((if swapsRoles outputFormat cographic then numColumns matrix else numRows matrix)
     <= length rowEdges)%nat ->
  ((if swapsRoles outputFormat cographic then numRows matrix else numColumns matrix)
     <= length columnEdges)%nat ->
  printGraph outputFormat cographic matrix (Some g) rowEdges columnEdges None
  = (graphTextUV outputFormat cographic matrix g rowEdges columnEdges, Return tt).
Proof.
  intros Hfirst Hsecond. unfold swapsRoles in *.
  destruct outputFormat; try reflexivity; unfold printGraph, graphTextUV;
    cbn [FileFormat_eqb] in *.
  - destruct cographic; cbn [andb] in *.
    + erewrite bind_then by (apply printEdges_absent, lookup_slot, Hfirst).
      erewrite printEdges_absent by (apply lookup_slot, Hsecond). reflexivity.
    + erewrite bind_then by (apply printEdges_absent, lookup_slot, Hfirst).
      erewrite printEdges_absent by (apply lookup_slot, Hsecond). reflexivity.
  - rewrite andb_false_r in *. unfold puts. rewrite bind_emit.
    erewrite bind_then by (apply printEdges_absent, lookup_slot, Hfirst).
    erewrite bind_then by (apply printEdges_absent, lookup_slot, Hsecond).
    cbn [fst snd emit]. reflexivity.
Qed.

(** The front part of [matrixToGraph]: once the file is open, the matrix is
    read and the test has answered, the rest is [matrixToGraph_output] with
    the reversal flags absent. *)
Lemma matrixToGraph_reaches_output (w : World) (name : string)
    (inputFormat outputFormat : FileFormat)
    (cographic elements violator stats : bool)
    (file : FILE) (matrix : CMR_CHRMAT) (test : TestOutput) :
  openInstance w name = Some file ->
  CMRcreateEnvironment w = CMR_OKAY ->
  readMatrix w inputFormat file = (CMR_OKAY, Some matrix) ->
  testMatrix w cographic matrix (elements || violator) = (CMR_OKAY, test) ->
  matrixToGraph w name inputFormat outputFormat cographic elements violator stats
  = matrixToGraph_output w inputFormat outputFormat cographic elements violator
      matrix (test_isGraphic test) (test_graph test)
      (test_forestEdges test) (test_coforestEdges test) None
      (if elements || violator then test_submatrix test else None).
Proof.
  intros Hopen Henv Hread Htest. unfold matrixToGraph.
  rewrite Hopen, Henv, CMR_CALL_okay, bind_ret_l.
  assert ((if FileFormat_eqb inputFormat FILEFORMAT_MATRIX_DENSE
           then CMR_CALL (CMRchrmatCreateFromDenseStream w file)
           else if FileFormat_eqb inputFormat FILEFORMAT_MATRIX_SPARSE
                then CMR_CALL (CMRchrmatCreateFromSparseStream w file)
                else ret None) = ret (Some matrix)) as ->.
  { unfold readMatrix in Hread.
    destruct (FileFormat_eqb inputFormat FILEFORMAT_MATRIX_DENSE);
      [| destruct (FileFormat_eqb inputFormat FILEFORMAT_MATRIX_SPARSE)];
      [rewrite Hread; reflexivity .. | discriminate Hread]. }
  rewrite bind_ret_l. cbn [deref]. rewrite bind_ret_l.
  assert ((if cographic
           then CMR_CALL (CMRtestCographicMatrix w matrix (elements || violator))
           else CMR_CALL (CMRtestGraphicMatrix w matrix (elements || violator)))
          = ret test) as ->.
  { unfold testMatrix in Htest. destruct cographic; rewrite Htest; reflexivity. }
  rewrite bind_ret_l. reflexivity.
Qed.

(** The text with every edge from U to V, spelled out. *)
Lemma graphTextUV_spelled_out (outputFormat : FileFormat) (cographic : bool)
    (matrix : CMR_CHRMAT) (g : CMR_GRAPH) (rowEdges columnEdges : list CMR_GRAPH_EDGE) :
  graphTextUV outputFormat cographic matrix g rowEdges columnEdges
  = graphFromUtoV outputFormat cographic matrix g rowEdges columnEdges.
Proof. destruct outputFormat, cographic; reflexivity. Qed.

(** C10.  In matrix-to-graph conversion the reversal flags are absent: after
    a positive verdict, every row line and every column line of the output,
    in the edge-list and in the dot format, names the node U of its edge
    before the node V: the edge-list line of an edge [e] is
    ["<U e> <V e> r<i+1>"] or ["<U e> <V e> c<j+1>"], and its dot link is
    [ v_<U e> -- v_<V e> [...]].  (The premises say that the run gets as far
    as the serializer and that the arrays cover the indices it reads.) *)
Theorem matrixToGraph_prints_U_before_V (w : World) (name : string)
    (inputFormat outputFormat : FileFormat)
    (cographic elements violator stats : bool)
    (file : FILE) (matrix : CMR_CHRMAT) (test : TestOutput) (g : CMR_GRAPH) :
  openInstance w name = Some file ->
  CMRcreateEnvironment w = CMR_OKAY ->
  readMatrix w inputFormat file = (CMR_OKAY, Some matrix) ->
  testMatrix w cographic matrix (elements || violator) = (CMR_OKAY, test) ->
  test_isGraphic test = true ->
  test_graph test = Some g ->
  test_submatrix test = None ->
  ((if swapsRoles outputFormat cographic then numColumns matrix else numRows matrix)
     <= length (test_forestEdges test))%nat ->
  ((if swapsRoles outputFormat cographic then numRows matrix else numColumns matrix)
     <= length (test_coforestEdges test))%nat ->
  matrixToGraph w name inputFormat outputFormat cographic elements violator stats
  = (graphFromUtoV outputFormat cographic matrix g
       (test_forestEdges test) (test_coforestEdges test),
     Return tt).
Proof.
  intros Hopen Henv Hread Htest Hverdict Hgraph Hnone Hfirst Hsecond.
  rewrite (matrixToGraph_reaches_output _ _ _ _ _ _ _ _ _ _ _ Hopen Henv Hread Htest).
  unfold matrixToGraph_output. rewrite Hverdict, Hgraph, Hnone.
  erewrite bind_then by (apply printGraph_absent; assumption).
  rewrite graphTextUV_spelled_out.
  destruct (elements || violator); cbn; rewrite app_nil_r; reflexivity.
Qed.

(** The matrix [[1,0],[0,1]], read from the standard input and written as
    a dot graph: the edges 0 and 1 of the rows run from 0 to 1 and from 1 to
    2, and so do the edges 2 and 3 of the columns. *)
Lemma matrixToGraph_prints_U_before_V_witness :
  matrixToGraph (matrixWorld identity2
                   {| test_isGraphic := true; test_graph := Some identity2Graph;
                      test_forestEdges := [0; 1]; test_coforestEdges := [2; 3];
                      test_submatrix := None |}
                   triangular2Cographic None)
                "-" FILEFORMAT_MATRIX_DENSE FILEFORMAT_GRAPH_DOT false false false false
  = ([Stdout ("graph G {" ++ nl);
      dotEdge 0 1 "r1" ",style=bold,color=red";
      dotEdge 1 2 "r2" ",style=bold,color=red";
      dotEdge 0 1 "c1" ""; dotEdge 1 2 "c2" "";
      Stdout ("}" ++ nl)],
     Return tt).
Proof.
  apply (matrixToGraph_prints_U_before_V
           (matrixWorld identity2
              {| test_isGraphic := true; test_graph := Some identity2Graph;
                 test_forestEdges := [0; 1]; test_coforestEdges := [2; 3];
                 test_submatrix := None |}
              triangular2Cographic None)
           "-" FILEFORMAT_MATRIX_DENSE
           FILEFORMAT_GRAPH_DOT false false false false "" identity2
           {| test_isGraphic := true; test_graph := Some identity2Graph;
              test_forestEdges := [0; 1]; test_coforestEdges := [2; 3];
              test_submatrix := None |} identity2Graph);
    try reflexivity; cbn; lia.
Defined.

(** Printing the elements of the violator leaves the variable [submatrix]
    at [NULL]. *)
Lemma printViolatorElements_releases (sub : CMR_SUBMAT) :
  printViolatorElements (Some sub) true = (violatorElementsText sub, Return None).
Proof.
  unfold printViolatorElements, violatorElementsText, printf.
  rewrite bind_emit.
  erewrite bind_then by
    (apply forEach_printf with (text := fun r => " " ++ fmt_ld (Z.of_nat r + 1));
     reflexivity).
  rewrite bind_emit.
  erewrite bind_then by
    (apply forEach_printf with (text := fun c => " " ++ fmt_ld (Z.of_nat c + 1));
     reflexivity).
  rewrite bind_emit. reflexivity.
Qed.

(** After a negative verdict with the element list requested, the output is
    the element list and nothing else, whether or not the violator matrix was
    requested as well. *)
Lemma elements_suppress_violator_matrix (w : World)
    (inputFormat outputFormat : FileFormat) (cographic violator : bool)
    (matrix : CMR_CHRMAT) (graph : option CMR_GRAPH)
    (rowEdges columnEdges : list CMR_GRAPH_EDGE)
    (edgesReversed : option (CMR_GRAPH_EDGE -> bool)) (sub : CMR_SUBMAT) :
  matrixToGraph_output w inputFormat outputFormat cographic true violator
    matrix false graph rowEdges columnEdges edgesReversed (Some sub)
  = (violatorElementsText sub, Return tt).
Proof.
  unfold matrixToGraph_output. rewrite bind_ret_l.
  rewrite (bind_returns _ _ _ _ (printViolatorElements_releases sub)).
  cbn [printViolatorMatrix ret fst snd]. rewrite app_nil_r. reflexivity.
Qed.

(** The element list hands no matrix to a printer. *)
Lemma no_matrix_among_elements (sub : CMR_SUBMAT) :
  List.filter isMatrixPrint (violatorElementsText sub) = [].
Proof.
  assert (forall (A : Type) (text : A -> string) (l : list A),
            List.filter isMatrixPrint (map (fun x => Stdout (text x)) l) = [])
    as Htext by (intros A text l; induction l; [reflexivity | assumption]).
  unfold violatorElementsText. cbn [List.filter isMatrixPrint].
  rewrite List.filter_app, Htext. cbn [List.filter isMatrixPrint app].
  rewrite List.filter_app, Htext. reflexivity.
Qed.

(** C2.  The matrix of the Fano matroid, tested with both [-n] and [-N]: the
    program prints the rows and columns of the violator and stops; the
    violator matrix is not printed.  With [-N] alone it is. *)
Theorem violator_matrix_missing_when_elements_requested :
  let w := matrixWorld fano fanoNotGraphic fanoNotGraphic (Some fano) in
  matrixToGraph w "matrix" FILEFORMAT_MATRIX_DENSE FILEFORMAT_GRAPH_EDGELIST
                false true true false
  = ([Stdout "3 rows:"; Stdout " 1"; Stdout " 2"; Stdout " 3";
      Stdout (nl ++ "4 columns: ");
      Stdout " 1"; Stdout " 2"; Stdout " 3"; Stdout " 4"; Stdout nl],
     Return tt)
  /\
  matrixToGraph w "matrix" FILEFORMAT_MATRIX_DENSE FILEFORMAT_GRAPH_EDGELIST
                false false true false
  = ([ChrmatPrintDense fano], Return tt).
Proof. split; vm_compute; reflexivity. Qed.

(* ===================================================================== *)
(** ** Forest extraction *)
(* ===================================================================== *)

Lemma length_fillUnassigned (block : list CMR_GRAPH_EDGE) (n : nat) :
  length (fillUnassigned block n) = length block.
Proof.
  unfold fillUnassigned. generalize (seq 0 n). intros l. revert block.
  induction l as [|i l IH]; intros block; [reflexivity|].
  cbn [fold_left]. rewrite IH. apply length_insert.
Qed.

(** After the initialisation loop every slot below [n] holds -1. *)
Lemma lookup_fillUnassigned (block : list CMR_GRAPH_EDGE) (n i : nat) :
  (n <= length block)%nat -> (i < n)%nat -> fillUnassigned block n !! i = Some (-1).
Proof.
  unfold fillUnassigned. induction n as [|n IH]; intros Hn Hi; [lia|].
  rewrite seq_S, fold_left_app. cbn [fold_left Nat.add].
  destruct (decide (i = n)) as [->|Hne].
  - apply list_lookup_insert_eq.
    fold (fillUnassigned block n). rewrite length_fillUnassigned. lia.
  - rewrite list_lookup_insert_ne by congruence. apply IH; lia.
Qed.

Section Extraction.

Variable edgeElements : CMR_GRAPH_EDGE -> CMR_ELEMENT.
Variables numForestEdges numCoforestEdges : nat.

Local Abbreviation step := (scanEdge edgeElements numForestEdges numCoforestEdges).
Local Abbreviation scan := (scanEdges edgeElements numForestEdges numCoforestEdges).

Lemma length_scanEdge (arrays : list CMR_GRAPH_EDGE * list CMR_GRAPH_EDGE)
    (e : CMR_GRAPH_EDGE) :
  length (fst (step arrays e)) = length (fst arrays) /\
  length (snd (step arrays e)) = length (snd arrays).
Proof.
  unfold scanEdge.
  destruct (edgeElements e) as [i|j|]; scan_simpl.
  - destruct (i <? numForestEdges)%nat; scan_simpl; rewrite ?length_insert; auto.
  - destruct (j <? numCoforestEdges)%nat; scan_simpl; rewrite ?length_insert; auto.
  - auto.
Qed.

Lemma length_scanEdges (edges : list CMR_GRAPH_EDGE)
    (arrays : list CMR_GRAPH_EDGE * list CMR_GRAPH_EDGE) :
  length (fst (scan arrays edges)) = length (fst arrays) /\
  length (snd (scan arrays edges)) = length (snd arrays).
Proof.
  unfold scanEdges. revert arrays.
  induction edges as [|e edges IH]; intros arrays; [auto|].
  cbn [fold_left]. destruct (IH (step arrays e)) as [-> ->].
  apply length_scanEdge.
Qed.

(** A slot of [forestEdges] whose row is the tag of an edge of the graph
    holds, after the scan, an edge of the graph with that tag. *)
Lemma scanEdges_forest (edges : list CMR_GRAPH_EDGE)
    (arrays : list CMR_GRAPH_EDGE * list CMR_GRAPH_EDGE) (i : nat) :
  (i < numForestEdges)%nat ->
  (numForestEdges <= length (fst arrays))%nat ->
  (exists e, In e edges /\ edgeElements e = Row i) ->
  exists e, In e edges /\ edgeElements e = Row i /\
            fst (scan arrays edges) !! i = Some e.
Proof.
  intros Hi. unfold scanEdges.
  induction edges as [|e0 edges IH] using rev_ind; intros Hlen (e & Hin & Htag).
  - destruct Hin.
  - rewrite fold_left_app. cbn [fold_left].
    fold (scanEdges edgeElements numForestEdges numCoforestEdges arrays edges) in *.
    assert (length (fst (scan arrays edges)) = length (fst arrays)) as Hkeep
      by apply length_scanEdges.
    destruct (edgeElements e0) as [i0|j0|] eqn:Htag0.
    + destruct (decide (i0 = i)) as [->|Hne].
      * exists e0. split; [apply in_app_iff; right; left; reflexivity|].
        split; [exact Htag0|].
        unfold scanEdge. rewrite Htag0. scan_simpl.
        apply Nat.ltb_lt in Hi. rewrite Hi. scan_simpl.
        apply Nat.ltb_lt in Hi.
        apply list_lookup_insert_eq. lia.
      * apply in_app_iff in Hin as [Hin|[<-|[]]]; [|congruence].
        destruct (IH Hlen (ex_intro _ e (conj Hin Htag))) as (e' & Hin' & Htag' & Hslot).
        exists e'. split; [apply in_app_iff; left; exact Hin'|].
        split; [exact Htag'|].
        unfold scanEdge. rewrite Htag0. scan_simpl.
        destruct (i0 <? numForestEdges)%nat; scan_simpl; [|exact Hslot].
        rewrite list_lookup_insert_ne by congruence. exact Hslot.
    + apply in_app_iff in Hin as [Hin|[<-|[]]]; [|congruence].
      destruct (IH Hlen (ex_intro _ e (conj Hin Htag))) as (e' & Hin' & Htag' & Hslot).
      exists e'. split; [apply in_app_iff; left; exact Hin'|].
      split; [exact Htag'|].
      unfold scanEdge. rewrite Htag0. scan_simpl.
      destruct (j0 <? numCoforestEdges)%nat; exact Hslot.
    + apply in_app_iff in Hin as [Hin|[<-|[]]]; [|congruence].
      destruct (IH Hlen (ex_intro _ e (conj Hin Htag))) as (e' & Hin' & Htag' & Hslot).
      exists e'. split; [apply in_app_iff; left; exact Hin'|].
      split; [exact Htag'|].
      unfold scanEdge. rewrite Htag0. exact Hslot.
Qed.

(** The same for [coforestEdges] and column tags. *)
Lemma scanEdges_coforest (edges : list CMR_GRAPH_EDGE)
    (arrays : list CMR_GRAPH_EDGE * list CMR_GRAPH_EDGE) (j : nat) :
  (j < numCoforestEdges)%nat ->
  (numCoforestEdges <= length (snd arrays))%nat ->
  (exists e, In e edges /\ edgeElements e = Column j) ->
  exists e, In e edges /\ edgeElements e = Column j /\
            snd (scan arrays edges) !! j = Some e.
Proof.
  intros Hj. unfold scanEdges.
  induction edges as [|e0 edges IH] using rev_ind; intros Hlen (e & Hin & Htag).
  - destruct Hin.
  - rewrite fold_left_app. cbn [fold_left].
    fold (scanEdges edgeElements numForestEdges numCoforestEdges arrays edges) in *.
    assert (length (snd (scan arrays edges)) = length (snd arrays)) as Hkeep
      by apply length_scanEdges.
    destruct (edgeElements e0) as [i0|j0|] eqn:Htag0.
    + apply in_app_iff in Hin as [Hin|[<-|[]]]; [|congruence].
      destruct (IH Hlen (ex_intro _ e (conj Hin Htag))) as (e' & Hin' & Htag' & Hslot).
      exists e'. split; [apply in_app_iff; left; exact Hin'|].
      split; [exact Htag'|].
      unfold scanEdge. rewrite Htag0. scan_simpl.
      destruct (i0 <? numForestEdges)%nat; exact Hslot.
    + destruct (decide (j0 = j)) as [->|Hne].
      * exists e0. split; [apply in_app_iff; right; left; reflexivity|].
        split; [exact Htag0|].
        unfold scanEdge. rewrite Htag0. scan_simpl.
        apply Nat.ltb_lt in Hj. rewrite Hj. scan_simpl.
        apply Nat.ltb_lt in Hj.
        apply list_lookup_insert_eq. lia.
      * apply in_app_iff in Hin as [Hin|[<-|[]]]; [|congruence].
        destruct (IH Hlen (ex_intro _ e (conj Hin Htag))) as (e' & Hin' & Htag' & Hslot).
        exists e'. split; [apply in_app_iff; left; exact Hin'|].
        split; [exact Htag'|].
        unfold scanEdge. rewrite Htag0. scan_simpl.
        destruct (j0 <? numCoforestEdges)%nat; scan_simpl; [|exact Hslot].
        rewrite list_lookup_insert_ne by congruence. exact Hslot.
    + apply in_app_iff in Hin as [Hin|[<-|[]]]; [|congruence].
      destruct (IH Hlen (ex_intro _ e (conj Hin Htag))) as (e' & Hin' & Htag' & Hslot).
      exists e'. split; [apply in_app_iff; left; exact Hin'|].
      split; [exact Htag'|].
      unfold scanEdge. rewrite Htag0. exact Hslot.
Qed.

End Extraction.

(** C5.  When the row tags of the graph are exactly the indices below
    [numForestEdges] and the column tags exactly the indices below
    [numCoforestEdges], every slot of [forestEdges] holds an edge of the
    graph tagged with the row of the slot, every slot of [coforestEdges] an
    edge tagged with the column of the slot, and no slot holds -1.  (Edges
    are array indices of the graph, hence not negative.) *)
Theorem extraction_complete (graph : CMR_GRAPH)
    (edgeElements : CMR_GRAPH_EDGE -> CMR_ELEMENT)
    (numForestEdges numCoforestEdges : nat)
    (forestEdges coforestEdges : list CMR_GRAPH_EDGE) :
  extractForest graph edgeElements
  = (numForestEdges, numCoforestEdges, (forestEdges, coforestEdges)) ->
  (forall e, In e (graphEdges graph) -> 0 <= e) ->
  (forall i, (exists e, In e (graphEdges graph) /\ edgeElements e = Row i)
             <-> (i < numForestEdges)%nat) ->
  (forall j, (exists e, In e (graphEdges graph) /\ edgeElements e = Column j)
             <-> (j < numCoforestEdges)%nat) ->
  length forestEdges = numForestEdges /\
  length coforestEdges = numCoforestEdges /\
  (forall i, (i < numForestEdges)%nat ->
     exists e, forestEdges !! i = Some e /\ In e (graphEdges graph) /\
               edgeElements e = Row i) /\
  (forall j, (j < numCoforestEdges)%nat ->
     exists e, coforestEdges !! j = Some e /\ In e (graphEdges graph) /\
               edgeElements e = Column j) /\
  ~ In (-1) forestEdges /\ ~ In (-1) coforestEdges.
Proof.
  unfold extractForest. intros Hextract Hedges Hrows Hcolumns.
  injection Hextract as Hk Hm Harrays.
  rewrite Hk, Hm in *. clear Hk Hm.
  set (arrays := (fillUnassigned (replicate numForestEdges 0) numForestEdges,
                  fillUnassigned (replicate numCoforestEdges 0) numCoforestEdges)) in *.
  pose proof (f_equal fst Harrays) as Hforest. cbn [fst] in Hforest.
  pose proof (f_equal snd Harrays) as Hcoforest. cbn [snd] in Hcoforest.
  assert (length (fst arrays) = numForestEdges) as Hlen1
    by (cbn; rewrite length_fillUnassigned; apply length_replicate).
  assert (length (snd arrays) = numCoforestEdges) as Hlen2
    by (cbn; rewrite length_fillUnassigned; apply length_replicate).
  destruct (length_scanEdges edgeElements numForestEdges numCoforestEdges
              (graphEdges graph) arrays) as [Hl1 Hl2].
  assert (forall i, (i < numForestEdges)%nat ->
            exists e, forestEdges !! i = Some e /\ In e (graphEdges graph) /\
                      edgeElements e = Row i) as Hfilled1.
  { intros i Hi.
    destruct (scanEdges_forest edgeElements numForestEdges numCoforestEdges
                (graphEdges graph) arrays i Hi ltac:(lia) (proj2 (Hrows i) Hi))
      as (e & Hin & Htag & Hslot).
    exists e. rewrite <- Hforest. auto. }
  assert (forall j, (j < numCoforestEdges)%nat ->
            exists e, coforestEdges !! j = Some e /\ In e (graphEdges graph) /\
                      edgeElements e = Column j) as Hfilled2.
  { intros j Hj.
    destruct (scanEdges_coforest edgeElements numForestEdges numCoforestEdges
                (graphEdges graph) arrays j Hj ltac:(lia) (proj2 (Hcolumns j) Hj))
      as (e & Hin & Htag & Hslot).
    exists e. rewrite <- Hcoforest. auto. }
  assert (length forestEdges = numForestEdges) as HL1 by (rewrite <- Hforest; lia).
  assert (length coforestEdges = numCoforestEdges) as HL2 by (rewrite <- Hcoforest; lia).
  repeat split; try assumption.
  - intros Hin. apply list_elem_of_In, list_elem_of_lookup in Hin as [i Hi].
    assert (i < numForestEdges)%nat as Hlt
      by (rewrite <- HL1; apply lookup_lt_Some with (x := -1); exact Hi).
    destruct (Hfilled1 i Hlt) as (e & Hslot & Hin & _).
    rewrite Hi in Hslot. injection Hslot as <-. apply Hedges in Hin. lia.
  - intros Hin. apply list_elem_of_In, list_elem_of_lookup in Hin as [j Hj].
    assert (j < numCoforestEdges)%nat as Hlt
      by (rewrite <- HL2; apply lookup_lt_Some with (x := -1); exact Hj).
    destruct (Hfilled2 j Hlt) as (e & Hslot & Hin & _).
    rewrite Hj in Hslot. injection Hslot as <-. apply Hedges in Hin. lia.
Qed.

(** The tagged triangle: rows 1 and 2 on the edges 0 and 1, column 1 on
    edge 2. *)
Lemma extraction_complete_witness :
  extractForest triangle triangleElements = (2%nat, 1%nat, ([0; 1], [2])) /\
  (forall i, (i < 2)%nat ->
     exists e, [0; 1] !! i = Some e /\ In e (graphEdges triangle) /\
               triangleElements e = Row i) /\
  (forall j, (j < 1)%nat ->
     exists e, [2] !! j = Some e /\ In e (graphEdges triangle) /\
               triangleElements e = Column j) /\
  ~ In (-1) [0; 1] /\ ~ In (-1) [2].
Proof.
  assert (forall i, (exists e, In e (graphEdges triangle) /\ triangleElements e = Row i)
                    <-> (i < 2)%nat) as Hrows.
  { intros i. split.
    - intros (e & [<-|[<-|[<-|[]]]] & Htag); cbn in Htag;
        [injection Htag as <-; lia | injection Htag as <-; lia | discriminate Htag].
    - intros Hi. destruct i as [|[|i]]; [exists 0 | exists 1 | lia]; cbn; auto. }
  assert (forall j, (exists e, In e (graphEdges triangle) /\ triangleElements e = Column j)
                    <-> (j < 1)%nat) as Hcolumns.
  { intros j. split.
    - intros (e & [<-|[<-|[<-|[]]]] & Htag); cbn in Htag;
        [discriminate Htag | discriminate Htag | injection Htag as <-; lia].
    - intros Hj. destruct j as [|j]; [exists 2 | lia]; cbn; auto. }
  assert (forall e, In e (graphEdges triangle) -> 0 <= e) as Hedges.
  { intros e [<-|[<-|[<-|[]]]]; lia. }
  split; [reflexivity|].
  destruct (extraction_complete triangle triangleElements 2 1 [0; 1] [2]
              eq_refl Hedges Hrows Hcolumns) as (_ & _ & Hforest & Hcoforest & Hnone).
  split; [exact Hforest|]. split; [exact Hcoforest|]. exact Hnone.
Defined.

(** An edge whose tag is out of range, or that has no tag, leaves both
    arrays as they are. *)
Lemma scanEdge_stray (edgeElements : CMR_GRAPH_EDGE -> CMR_ELEMENT)
    (numForestEdges numCoforestEdges : nat)
    (arrays : list CMR_GRAPH_EDGE * list CMR_GRAPH_EDGE) (e : CMR_GRAPH_EDGE) :
  match edgeElements e with
  | Row i => (numForestEdges <= i)%nat
  | Column j => (numCoforestEdges <= j)%nat
  | Untagged => True
  end ->
  scanEdge edgeElements numForestEdges numCoforestEdges arrays e = arrays.
Proof.
  unfold scanEdge. destruct (edgeElements e) as [i|j|]; intros Hstray; scan_simpl.
  - apply Nat.ltb_ge in Hstray. rewrite Hstray. reflexivity.
  - apply Nat.ltb_ge in Hstray. rewrite Hstray. reflexivity.
  - reflexivity.
Qed.

(** C6.  An edge whose row tag is at least [numForestEdges], or whose column
    tag is at least [numCoforestEdges], or that has no tag, is skipped: the
    loop body returns both arrays unchanged, and the arrays at the end of the
    scan are those of the scan without this edge. *)
Theorem stray_edge_skipped (edgeElements : CMR_GRAPH_EDGE -> CMR_ELEMENT)
    (numForestEdges numCoforestEdges : nat)
    (forestEdges coforestEdges : list CMR_GRAPH_EDGE) (e : CMR_GRAPH_EDGE) :
  match edgeElements e with
  | Row i => (numForestEdges <= i)%nat
  | Column j => (numCoforestEdges <= j)%nat
  | Untagged => True
  end ->
  scanEdge edgeElements numForestEdges numCoforestEdges (forestEdges, coforestEdges) e
  = (forestEdges, coforestEdges)
  /\
  forall before after : list CMR_GRAPH_EDGE,
    scanEdges edgeElements numForestEdges numCoforestEdges
      (forestEdges, coforestEdges) (before ++ e :: after)
    = scanEdges edgeElements numForestEdges numCoforestEdges
        (forestEdges, coforestEdges) (before ++ after).
Proof.
  intros Hstray. split; [apply scanEdge_stray, Hstray|].
  intros before after. unfold scanEdges. rewrite !fold_left_app. cbn [fold_left].
  rewrite scanEdge_stray by exact Hstray. reflexivity.
Qed.

(** Edge 0 of the triangle with the tag of row 8, for arrays of one slot
    each. *)
Lemma stray_edge_skipped_witness :
  scanEdge strayElements 1 1 ([7], [9]) 0 = ([7], [9]) /\
  scanEdges strayElements 1 1 ([7], [9]) [2; 0; 1]
  = scanEdges strayElements 1 1 ([7], [9]) [2; 1].
Proof.
  destruct (stray_edge_skipped strayElements 1 1 [7] [9] 0) as [Hstep Hscan].
  - cbn. lia.
  - split; [exact Hstep | exact (Hscan [2] [1])].
Defined.

(* ===================================================================== *)
(** ** Graph to matrix *)
(* ===================================================================== *)

Lemma bind_assoc {A B C} (m : Run A) (f : A -> Run B) (k : B -> Run C) :
  bind (bind m f) k = bind m (fun a => bind (f a) k).
Proof.
  destruct m as [t [a| |]]; try reflexivity.
  unfold bind at 2 3. destruct (f a) as [t' [b| |]]; cbn.
  - destruct (k b) as [t'' o]. rewrite app_assoc. reflexivity.
  - reflexivity.
  - reflexivity.
Qed.

Lemma bind_ret_inside {A B C} (m : Run A) (f : A -> B) (k : B -> Run C) :
  bind m (fun a => bind (ret (f a)) k) = bind m (fun a => k (f a)).
Proof.
  destruct m as [t [a| |]]; try reflexivity.
  unfold bind at 1. rewrite bind_ret_l. reflexivity.
Qed.

(** The front part of [graphToMatrix]: once the graph is read and the arrays
    are allocated, the run is the request to the engine followed by the
    printing of what the engine stored in the slot that was passed. *)
Lemma graphToMatrix_reaches_request (w : World) (name : string)
    (inputFormat outputFormat : FileFormat) (cographic : bool)
    (g : CMR_GRAPH) (edgeElements : CMR_GRAPH_EDGE -> CMR_ELEMENT) :
  reachesEngine w name inputFormat g edgeElements ->
  graphToMatrix w name inputFormat outputFormat cographic
  = (emit (requestFor (negb cographic) cographic g edgeElements) ;;;
     let* out := CMR_CALL (answerFor w (negb cographic) cographic g edgeElements) in
     printMatrix outputFormat
       (if cographic then compute_transpose out else compute_matrix out)).
Proof.
  intros (file & Hopen & Henv & -> & Hread & Halloc1 & Halloc2).
  unfold graphToMatrix. rewrite Hopen, Henv, CMR_CALL_okay, bind_ret_l.
  cbn [FileFormat_eqb]. rewrite Hread, CMR_CALL_okay, bind_ret_l.
  cbn [fst snd deref]. rewrite bind_ret_l.
  rewrite Halloc1, CMR_CALL_okay, bind_ret_l.
  rewrite Halloc2, CMR_CALL_okay, bind_ret_l.
  unfold requestFor, answerFor, extractForest, computeGraphicMatrix.
  cbn [fst snd].
  destruct cographic; cbn [negb];
    rewrite !bind_assoc, !bind_emit, bind_ret_inside; reflexivity.
Qed.

Lemma printMatrix_no_request (outputFormat : FileFormat) (matrix : option CMR_CHRMAT) :
  List.filter isRequest (trace (printMatrix outputFormat matrix)) = [].
Proof. unfold printMatrix. destruct outputFormat, matrix; reflexivity. Qed.

(** A run that reaches the engine makes one request. *)
Lemma requests_when_reached (w : World) (name : string)
    (inputFormat outputFormat : FileFormat) (cographic : bool)
    (g : CMR_GRAPH) (edgeElements : CMR_GRAPH_EDGE -> CMR_ELEMENT) :
  reachesEngine w name inputFormat g edgeElements ->
  List.filter isRequest (trace (graphToMatrix w name inputFormat outputFormat cographic))
  = [requestFor (negb cographic) cographic g edgeElements].
Proof.
  intros Hreach. rewrite (graphToMatrix_reaches_request _ _ _ _ _ _ _ Hreach).
  rewrite bind_emit. cbn [trace fst List.filter isRequest requestFor]. f_equal.
  destruct (answerFor w (negb cographic) cographic g edgeElements) as [[] out];
    try reflexivity.
  rewrite CMR_CALL_okay, bind_ret_l. apply printMatrix_no_request.
Qed.

(** A run that does not reach the engine makes none. *)
Lemma requests_of_any_run (w : World) (name : string)
    (inputFormat outputFormat : FileFormat) (cographic : bool) :
  List.filter isRequest (trace (graphToMatrix w name inputFormat outputFormat cographic)) = []
  \/ exists g edgeElements,
       reachesEngine w name inputFormat g edgeElements.
Proof.
  destruct (openInstance w name) as [file|] eqn:Hopen;
    [|left; unfold graphToMatrix; rewrite Hopen; reflexivity].
  destruct (CMRcreateEnvironment w) eqn:Henv;
    [|left; unfold graphToMatrix; rewrite Hopen, Henv; reflexivity ..].
  destruct (FileFormat_eqb inputFormat FILEFORMAT_GRAPH_EDGELIST) eqn:Hformat;
    [|left; unfold graphToMatrix; rewrite Hopen, Henv, Hformat; reflexivity].
  destruct (CMRgraphCreateFromEdgeList w file) as [error [graph edgeElements]] eqn:Hread.
  destruct error;
    [|left; unfold graphToMatrix; rewrite Hopen, Henv, Hformat, Hread; reflexivity ..].
  destruct graph as [g|];
    [|left; unfold graphToMatrix; rewrite Hopen, Henv, Hformat, Hread; reflexivity].
  destruct (CMRallocBlockArray w (fst (countEdges edgeElements (graphEdges g))))
    eqn:Halloc1;
    [|left; unfold graphToMatrix; rewrite Hopen, Henv, Hformat, Hread;
      rewrite !CMR_CALL_okay, !bind_ret_l; cbn [fst snd deref];
      rewrite bind_ret_l, Halloc1; reflexivity ..].
  destruct (CMRallocBlockArray w (snd (countEdges edgeElements (graphEdges g))))
    eqn:Halloc2;
    [|left; unfold graphToMatrix; rewrite Hopen, Henv, Hformat, Hread;
      rewrite !CMR_CALL_okay, !bind_ret_l; cbn [fst snd deref];
      rewrite bind_ret_l, Halloc1, CMR_CALL_okay, bind_ret_l, Halloc2;
      reflexivity ..].
  right. exists g, edgeElements, file.
  repeat split; try assumption.
  destruct inputFormat; try discriminate Hformat; reflexivity.
Qed.

(** C7.  A graph-to-matrix conversion asks the reconstruction engine for
    exactly one of its two output slots: with the cographic flag it passes
    [NULL] for the graphic slot and the address of [matrix] for the cographic
    slot, without the flag the address of [matrix] for the graphic slot and
    [NULL] for the cographic one.  No run makes a request of another shape,
    and no run makes more than one. *)
Theorem one_slot_requested (w : World) (name : string)
    (inputFormat outputFormat : FileFormat) (cographic : bool) :
  let requests :=
    List.filter isRequest
      (trace (graphToMatrix w name inputFormat outputFormat cographic)) in
  (requests = [] \/
   exists g edgeElements,
     requests = [if cographic then requestFor false true g edgeElements
                 else requestFor true false g edgeElements])
  /\
  forall g edgeElements,
    reachesEngine w name inputFormat g edgeElements ->
    requests = [if cographic then requestFor false true g edgeElements
                else requestFor true false g edgeElements].
Proof.
  intros requests.
  assert (forall g edgeElements,
            reachesEngine w name inputFormat g edgeElements ->
            requests = [if cographic then requestFor false true g edgeElements
                        else requestFor true false g edgeElements]) as Hreached.
  { intros g edgeElements Hreach. unfold requests.
    rewrite (requests_when_reached _ _ _ _ _ _ _ Hreach).
    destruct cographic; reflexivity. }
  split; [|exact Hreached].
  destruct (requests_of_any_run w name inputFormat outputFormat cographic)
    as [Hnone | (g & edgeElements & Hreach)].
  - left. exact Hnone.
  - right. exists g, edgeElements. apply Hreached, Hreach.
Qed.

(** The tagged triangle, converted with the cographic flag. *)
Lemma one_slot_requested_witness :
  List.filter isRequest
    (trace (graphToMatrix
              (graphWorld triangle triangleElements
                 {| compute_matrix := None; compute_transpose := Some rowColumn;
                    compute_isCorrectForest := true |})
              "-" FILEFORMAT_GRAPH_EDGELIST FILEFORMAT_MATRIX_DENSE true))
  = [ComputeGraphicMatrix false true 2 [0; 1] 1 [2]].
Proof.
  apply (proj2 (one_slot_requested
                  (graphWorld triangle triangleElements
                     {| compute_matrix := None; compute_transpose := Some rowColumn;
                        compute_isCorrectForest := true |})
                  "-" FILEFORMAT_GRAPH_EDGELIST FILEFORMAT_MATRIX_DENSE true)
               triangle triangleElements).
  exists "". repeat split; reflexivity.
Defined.

(** C8.  Once the engine has answered without an error, the matrix it stored
    is handed to the printer of the output format, whether the answer says
    that the forest is correct or that it is not. *)
Theorem matrix_printed_regardless_of_isCorrectForest (w : World) (name : string)
    (inputFormat outputFormat : FileFormat) (cographic : bool)
    (g : CMR_GRAPH) (edgeElements : CMR_GRAPH_EDGE -> CMR_ELEMENT)
    (matrixOut transposeOut : option CMR_CHRMAT) (isCorrectForest : bool)
    (matrix : CMR_CHRMAT) :
  reachesEngine w name inputFormat g edgeElements ->
  answerFor w (negb cographic) cographic g edgeElements
  = (CMR_OKAY, {| compute_matrix := matrixOut; compute_transpose := transposeOut;
                  compute_isCorrectForest := isCorrectForest |}) ->
  (if cographic then transposeOut else matrixOut) = Some matrix ->
  isMatrixFormat outputFormat = true ->
  graphToMatrix w name inputFormat outputFormat cographic
  = ([requestFor (negb cographic) cographic g edgeElements;
      matrixPrint outputFormat matrix],
     Return tt).
Proof.
  intros Hreach Hanswer Hstored Hformat.
  rewrite (graphToMatrix_reaches_request _ _ _ _ _ _ _ Hreach).
  rewrite bind_emit, Hanswer, CMR_CALL_okay, bind_ret_l.
  cbn [compute_matrix compute_transpose]. rewrite Hstored.
  unfold isMatrixFormat in Hformat. unfold printMatrix, matrixPrint.
  destruct outputFormat; try discriminate Hformat; reflexivity.
Qed.

(** The tagged triangle, with an engine that reports an incorrect forest. *)
Lemma matrix_printed_regardless_of_isCorrectForest_witness :
  graphToMatrix
    (graphWorld triangle triangleElements
       {| compute_matrix := Some rowColumn; compute_transpose := None;
          compute_isCorrectForest := false |})
    "-" FILEFORMAT_GRAPH_EDGELIST FILEFORMAT_MATRIX_SPARSE false
  = ([ComputeGraphicMatrix true false 2 [0; 1] 1 [2]; ChrmatPrintSparse rowColumn],
     Return tt).
Proof.
  apply (matrix_printed_regardless_of_isCorrectForest
           (graphWorld triangle triangleElements
              {| compute_matrix := Some rowColumn; compute_transpose := None;
                 compute_isCorrectForest := false |})
           "-" FILEFORMAT_GRAPH_EDGELIST FILEFORMAT_MATRIX_SPARSE false
           triangle triangleElements (Some rowColumn) None false rowColumn).
  - exists "". repeat split; reflexivity.
  - reflexivity.
  - reflexivity.
  - reflexivity.
Defined.

(* ===================================================================== *)
(** ** The command line and the exit code *)
(* ===================================================================== *)

Lemma outcome_bind {A B} (m : Run A) (k : A -> Run B) (a : A) :
  outcome m = Return a -> outcome (bind m k) = outcome (k a).
Proof.
  destruct m as [t o]. cbn [outcome snd]. intros ->.
  unfold bind. destruct (k a); reflexivity.
Qed.


(** The loop over the arguments always ends, with [EXIT_SUCCESS] (for [-h]),
    with [EXIT_FAILURE] (after [printUsage]) or with the options. *)
Lemma parseArguments_ends (program : string) (n : nat) :
  forall (args : list string) (o : Options),
    (length args <= n)%nat ->
    endsParsing (outcome (parseArguments program args o)).
Proof.
  unfold endsParsing.
  induction n as [|n IH]; intros [|arg rest] o Hlen; cbn [length] in Hlen;
    try lia; try (right; right; eexists; reflexivity).
  assert (endsParsing
            (outcome
               match instanceFileName o with
               | None => parseArguments program rest (setInstanceFileName arg o)
               | Some name =>
                 usageError program
                   ("Error: Two input files <" ++ name ++ "> and <" ++ arg
                      ++ "> specified." ++ nl ++ nl)
               end)) as Hpositional.
  { destruct (instanceFileName o); [right; left; reflexivity | apply IH; lia]. }
  unfold endsParsing in Hpositional.
  cbn -[printUsage usageError String.eqb].
  destruct (String.eqb arg "-h"); [left; reflexivity|].
  destruct (String.eqb arg "-t"); [apply IH; lia|].
  destruct (String.eqb arg "-n"); [apply IH; lia|].
  destruct (String.eqb arg "-N"); [apply IH; lia|].
  destruct (String.eqb arg "-s"); [apply IH; lia|].
  destruct (String.eqb arg "-i").
  { destruct rest as [|value rest']; [exact Hpositional|]. cbn [length] in Hlen.
    repeat (destruct (String.eqb value _); [apply IH; lia|]).
    right; left; reflexivity. }
  destruct (String.eqb arg "-o").
  { destruct rest as [|value rest']; [exact Hpositional|]. cbn [length] in Hlen.
    repeat (destruct (String.eqb value _); [apply IH; lia|]).
    right; left; reflexivity. }
  exact Hpositional.
Qed.

(** Completing the formats ends with [EXIT_FAILURE] or with a job. *)
Lemma resolveFormats_ends (program : string) (o : Options) :
  outcome (resolveFormats program o) = Return (inl EXIT_FAILURE) \/
  exists job, outcome (resolveFormats program o) = Return (inr job).
Proof.
  unfold resolveFormats.
  destruct (instanceFileName o) as [name|]; [|left; reflexivity].
  destruct (FileFormat_eqb (inputFormat o) FILEFORMAT_UNDEFINED).
  - destruct (FileFormat_eqb (outputFormat o) FILEFORMAT_UNDEFINED);
      [right; eexists; reflexivity|].
    destruct (isMatrixFormat (outputFormat o)); right; eexists; reflexivity.
  - destruct (isMatrixFormat (inputFormat o)).
    + destruct (FileFormat_eqb (outputFormat o) FILEFORMAT_UNDEFINED);
        [right; eexists; reflexivity|].
      destruct (isMatrixFormat (outputFormat o));
        [left; reflexivity | right; eexists; reflexivity].
    + destruct (FileFormat_eqb (outputFormat o) FILEFORMAT_UNDEFINED);
        [right; eexists; reflexivity|].
      destruct (isMatrixFormat (outputFormat o)); cbn [negb];
        [right; eexists; reflexivity | left; reflexivity].
Qed.

Lemma setup_ends (argv : list string) :
  endsParsing (outcome (setup argv)).
Proof.
  unfold endsParsing, setup.
  destruct (parseArguments_ends (hd "" argv) (length (tl argv)) (tl argv)
              initialOptions (Nat.le_refl _)) as [Hparse | [Hparse | [o Hparse]]];
    rewrite (outcome_bind _ _ _ Hparse).
  - left. reflexivity.
  - right. left. reflexivity.
  - destruct (resolveFormats_ends (hd "" argv) o) as [Hresolve | [job Hresolve]];
      rewrite (outcome_bind _ _ _ Hresolve).
    + right. left. reflexivity.
    + right. right. eexists. reflexivity.
Qed.

(** What [main] returns, by the way its set-up ends. *)
Lemma main_early (w : World) (argv : list string) (code : Z) :
  returnsEarly argv code -> outcome (main w argv) = Return code.
Proof. intros Hearly. unfold main. rewrite (outcome_bind _ _ _ Hearly). reflexivity. Qed.

Lemma main_converts (w : World) (argv : list string) (o : Options) (job : Job) :
  outcome (setup argv) = Return (inr (o, job)) ->
  outcome (main w argv)
  = match outcome (convert w o job) with
    | Return CMR_ERROR_INPUT | Return CMR_ERROR_MEMORY => Return EXIT_FAILURE
    | Return _ => Return EXIT_SUCCESS
    | Fail error => Fail error
    | Undefined => Undefined
    end.
Proof.
  intros Hsetup. unfold main. rewrite (outcome_bind _ _ _ Hsetup).
  destruct (convert w o job) as [t [[]|error|]]; reflexivity.
Qed.

Lemma convert_never_fails (w : World) (o : Options) (job : Job) (error : CMR_ERROR) :
  outcome (convert w o job) <> Fail error.
Proof.
  unfold convert, returned.
  destruct (isMatrixFormat (job_inputFormat job)).
  - destruct (matrixToGraph _ _ _ _ _ _ _ _) as [t [[]|e|]]; discriminate.
  - destruct (graphToMatrix _ _ _ _ _) as [t [[]|e|]]; discriminate.
Qed.

(** C9, as stated, fails: started without a file name, the program ends
    with exit code 1 although no conversion was started, so that neither an
    input error nor a memory error occurred. *)
Lemma usage_error_exit_code :
  let w := matrixWorld identity2 triangular2Cographic triangular2Cographic None in
  let argv := ["graphic"] in
  ~ ((exists code, exitsWith w argv code /\ code <> 0)
     <-> (conversionReturns w argv CMR_ERROR_INPUT \/
          conversionReturns w argv CMR_ERROR_MEMORY)).
Proof.
  intros w argv [Hforward _].
  destruct Hforward as [(o & job & Hsetup & _) | (o & job & Hsetup & _)].
  - exists 1. split; [reflexivity | lia].
  - discriminate Hsetup.
  - discriminate Hsetup.
Qed.

(** The exit code by the way the set-up of [main] ends: non-zero when the
    set-up ends with [EXIT_FAILURE] or the conversion returns an input error
    or a memory error, zero when the set-up ends with [EXIT_SUCCESS] or the
    conversion returns [CMR_OKAY] or another error code. *)
Lemma exit_code_by_setup (w : World) (argv : list string) :
  ((exists code, exitsWith w argv code /\ code <> 0)
   <-> (rejected argv \/
        conversionReturns w argv CMR_ERROR_INPUT \/
        conversionReturns w argv CMR_ERROR_MEMORY))
  /\
  (exitsWith w argv 0
   <-> (returnsEarly argv EXIT_SUCCESS \/
        conversionReturns w argv CMR_OKAY \/
        conversionReturns w argv CMR_ERROR_OTHER)).
Proof.
  unfold exitsWith, rejected, returnsEarly, conversionReturns.
  destruct (setup_ends argv) as [Hsetup | [Hsetup | [[o job] Hsetup]]].
  - rewrite (main_early w argv _ Hsetup), Hsetup. unfold EXIT_SUCCESS, EXIT_FAILURE.
    repeat split; intros H; split_run; auto; try congruence.
  - rewrite (main_early w argv _ Hsetup), Hsetup. unfold EXIT_SUCCESS, EXIT_FAILURE.
    repeat split; intros H; split_run; auto; try congruence.
    exists 1. split; [reflexivity | lia].
  - rewrite (main_converts w argv o job Hsetup), Hsetup.
    unfold EXIT_SUCCESS, EXIT_FAILURE.
    destruct (outcome (convert w o job)) as [[]|error|] eqn:Hconvert;
      repeat split; intros H; split_run; auto; try congruence;
      try (exists 1; split; [reflexivity | lia]);
      try (right; left; exists o, job; split; [reflexivity | assumption]);
      try (right; right; exists o, job; split; [reflexivity | assumption]).
Qed.

(* ===================================================================== *)
(** ** More on the command line *)
(* ===================================================================== *)

Lemma trace_bind {A B} (m : Run A) (k : A -> Run B) (a : A) :
  outcome m = Return a -> trace (bind m k) = (trace m ++ trace (k a))%list.
Proof.
  destruct m as [t o]. cbn [outcome snd trace fst]. intros ->.
  unfold bind. destruct (k a); reflexivity.
Qed.

Lemma handled_weaken {A} (program : string) (good good' : A -> Prop)
    (run : Run (Z + A)) :
  (forall a, good a -> good' a) -> handled program good run -> handled program good' run.
Proof.
  intros Hweaken. destruct run as [t [[code|a]| |]]; cbn; try tauto.
  intros [-> Hgood]. auto.
Qed.

Lemma handled_usageError {A} (program message : string) (good : A -> Prop) :
  handled program good (usageError program message).
Proof. cbn. right. split; [reflexivity | exists message; reflexivity]. Qed.

Lemma handled_help {A} (program : string) (good : A -> Prop) :
  handled program good (printUsage program ;;; ret (inl EXIT_SUCCESS)).
Proof. cbn. left. split; reflexivity. Qed.

Lemma handled_ret {A} (program : string) (good : A -> Prop) (a : A) :
  good a -> handled program good (ret (inr a)).
Proof. intros Hgood. split; [reflexivity | exact Hgood]. Qed.

(** The loop over the arguments: it prints nothing unless it ends [main],
    and the options it hands on are assigned as [assigned] says. *)
Lemma parseArguments_handled (program : string) (n : nat) :
  forall (args : list string) (o : Options),
    (length args <= n)%nat ->
    handled program (assigned o) (parseArguments program args o).
Proof.
  induction n as [|n IH]; intros [|arg rest] o Hlen; cbn [length] in Hlen;
    try lia; try (apply handled_ret; constructor).
  assert (handled program (assigned o)
            match instanceFileName o with
            | None => parseArguments program rest (setInstanceFileName arg o)
            | Some name =>
              usageError program
                ("Error: Two input files <" ++ name ++ "> and <" ++ arg
                   ++ "> specified." ++ nl ++ nl)
            end) as Hpositional.
  { destruct (instanceFileName o) eqn:Hname.
    - apply handled_usageError.
    - apply handled_weaken with (good := assigned (setInstanceFileName arg o));
        [intros o'; apply assigned_file, Hname | apply IH; lia]. }
  cbn -[printUsage usageError String.eqb].
  destruct (String.eqb arg "-h"); [apply handled_help|].
  destruct (String.eqb arg "-t");
    [eapply handled_weaken; [apply assigned_transposed | apply IH; lia]|].
  destruct (String.eqb arg "-n");
    [eapply handled_weaken; [apply assigned_elements | apply IH; lia]|].
  destruct (String.eqb arg "-N");
    [eapply handled_weaken; [apply assigned_matrix | apply IH; lia]|].
  destruct (String.eqb arg "-s");
    [eapply handled_weaken; [apply assigned_stats | apply IH; lia]|].
  destruct (String.eqb arg "-i").
  { destruct rest as [|value rest']; [exact Hpositional|]. cbn [length] in Hlen.
    repeat (destruct (String.eqb value _);
            [match goal with
             | |- handled _ _ (parseArguments _ _ (setInputFormat ?f _)) =>
               apply handled_weaken with (good := assigned (setInputFormat f o));
               [intros o'; apply assigned_input; tauto | apply IH; lia]
             end|]).
    apply handled_usageError. }
  destruct (String.eqb arg "-o").
  { destruct rest as [|value rest']; [exact Hpositional|]. cbn [length] in Hlen.
    repeat (destruct (String.eqb value _);
            [match goal with
             | |- handled _ _ (parseArguments _ _ (setOutputFormat ?f _)) =>
               apply handled_weaken with (good := assigned (setOutputFormat f o));
               [intros o'; apply assigned_output; discriminate | apply IH; lia]
             end|]).
    apply handled_usageError. }
  exact Hpositional.
Qed.

(** What the assignments keep: a file name once set, flags once raised, and
    an input format that is not dot. *)
Lemma assigned_keeps_file (o o' : Options) (name : string) :
  assigned o o' -> instanceFileName o = Some name -> instanceFileName o' = Some name.
Proof.
  induction 1 as [| | | | | | |o name' o' Hnone _ _]; intros Hname; auto.
  rewrite Hname in Hnone. discriminate Hnone.
Qed.

Lemma assigned_keeps_flags (o o' : Options) :
  assigned o o' ->
  (transposed o = true -> transposed o' = true) /\
  (outputNonGraphicElements o = true -> outputNonGraphicElements o' = true) /\
  (outputNonGraphicMatrix o = true -> outputNonGraphicMatrix o' = true) /\
  (printStats o = true -> printStats o' = true).
Proof.
  induction 1 as [o|o o' _ IH|o o' _ IH|o o' _ IH|o o' _ IH|o f o' _ _ IH
                  |o f o' _ _ IH|o name o' _ _ IH];
    [tauto | cbn in IH; tauto ..].
Qed.

Lemma assigned_input_not_dot (o o' : Options) :
  assigned o o' ->
  inputFormat o <> FILEFORMAT_GRAPH_DOT -> inputFormat o' <> FILEFORMAT_GRAPH_DOT.
Proof.
  induction 1 as [o|o o' _ IH|o o' _ IH|o o' _ IH|o o' _ IH|o f o' Hf _ IH
                  |o f o' _ _ IH|o name o' _ _ IH]; intros Hdot; auto.
  apply IH. cbn. destruct Hf as [-> | [-> | ->]]; discriminate.
Qed.

(** Completing the formats: no output unless [main] ends, and a job with one
    matrix format and one graph format for the file named in the options. *)
Lemma resolveFormats_handled (program : string) (o : Options) :
  inputFormat o <> FILEFORMAT_GRAPH_DOT ->
  handled program
    (fun job => wellFormed job /\ instanceFileName o = Some (job_instanceFileName job))
    (resolveFormats program o).
Proof.
  intros Hdot. unfold resolveFormats, wellFormed.
  destruct (instanceFileName o) as [name|]; [|apply handled_usageError].
  destruct (inputFormat o), (outputFormat o); try congruence;
    cbn -[handled usageError];
    first [ apply handled_usageError
          | apply handled_ret; split; [|reflexivity]; cbn; tauto ].
Qed.

Lemma setup_handled (argv : list string) :
  handled (hd "" argv)
    (fun ready : Options * Job =>
       assigned initialOptions (fst ready) /\
       wellFormed (snd ready) /\
       instanceFileName (fst ready) = Some (job_instanceFileName (snd ready)))
    (setup argv).
Proof.
  unfold setup.
  pose proof (parseArguments_handled (hd "" argv) (length (tl argv)) (tl argv)
                initialOptions (Nat.le_refl _)) as Hparse.
  destruct (parseArguments (hd "" argv) (tl argv) initialOptions)
    as [t [[code|o]| |]]; cbn [handled] in Hparse; try contradiction.
  - unfold bind, ret. cbn [handled]. rewrite app_nil_r. exact Hparse.
  - destruct Hparse as [-> Hassigned].
    pose proof (resolveFormats_handled (hd "" argv) o
                  (assigned_input_not_dot _ _ Hassigned ltac:(discriminate)))
      as Hresolve.
    unfold bind at 1.
    destruct (resolveFormats (hd "" argv) o) as [t' [[code|job]| |]];
      cbn [handled] in Hresolve; try contradiction.
    + unfold bind, ret. cbn [handled app]. rewrite app_nil_r. exact Hresolve.
    + destruct Hresolve as [-> Hjob]. unfold bind, ret. cbn [handled app fst snd].
      split; [reflexivity|]. tauto.
Qed.

(** A run of the set-up that hands on a job has printed nothing, and the job
    is well formed. *)
Lemma setup_job (argv : list string) (o : Options) (job : Job) :
  outcome (setup argv) = Return (inr (o, job)) ->
  trace (setup argv) = [] /\
  wellFormed job /\
  instanceFileName o = Some (job_instanceFileName job).
Proof.
  intros Hsetup. pose proof (setup_handled argv) as Hhandled.
  destruct (setup argv) as [t out]. cbn [outcome snd] in Hsetup. subst out.
  cbn [handled fst snd] in Hhandled. cbn [trace fst]. tauto.
Qed.

(** X2.  When [main] returns without starting a conversion, the usage text is
    the last thing it has printed: all of the output for exit code 0 (the
    option [-h]), and preceded by exactly one message for exit code 1. *)
Theorem early_return_prints_usage (w : World) (argv : list string) (code : Z) :
  returnsEarly argv code ->
  (code = EXIT_SUCCESS /\ trace (main w argv) = usageText (hd "" argv)) \/
  (code = EXIT_FAILURE /\
   exists message, trace (main w argv) = Stdout message :: usageText (hd "" argv)).
Proof.
  unfold returnsEarly. intros Hearly.
  pose proof (setup_handled argv) as Hhandled.
  unfold main. rewrite (trace_bind _ _ _ Hearly). cbn [trace ret fst].
  rewrite app_nil_r.
  destruct (setup argv) as [t out]. cbn [outcome snd] in Hearly. subst out.
  cbn [handled trace fst] in *. exact Hhandled.
Qed.

(** An unknown input format. *)
Lemma early_return_prints_usage_witness :
  exists message,
    trace (main (matrixWorld identity2 triangular2Cographic triangular2Cographic None)
                ["graphic"; "-i"; "dot"; "matrix.txt"])
    = Stdout message :: usageText "graphic".
Proof.
  destruct (early_return_prints_usage
              (matrixWorld identity2 triangular2Cographic triangular2Cographic None)
              ["graphic"; "-i"; "dot"; "matrix.txt"] EXIT_FAILURE eq_refl)
    as [[Hcode _] | [_ Hmessage]].
  - discriminate Hcode.
  - exact Hmessage.
Defined.

(** X3.  The loop over the arguments never replaces a file name and never
    lowers a flag: options that it hands on still name the file that was
    set when it started, and every flag that was raised is still raised. *)
Theorem arguments_keep_file_and_flags (program : string) (args : list string)
    (o o' : Options) (name : string) :
  instanceFileName o = Some name ->
  outcome (parseArguments program args o) = Return (inr o') ->
  instanceFileName o' = Some name /\
  (transposed o = true -> transposed o' = true) /\
  (outputNonGraphicElements o = true -> outputNonGraphicElements o' = true) /\
  (outputNonGraphicMatrix o = true -> outputNonGraphicMatrix o' = true) /\
  (printStats o = true -> printStats o' = true).
Proof.
  intros Hname Hparse.
  pose proof (parseArguments_handled program (length args) args o (Nat.le_refl _))
    as Hhandled.
  destruct (parseArguments program args o) as [t out].
  cbn [outcome snd] in Hparse. subst out. destruct Hhandled as [_ Hassigned].
  split; [exact (assigned_keeps_file _ _ _ Hassigned Hname)|].
  exact (assigned_keeps_flags _ _ Hassigned).
Qed.

(** The file and [-t] are set; [-s -o dot] follow. *)
Lemma arguments_keep_file_and_flags_witness :
  instanceFileName
    (setOutputFormat FILEFORMAT_GRAPH_DOT
       (setPrintStats (setTransposed (setInstanceFileName "m" initialOptions))))
  = Some "m".
Proof.
  apply (arguments_keep_file_and_flags "graphic" ["-s"; "-o"; "dot"]
           (setTransposed (setInstanceFileName "m" initialOptions))
           (setOutputFormat FILEFORMAT_GRAPH_DOT
              (setPrintStats (setTransposed (setInstanceFileName "m" initialOptions))))
           "m"); reflexivity.
Defined.

(** X4.  When [main] starts a conversion, what the program prints is what
    the conversion prints, followed by the line [Input error.] or
    [Memory error.] when the conversion returns that error and by nothing
    otherwise. *)
Theorem output_is_conversion_then_error_line (w : World) (argv : list string)
    (o : Options) (job : Job) (error : CMR_ERROR) :
  outcome (setup argv) = Return (inr (o, job)) ->
  outcome (convert w o job) = Return error ->
  trace (main w argv) = (trace (convert w o job) ++ errorText error)%list.
Proof.
  intros Hsetup Hconvert.
  destruct (setup_job argv o job Hsetup) as [Hsilent _].
  unfold main. rewrite (trace_bind _ _ _ Hsetup), Hsilent. cbn [app].
  rewrite (trace_bind _ _ _ Hconvert). f_equal.
  destruct error; reflexivity.
Qed.

(** The Fano matrix with [-n]: the element list and no error line. *)
Lemma output_is_conversion_then_error_line_witness :
  trace (main (matrixWorld fano fanoNotGraphic fanoNotGraphic (Some fano))
              ["graphic"; "-n"; "matrix.txt"])
  = (violatorElementsText {| rows := [0; 1; 2]%nat; columns := [0; 1; 2; 3]%nat |}
       ++ [])%list.
Proof.
  apply (output_is_conversion_then_error_line
           (matrixWorld fano fanoNotGraphic fanoNotGraphic (Some fano))
           ["graphic"; "-n"; "matrix.txt"]
           (setInstanceFileName "matrix.txt"
              (setOutputNonGraphicElements initialOptions))
           {| job_instanceFileName := "matrix.txt";
              job_inputFormat := FILEFORMAT_MATRIX_DENSE;
              job_outputFormat := FILEFORMAT_GRAPH_EDGELIST |}
           CMR_OKAY); reflexivity.
Defined.

(** X5.  A file that cannot be opened: in either direction the program
    prints the one line [Input error.] and ends with [EXIT_FAILURE]; no
    library call is made. *)
Theorem unopened_file_is_input_error (w : World) (argv : list string)
    (o : Options) (job : Job) :
  outcome (setup argv) = Return (inr (o, job)) ->
  job_instanceFileName job <> "-" ->
  fopen w (job_instanceFileName job) = None ->
  main w argv = ([Stdout ("Input error." ++ nl)], Return EXIT_FAILURE).
Proof.
  intros Hsetup Hdash Hopen.
  assert (convert w o job = ([], Return CMR_ERROR_INPUT)) as Hconvert.
  { unfold convert, matrixToGraph, graphToMatrix, openInstance.
    apply String.eqb_neq in Hdash. rewrite Hdash, Hopen.
    destruct (isMatrixFormat (job_inputFormat job)); reflexivity. }
  destruct (setup_job argv o job Hsetup) as [Hsilent _].
  unfold main. destruct (setup argv) as [t out].
  cbn [outcome snd trace fst] in Hsetup, Hsilent. subst t out.
  unfold bind at 1. rewrite Hconvert. reflexivity.
Qed.

(** A graph file that is not there. *)
Lemma unopened_file_is_input_error_witness :
  main (closedWorld (graphWorld triangle triangleElements
                       {| compute_matrix := Some rowColumn; compute_transpose := None;
                          compute_isCorrectForest := true |}))
       ["graphic"; "-i"; "edgelist"; "graph.txt"]
  = ([Stdout ("Input error." ++ nl)], Return EXIT_FAILURE).
Proof.
  apply (unopened_file_is_input_error _ _
           (setInstanceFileName "graph.txt"
              (setInputFormat FILEFORMAT_GRAPH_EDGELIST initialOptions))
           {| job_instanceFileName := "graph.txt";
              job_inputFormat := FILEFORMAT_GRAPH_EDGELIST;
              job_outputFormat := FILEFORMAT_MATRIX_DENSE |}).
  - reflexivity.
  - discriminate.
  - reflexivity.
Defined.

(* ===================================================================== *)
(** ** More on matrix to graph *)
(* ===================================================================== *)

Lemma matrixToGraph_after_test (w : World) (name : string)
    (inputFormat outputFormat : FileFormat)
    (cographic elements violator stats : bool)
    (matrix : CMR_CHRMAT) (test : TestOutput) :
  testAnswers w name inputFormat cographic (elements || violator) matrix test ->
  matrixToGraph w name inputFormat outputFormat cographic elements violator stats
  = matrixToGraph_output w inputFormat outputFormat cographic elements violator
      matrix (test_isGraphic test) (test_graph test)
      (test_forestEdges test) (test_coforestEdges test) None
      (if elements || violator then test_submatrix test else None).
Proof.
  intros (file & Hopen & Henv & Hread & Htest).
  exact (matrixToGraph_reaches_output _ _ _ _ _ _ _ _ _ _ _ Hopen Henv Hread Htest).
Qed.

(** X6.  When the environment cannot be created, the matrix cannot be read
    or the test fails, [matrixToGraph] returns the error code of that call
    and has printed nothing. *)
Theorem matrixToGraph_fails_before_output (w : World) (name : string)
    (inputFormat outputFormat : FileFormat)
    (cographic elements violator stats : bool) (file : FILE) (error : CMR_ERROR) :
  openInstance w name = Some file ->
  error <> CMR_OKAY ->
  (CMRcreateEnvironment w = error
   \/ (CMRcreateEnvironment w = CMR_OKAY /\
       fst (readMatrix w inputFormat file) = error)
   \/ (CMRcreateEnvironment w = CMR_OKAY /\
       exists matrix,
         readMatrix w inputFormat file = (CMR_OKAY, Some matrix) /\
         fst (testMatrix w cographic matrix (elements || violator)) = error)) ->
  matrixToGraph w name inputFormat outputFormat cographic elements violator stats
  = ([], Fail error).
Proof.
  intros Hopen Herror Hcall. unfold matrixToGraph. rewrite Hopen.
  destruct Hcall as [Henv | [[Henv Hread] | [Henv (matrix & Hread & Htest)]]].
  - rewrite Henv. destruct error; [congruence | reflexivity ..].
  - rewrite Henv, CMR_CALL_okay, bind_ret_l. unfold readMatrix in Hread.
    destruct (FileFormat_eqb inputFormat FILEFORMAT_MATRIX_DENSE);
      [|destruct (FileFormat_eqb inputFormat FILEFORMAT_MATRIX_SPARSE)];
      [| |cbn in Hread; congruence];
      match goal with
      | |- context [CMR_CALL ?call] =>
        destruct call as [e out]; cbn [fst] in Hread; subst e;
        destruct error; [congruence | reflexivity ..]
      end.
  - rewrite Henv, CMR_CALL_okay, bind_ret_l.
    assert ((if FileFormat_eqb inputFormat FILEFORMAT_MATRIX_DENSE
             then CMR_CALL (CMRchrmatCreateFromDenseStream w file)
             else if FileFormat_eqb inputFormat FILEFORMAT_MATRIX_SPARSE
                  then CMR_CALL (CMRchrmatCreateFromSparseStream w file)
                  else ret None) = ret (Some matrix)) as ->.
    { unfold readMatrix in Hread.
      destruct (FileFormat_eqb inputFormat FILEFORMAT_MATRIX_DENSE);
        [| destruct (FileFormat_eqb inputFormat FILEFORMAT_MATRIX_SPARSE)];
        [rewrite Hread; reflexivity .. | discriminate Hread]. }
    rewrite bind_ret_l. cbn [deref]. rewrite bind_ret_l.
    unfold testMatrix in Htest.
    destruct cographic;
      match goal with
      | |- context [CMR_CALL ?call] =>
        destruct call as [e out]; cbn [fst] in Htest; subst e;
        destruct error; [congruence | reflexivity ..]
      end.
Qed.

(** A matrix stream that is malformed. *)
Lemma matrixToGraph_fails_before_output_witness :
  matrixToGraph (graphWorld triangle triangleElements
                   {| compute_matrix := None; compute_transpose := None;
                      compute_isCorrectForest := false |})
                "-" FILEFORMAT_MATRIX_SPARSE FILEFORMAT_GRAPH_DOT true true false true
  = ([], Fail CMR_ERROR_INPUT).
Proof.
  apply (matrixToGraph_fails_before_output _ "-" FILEFORMAT_MATRIX_SPARSE
           FILEFORMAT_GRAPH_DOT true true false true "" CMR_ERROR_INPUT).
  - reflexivity.
  - discriminate.
  - right. left. split; reflexivity.
Defined.

(** X7.  After a negative verdict [matrixToGraph] prints nothing and returns
    [CMR_OKAY] when there is no violator to show: neither the element list
    nor the violator matrix was asked for (whatever the test stored), or the
    test stored none. *)
Theorem negative_verdict_without_violator (w : World) (name : string)
    (inputFormat outputFormat : FileFormat)
    (cographic elements violator stats : bool)
    (matrix : CMR_CHRMAT) (test : TestOutput) :
  testAnswers w name inputFormat cographic (elements || violator) matrix test ->
  test_isGraphic test = false ->
  elements || violator = false \/ test_submatrix test = None ->
  matrixToGraph w name inputFormat outputFormat cographic elements violator stats
  = ([], Return tt).
Proof.
  intros Hanswers Hverdict Hnone.
  rewrite (matrixToGraph_after_test _ _ _ _ _ _ _ _ _ _ Hanswers).
  unfold matrixToGraph_output. rewrite Hverdict, bind_ret_l.
  assert ((if elements || violator then test_submatrix test else None) = None) as ->
    by (destruct Hnone as [-> | ->]; [reflexivity | destruct (_ || _); reflexivity]).
  reflexivity.
Qed.

(** The Fano matrix without [-n] and [-N]. *)
Lemma negative_verdict_without_violator_witness :
  matrixToGraph (matrixWorld fano fanoNotGraphic fanoNotGraphic (Some fano))
                "matrix" FILEFORMAT_MATRIX_DENSE FILEFORMAT_GRAPH_EDGELIST
                false false false false
  = ([], Return tt).
Proof.
  apply (negative_verdict_without_violator _ _ _ _ _ _ _ _ fano fanoNotGraphic).
  - exists "". repeat split; reflexivity.
  - reflexivity.
  - left. reflexivity.
Defined.

(** X8.  After a negative verdict with the violator matrix asked for and the
    element list not, [matrixToGraph] zooms into the violator and hands the
    zoomed matrix to the printer of the input format: the dense printer for
    dense input, the sparse printer for sparse input.  Nothing else is
    printed. *)
Theorem violator_matrix_in_input_format (w : World) (name : string)
    (inputFormat outputFormat : FileFormat) (cographic stats : bool)
    (matrix : CMR_CHRMAT) (test : TestOutput) (sub : CMR_SUBMAT)
    (zoomed : CMR_CHRMAT) :
  testAnswers w name inputFormat cographic true matrix test ->
  test_isGraphic test = false ->
  test_submatrix test = Some sub ->
  CMRchrmatZoomSubmat w matrix sub = (CMR_OKAY, Some zoomed) ->
  matrixToGraph w name inputFormat outputFormat cographic false true stats
  = ([matrixPrint inputFormat zoomed], Return tt).
Proof.
  intros Hanswers Hverdict Hsub Hzoom.
  assert (isMatrixFormat inputFormat = true) as Hformat.
  { destruct Hanswers as (file & _ & _ & Hread & _). unfold readMatrix in Hread.
    destruct inputFormat; try reflexivity; discriminate Hread. }
  rewrite (matrixToGraph_after_test _ _ _ _ _ false true _ _ _ Hanswers).
  unfold matrixToGraph_output. rewrite Hverdict, Hsub, bind_ret_l.
  cbn [orb printViolatorElements]. rewrite bind_ret_l.
  cbn [printViolatorMatrix]. rewrite Hzoom, CMR_CALL_okay, bind_ret_l.
  cbn [deref]. rewrite bind_ret_l.
  unfold matrixPrint. destruct inputFormat; try discriminate Hformat; reflexivity.
Qed.

(** The Fano matrix in the sparse format with [-N]. *)
Lemma violator_matrix_in_input_format_witness :
  matrixToGraph (matrixWorld fano fanoNotGraphic fanoNotGraphic (Some fano))
                "matrix" FILEFORMAT_MATRIX_SPARSE FILEFORMAT_GRAPH_EDGELIST
                true false true false
  = ([ChrmatPrintSparse fano], Return tt).
Proof.
  apply (violator_matrix_in_input_format
           (matrixWorld fano fanoNotGraphic fanoNotGraphic (Some fano))
           "matrix" FILEFORMAT_MATRIX_SPARSE FILEFORMAT_GRAPH_EDGELIST true false
           fano fanoNotGraphic
           {| rows := [0; 1; 2]%nat; columns := [0; 1; 2; 3]%nat |} fano).
  - exists "". repeat split; reflexivity.
  - reflexivity.
  - reflexivity.
  - reflexivity.
Defined.

(** X9.  After a negative verdict with the element list asked for,
    [matrixToGraph] prints the number of rows of the violator and its rows,
    then the number of columns and its columns, every index 1-based and in
    the order of the violator's arrays, and nothing after that, with or
    without the violator matrix asked for as well. *)
Theorem violator_elements_printed (w : World) (name : string)
    (inputFormat outputFormat : FileFormat) (cographic violator stats : bool)
    (matrix : CMR_CHRMAT) (test : TestOutput) (sub : CMR_SUBMAT) :
  testAnswers w name inputFormat cographic true matrix test ->
  test_isGraphic test = false ->
  test_submatrix test = Some sub ->
  matrixToGraph w name inputFormat outputFormat cographic true violator stats
  = ((Stdout (fmt_ld (Z.of_nat (length (rows sub))) ++ " rows:")
        :: map (fun r => Stdout (" " ++ fmt_ld (Z.of_nat r + 1))) (rows sub)
        ++ Stdout (nl ++ fmt_ld (Z.of_nat (length (columns sub))) ++ " columns: ")
        :: map (fun c => Stdout (" " ++ fmt_ld (Z.of_nat c + 1))) (columns sub)
        ++ [Stdout nl])%list,
     Return tt).
Proof.
  intros Hanswers Hverdict Hsub.
  rewrite (matrixToGraph_after_test _ _ _ _ _ true violator _ _ _ Hanswers).
  rewrite Hverdict, Hsub. cbn [orb].
  apply elements_suppress_violator_matrix.
Qed.

(** The Fano matrix with [-n]. *)
Lemma violator_elements_printed_witness :
  matrixToGraph (matrixWorld fano fanoNotGraphic fanoNotGraphic (Some fano))
                "matrix" FILEFORMAT_MATRIX_DENSE FILEFORMAT_GRAPH_EDGELIST
                false true false false
  = ([Stdout "3 rows:"; Stdout " 1"; Stdout " 2"; Stdout " 3";
      Stdout (nl ++ "4 columns: ");
      Stdout " 1"; Stdout " 2"; Stdout " 3"; Stdout " 4"; Stdout nl],
     Return tt).
Proof.
  apply (violator_elements_printed _ _ _ _ _ _ _ fano fanoNotGraphic
           {| rows := [0; 1; 2]%nat; columns := [0; 1; 2; 3]%nat |}).
  - exists "". repeat split; reflexivity.
  - reflexivity.
  - reflexivity.
Defined.

(** X10.  The dot output after a positive verdict: the line [graph G {],
    one link per row, labelled [r<i+1>] and marked bold and red, one link per
    column, labelled [c<j+1>] and unmarked, and the line [}]; the end nodes
    of a link are swapped exactly when the reversal flag of its edge is
    present and set.  The rows are read from the first array and the columns
    from the second. *)
Theorem dot_lines (cographic : bool) (matrix : CMR_CHRMAT) (g : CMR_GRAPH)
    (rowEdges columnEdges : list CMR_GRAPH_EDGE)
    (edgesReversed : option (CMR_GRAPH_EDGE -> bool))
    (rowEdge columnEdge : nat -> CMR_GRAPH_EDGE) :
  (forall i, (i < numRows matrix)%nat -> rowEdges !! i = Some (rowEdge i)) ->
  (forall j, (j < numColumns matrix)%nat -> columnEdges !! j = Some (columnEdge j)) ->
  printGraph FILEFORMAT_GRAPH_DOT cographic matrix (Some g) rowEdges columnEdges
             edgesReversed
  = ((Stdout ("graph G {" ++ nl)
        :: dotEdges g edgesReversed "r" ",style=bold,color=red" (numRows matrix) rowEdge
        ++ dotEdges g edgesReversed "c" "" (numColumns matrix) columnEdge
        ++ [Stdout ("}" ++ nl)])%list,
     Return tt).
Proof.
  intros Hrows Hcolumns. unfold printGraph. cbn [FileFormat_eqb].
  unfold puts. rewrite bind_emit.
  erewrite bind_then by (apply printEdges_defined, Hrows).
  erewrite bind_then by (apply printEdges_defined, Hcolumns).
  reflexivity.
Qed.

(** The graph of the matrix [[1,0],[0,1]] with the flag of edge 3 set. *)
Lemma dot_lines_witness :
  printGraph FILEFORMAT_GRAPH_DOT false identity2 (Some identity2Graph) [0; 1] [2; 3]
             (Some (fun e => Z.eqb e 3))
  = ([Stdout ("graph G {" ++ nl);
      dotEdge 0 1 "r1" ",style=bold,color=red";
      dotEdge 1 2 "r2" ",style=bold,color=red";
      dotEdge 0 1 "c1" ""; dotEdge 2 1 "c2" "";
      Stdout ("}" ++ nl)],
     Return tt).
Proof.
  apply (dot_lines false identity2 identity2Graph [0; 1] [2; 3]
           (Some (fun e => Z.eqb e 3))
           (fun i => nth i [0; 1] 0) (fun j => nth j [2; 3] 0)).
  - intros [|[|i]] Hi; [reflexivity | reflexivity | cbn in Hi; lia].
  - intros [|[|j]] Hj; [reflexivity | reflexivity | cbn in Hj; lia].
Defined.

(* ===================================================================== *)
(** ** More on forest extraction *)
(* ===================================================================== *)

Lemma CMR_ELEMENT_eqb_eq (a b : CMR_ELEMENT) : CMR_ELEMENT_eqb a b = true <-> a = b.
Proof.
  destruct a as [i|i|], b as [j|j|]; cbn; try (split; [discriminate | discriminate]);
    try (split; reflexivity); rewrite Nat.eqb_eq; split; congruence.
Qed.

Lemma CMR_ELEMENT_eqb_refl (a : CMR_ELEMENT) : CMR_ELEMENT_eqb a a = true.
Proof. apply CMR_ELEMENT_eqb_eq. reflexivity. Qed.

Lemma CMR_ELEMENT_eqb_neq (a b : CMR_ELEMENT) : a <> b -> CMR_ELEMENT_eqb a b = false.
Proof.
  intros Hne. destruct (CMR_ELEMENT_eqb a b) eqn:Heq; [|reflexivity].
  apply CMR_ELEMENT_eqb_eq in Heq. contradiction.
Qed.

Lemma countEdges_from (edgeElements : CMR_GRAPH_EDGE -> CMR_ELEMENT)
    (edges : list CMR_GRAPH_EDGE) (counts : nat * nat) :
  fold_left (countEdge edgeElements) edges counts
  = ((fst counts
      + length (List.filter (fun e => CMRelementIsRow (edgeElements e)) edges))%nat,
     (snd counts
      + length (List.filter (fun e => CMRelementIsColumn (edgeElements e)) edges))%nat).
Proof.
  revert counts. induction edges as [|e edges IH]; intros [rowCount columnCount].
  - cbn. f_equal; lia.
  - cbn [fold_left List.filter]. rewrite IH. unfold countEdge.
    destruct (edgeElements e); cbn; f_equal; lia.
Qed.

(** X12.  The counting scan: [numForestEdges] is the number of row-tagged
    edges and [numCoforestEdges] the number of column-tagged edges; together
    with the edges that are neither they make up the edges of the graph. *)
Theorem counts_partition_the_edges (edgeElements : CMR_GRAPH_EDGE -> CMR_ELEMENT)
    (edges : list CMR_GRAPH_EDGE) :
  let isRow e := CMRelementIsRow (edgeElements e) in
  let isColumn e := CMRelementIsColumn (edgeElements e) in
  let isNeither e := negb (isRow e) && negb (isColumn e) in
  countEdges edgeElements edges
  = (length (List.filter isRow edges), length (List.filter isColumn edges))
  /\
  (fst (countEdges edgeElements edges) + snd (countEdges edgeElements edges)
   + length (List.filter isNeither edges) = length edges)%nat.
Proof.
  intros isRow isColumn isNeither.
  assert (countEdges edgeElements edges
          = (length (List.filter isRow edges), length (List.filter isColumn edges)))
    as Hcounts by (unfold countEdges; rewrite countEdges_from; reflexivity).
  split; [exact Hcounts|]. rewrite Hcounts. cbn [fst snd].
  clear Hcounts. subst isRow isColumn isNeither.
  induction edges as [|e edges IH]; [reflexivity|].
  cbn [List.filter].
  destruct (edgeElements e); cbn [CMRelementIsRow CMRelementIsColumn negb andb length];
    lia.
Qed.

Section Slots.

Variable edgeElements : CMR_GRAPH_EDGE -> CMR_ELEMENT.
Variables numForestEdges numCoforestEdges : nat.

Local Abbreviation scan := (scanEdges edgeElements numForestEdges numCoforestEdges).

Lemma tagged_snoc (element : CMR_ELEMENT) (edges : list CMR_GRAPH_EDGE)
    (e : CMR_GRAPH_EDGE) :
  tagged edgeElements element (edges ++ [e])
  = (tagged edgeElements element edges
       ++ if CMR_ELEMENT_eqb (edgeElements e) element then [e] else [])%list.
Proof.
  unfold tagged. rewrite List.filter_app. cbn [List.filter].
  destruct (CMR_ELEMENT_eqb (edgeElements e) element); reflexivity.
Qed.

(** A slot of [forestEdges] below [numForestEdges] holds, after the scan,
    the last edge tagged with its row, and what it held before when there is
    no such edge. *)
Lemma scanEdges_forest_slot (edges : list CMR_GRAPH_EDGE)
    (arrays : list CMR_GRAPH_EDGE * list CMR_GRAPH_EDGE) (i : nat)
    (before : CMR_GRAPH_EDGE) :
  (i < numForestEdges)%nat ->
  fst arrays !! i = Some before ->
  fst (scan arrays edges) !! i
  = Some (List.last (tagged edgeElements (Row i) edges) before).
Proof.
  intros Hi Hbefore. unfold scanEdges.
  induction edges as [|e edges IH] using rev_ind; [exact Hbefore|].
  rewrite fold_left_app, tagged_snoc. cbn [fold_left].
  fold (scanEdges edgeElements numForestEdges numCoforestEdges arrays edges) in *.
  unfold scanEdge. destruct (edgeElements e) as [i0|j0|] eqn:Htag; scan_simpl.
  - destruct (decide (i0 = i)) as [->|Hne].
    + rewrite CMR_ELEMENT_eqb_refl, last_last.
      apply Nat.ltb_lt in Hi. rewrite Hi. cbn [fst].
      apply list_lookup_insert_eq. apply lookup_lt_Some in IH. exact IH.
    + rewrite CMR_ELEMENT_eqb_neq, app_nil_r by congruence.
      destruct (i0 <? numForestEdges)%nat; cbn [fst]; [|exact IH].
      rewrite list_lookup_insert_ne by congruence. exact IH.
  - rewrite CMR_ELEMENT_eqb_neq, app_nil_r by discriminate.
    destruct (j0 <? numCoforestEdges)%nat; exact IH.
  - rewrite CMR_ELEMENT_eqb_neq, app_nil_r by discriminate. exact IH.
Qed.

Lemma scanEdges_coforest_slot (edges : list CMR_GRAPH_EDGE)
    (arrays : list CMR_GRAPH_EDGE * list CMR_GRAPH_EDGE) (j : nat)
    (before : CMR_GRAPH_EDGE) :
  (j < numCoforestEdges)%nat ->
  snd arrays !! j = Some before ->
  snd (scan arrays edges) !! j
  = Some (List.last (tagged edgeElements (Column j) edges) before).
Proof.
  intros Hj Hbefore. unfold scanEdges.
  induction edges as [|e edges IH] using rev_ind; [exact Hbefore|].
  rewrite fold_left_app, tagged_snoc. cbn [fold_left].
  fold (scanEdges edgeElements numForestEdges numCoforestEdges arrays edges) in *.
  unfold scanEdge. destruct (edgeElements e) as [i0|j0|] eqn:Htag; scan_simpl.
  - rewrite CMR_ELEMENT_eqb_neq, app_nil_r by discriminate.
    destruct (i0 <? numForestEdges)%nat; exact IH.
  - destruct (decide (j0 = j)) as [->|Hne].
    + rewrite CMR_ELEMENT_eqb_refl, last_last.
      apply Nat.ltb_lt in Hj. rewrite Hj. cbn [snd].
      apply list_lookup_insert_eq. apply lookup_lt_Some in IH. exact IH.
    + rewrite CMR_ELEMENT_eqb_neq, app_nil_r by congruence.
      destruct (j0 <? numCoforestEdges)%nat; cbn [snd]; [|exact IH].
      rewrite list_lookup_insert_ne by congruence. exact IH.
  - rewrite CMR_ELEMENT_eqb_neq, app_nil_r by discriminate. exact IH.
Qed.

End Slots.

(** What the extraction leaves in the two arrays, for every graph. *)
Lemma extractForest_slots (graph : CMR_GRAPH)
    (edgeElements : CMR_GRAPH_EDGE -> CMR_ELEMENT) :
  let edges := graphEdges graph in
  let numForestEdges := fst (fst (extractForest graph edgeElements)) in
  let numCoforestEdges := snd (fst (extractForest graph edgeElements)) in
  let forestEdges := fst (snd (extractForest graph edgeElements)) in
  let coforestEdges := snd (snd (extractForest graph edgeElements)) in
  length forestEdges = numForestEdges /\
  length coforestEdges = numCoforestEdges /\
  (forall i, (i < numForestEdges)%nat ->
     forestEdges !! i = Some (lastTagged edgeElements (Row i) edges)) /\
  (forall j, (j < numCoforestEdges)%nat ->
     coforestEdges !! j = Some (lastTagged edgeElements (Column j) edges)).
Proof.
  unfold extractForest. cbn [fst snd].
  set (k := fst (countEdges edgeElements (graphEdges graph))).
  set (m := snd (countEdges edgeElements (graphEdges graph))).
  set (arrays := (fillUnassigned (replicate k 0) k, fillUnassigned (replicate m 0) m)).
  destruct (length_scanEdges edgeElements k m (graphEdges graph) arrays) as [Hl1 Hl2].
  split; [rewrite Hl1; cbn; rewrite length_fillUnassigned; apply length_replicate|].
  split; [rewrite Hl2; cbn; rewrite length_fillUnassigned; apply length_replicate|].
  split.
  - intros i Hi. apply scanEdges_forest_slot; [exact Hi|].
    apply lookup_fillUnassigned; [rewrite length_replicate; lia | exact Hi].
  - intros j Hj. apply scanEdges_coforest_slot; [exact Hj|].
    apply lookup_fillUnassigned; [rewrite length_replicate; lia | exact Hj].
Qed.

(** X13.  Forest extraction, for every graph: [forestEdges] has
    [numForestEdges] slots and [coforestEdges] has [numCoforestEdges]; slot
    [i] of [forestEdges] holds the last edge, in the order of enumeration,
    that is tagged with row [i], and -1 when no edge is; likewise for
    [coforestEdges] and columns.  So an earlier edge with the same tag is
    overwritten, and a row that no edge carries leaves its slot at -1. *)
Theorem extraction_keeps_last_tagged_edge (graph : CMR_GRAPH)
    (edgeElements : CMR_GRAPH_EDGE -> CMR_ELEMENT) :
  let edges := graphEdges graph in
  let numForestEdges := fst (fst (extractForest graph edgeElements)) in
  let numCoforestEdges := snd (fst (extractForest graph edgeElements)) in
  let forestEdges := fst (snd (extractForest graph edgeElements)) in
  let coforestEdges := snd (snd (extractForest graph edgeElements)) in
  length forestEdges = numForestEdges /\
  length coforestEdges = numCoforestEdges /\
  (forall i, (i < numForestEdges)%nat ->
     forestEdges !! i = Some (lastTagged edgeElements (Row i) edges)) /\
  (forall j, (j < numCoforestEdges)%nat ->
     coforestEdges !! j = Some (lastTagged edgeElements (Column j) edges)).
Proof.
  unfold extractForest. cbn [fst snd].
  set (k := fst (countEdges edgeElements (graphEdges graph))).
  set (m := snd (countEdges edgeElements (graphEdges graph))).
  assert (forall n i, (i < n)%nat -> fillUnassigned (replicate n 0) n !! i = Some (-1))
    as Hunassigned
    by (intros n i Hi; apply lookup_fillUnassigned;
        [rewrite length_replicate; lia | exact Hi]).
  assert (forall n, length (fillUnassigned (replicate n 0) n) = n) as Hlength
    by (intros n; rewrite length_fillUnassigned; apply length_replicate).
  set (arrays := (fillUnassigned (replicate k 0) k, fillUnassigned (replicate m 0) m)).
  destruct (length_scanEdges edgeElements k m (graphEdges graph) arrays) as [Hl1 Hl2].
  repeat split.
  - rewrite Hl1. apply Hlength.
  - rewrite Hl2. apply Hlength.
  - intros i Hi. apply scanEdges_forest_slot; [exact Hi | apply Hunassigned, Hi].
  - intros j Hj. apply scanEdges_coforest_slot; [exact Hj | apply Hunassigned, Hj].
Qed.

(** The triangle with the edges 0 and 2 both tagged row 1 and edge 1 tagged
    row 3: three slots; edge 2 in the first, nothing in the second, and
    edge 1 in the third. *)
Lemma extraction_keeps_last_tagged_edge_witness :
  extractForest triangle clashingElements = (3%nat, 0%nat, ([2; -1; 1], [])) /\
  [2; -1; 1] !! 0%nat = Some (lastTagged clashingElements (Row 0) [0; 1; 2]) /\
  [2; -1; 1] !! 1%nat = Some (lastTagged clashingElements (Row 1) [0; 1; 2]).
Proof.
  destruct (extraction_keeps_last_tagged_edge triangle clashingElements)
    as (_ & _ & Hforest & _).
  split; [reflexivity|].
  split; [exact (Hforest 0%nat ltac:(cbn; lia)) | exact (Hforest 1%nat ltac:(cbn; lia))].
Defined.

Lemma last_of_copies {A} (l : list A) (a d : A) :
  l <> [] -> (forall x, In x l -> x = a) -> List.last l d = a.
Proof.
  intros Hnonempty Hall. destruct l as [|x l] using rev_ind; [congruence|].
  rewrite last_last. apply Hall, in_app_iff. right. left. reflexivity.
Qed.

Section RoundTrip.

Variable edgeElements : CMR_GRAPH_EDGE -> CMR_ELEMENT.
Variable edges : list CMR_GRAPH_EDGE.

(** An array that lists, slot by slot, the edge that carries the element
    [tag index]. *)
Variable tag : nat -> CMR_ELEMENT.
Variable array : list CMR_GRAPH_EDGE.
Hypothesis tag_injective : forall i j, tag i = tag j -> i = j.
Hypothesis array_lists_tags :
  forall index e, array !! index = Some e <-> (In e edges /\ edgeElements e = tag index).

Lemma listed_last_tagged (index : nat) (e : CMR_GRAPH_EDGE) :
  array !! index = Some e -> List.last (tagged edgeElements (tag index) edges) (-1) = e.
Proof.
  intros Hslot. apply last_of_copies.
  - intros Hempty. apply array_lists_tags in Hslot as [Hin Htag].
    assert (In e (tagged edgeElements (tag index) edges)) as Hin'
      by (apply filter_In; split; [exact Hin | apply CMR_ELEMENT_eqb_eq, Htag]).
    rewrite Hempty in Hin'. destruct Hin'.
  - intros x Hx. apply filter_In in Hx as [Hin Htag].
    apply CMR_ELEMENT_eqb_eq in Htag.
    assert (array !! index = Some x) as Hslot' by (apply array_lists_tags; auto).
    congruence.
Qed.

Lemma listed_count (isTag : CMR_ELEMENT -> bool) :
  List.NoDup edges ->
  (forall element, isTag element = true <-> exists index, element = tag index) ->
  length (List.filter (fun e => isTag (edgeElements e)) edges) = length array.
Proof.
  intros Hnodup HisTag. apply Permutation_length, Stdlib.Sorting.Permutation.NoDup_Permutation.
  - apply List.NoDup_filter, Hnodup.
  - apply NoDup_ListNoDup, NoDup_alt. intros i j x Hi Hj.
    apply array_lists_tags in Hi as [_ Hi]. apply array_lists_tags in Hj as [_ Hj].
    apply tag_injective. congruence.
  - intros x. rewrite filter_In. split.
    + intros [Hin Htag]. apply HisTag in Htag as [index Htag].
      apply list_elem_of_In, list_elem_of_lookup. exists index.
      apply array_lists_tags. auto.
    + intros Hin. apply list_elem_of_In, list_elem_of_lookup in Hin as [index Hslot].
      apply array_lists_tags in Hslot as [Hin Htag]. split; [exact Hin|].
      apply HisTag. exists index. exact Htag.
Qed.

End RoundTrip.

(** X14.  Extraction inverts tagging.  When the edges of the graph are
    distinct and tagged by two arrays - an edge carries row [i] exactly when
    it is entry [i] of [rowEdges], and column [j] exactly when it is entry
    [j] of [columnEdges] - the extraction gives back these two arrays and
    their lengths. *)
Theorem extraction_inverts_tagging (graph : CMR_GRAPH)
    (edgeElements : CMR_GRAPH_EDGE -> CMR_ELEMENT)
    (rowEdges columnEdges : list CMR_GRAPH_EDGE) :
  List.NoDup (graphEdges graph) ->
  (forall i e, rowEdges !! i = Some e
               <-> (In e (graphEdges graph) /\ edgeElements e = Row i)) ->
  (forall j e, columnEdges !! j = Some e
               <-> (In e (graphEdges graph) /\ edgeElements e = Column j)) ->
  extractForest graph edgeElements
  = (length rowEdges, length columnEdges, (rowEdges, columnEdges)).
Proof.
  intros Hnodup Hrows Hcolumns.
  assert (fst (fst (extractForest graph edgeElements)) = length rowEdges) as Hk.
  { unfold extractForest, countEdges. cbn [fst]. rewrite countEdges_from. cbn [fst].
    apply (listed_count edgeElements (graphEdges graph) Row rowEdges
             ltac:(congruence) Hrows CMRelementIsRow Hnodup).
    intros [i|j|]; cbn; split; try discriminate; eauto;
      intros [index Heq]; discriminate Heq. }
  assert (snd (fst (extractForest graph edgeElements)) = length columnEdges) as Hm.
  { unfold extractForest, countEdges. cbn [fst snd]. rewrite countEdges_from. cbn [snd].
    apply (listed_count edgeElements (graphEdges graph) Column columnEdges
             ltac:(congruence) Hcolumns CMRelementIsColumn Hnodup).
    intros [i|j|]; cbn; split; try discriminate; eauto;
      intros [index Heq]; discriminate Heq. }
  destruct (extractForest_slots graph edgeElements) as (Hl1 & Hl2 & Hforest & Hcoforest).
  rewrite Hk in Hl1, Hforest. rewrite Hm in Hl2, Hcoforest.
  assert (fst (snd (extractForest graph edgeElements)) = rowEdges) as Hfe.
  { apply list_eq. intros i. destruct (rowEdges !! i) as [e|] eqn:Hslot.
    - rewrite (Hforest i (lookup_lt_Some _ _ _ Hslot)). f_equal.
      apply (listed_last_tagged edgeElements (graphEdges graph) Row rowEdges Hrows).
      exact Hslot.
    - apply lookup_ge_None. apply lookup_ge_None in Hslot. lia. }
  assert (snd (snd (extractForest graph edgeElements)) = columnEdges) as Hce.
  { apply list_eq. intros j. destruct (columnEdges !! j) as [e|] eqn:Hslot.
    - rewrite (Hcoforest j (lookup_lt_Some _ _ _ Hslot)). f_equal.
      apply (listed_last_tagged edgeElements (graphEdges graph) Column columnEdges
               Hcolumns).
      exact Hslot.
    - apply lookup_ge_None. apply lookup_ge_None in Hslot. lia. }
  destruct (extractForest graph edgeElements) as [[k m] [fe ce]].
  cbn [fst snd] in *. congruence.
Qed.

(** The tagged triangle: rows on the edges 0 and 1, column 1 on edge 2. *)
Lemma extraction_inverts_tagging_witness :
  extractForest triangle triangleElements = (2%nat, 1%nat, ([0; 1], [2])).
Proof.
  apply (extraction_inverts_tagging triangle triangleElements [0; 1] [2]).
  - repeat constructor; cbn; intuition discriminate.
  - intros i e. split.
    + destruct i as [|[|i]]; intros Hslot; try discriminate Hslot;
        injection Hslot as <-; cbn; auto.
    + intros [[<-|[<-|[<-|[]]]] Htag]; cbn in Htag; try discriminate Htag;
        injection Htag as <-; reflexivity.
  - intros j e. split.
    + destruct j as [|j]; intros Hslot; try discriminate Hslot;
        injection Hslot as <-; cbn; auto.
    + intros [[<-|[<-|[<-|[]]]] Htag]; cbn in Htag; try discriminate Htag;
        injection Htag as <-; reflexivity.
Defined.

(* ===================================================================== *)
(** ** More on graph to matrix *)
(* ===================================================================== *)

(** A run that does not reach the engine prints nothing and does not return
    [CMR_OKAY]. *)
Lemma graphToMatrix_stops_or_reaches (w : World) (name : string)
    (inputFormat outputFormat : FileFormat) (cographic : bool) :
  (exists stop,
     graphToMatrix w name inputFormat outputFormat cographic = ([], stop) /\
     stop <> Return tt)
  \/ exists g edgeElements, reachesEngine w name inputFormat g edgeElements.
Proof.
  destruct (openInstance w name) as [file|] eqn:Hopen;
    [|left; unfold graphToMatrix; rewrite Hopen;
      eexists; split; [reflexivity | discriminate]].
  destruct (CMRcreateEnvironment w) eqn:Henv;
    [|left; unfold graphToMatrix; rewrite Hopen, Henv;
      eexists; split; [reflexivity | discriminate] ..].
  destruct (FileFormat_eqb inputFormat FILEFORMAT_GRAPH_EDGELIST) eqn:Hformat;
    [|left; unfold graphToMatrix; rewrite Hopen, Henv, Hformat;
      eexists; split; [reflexivity | discriminate]].
  destruct (CMRgraphCreateFromEdgeList w file) as [error [graph edgeElements]] eqn:Hread.
  destruct error;
    [|left; unfold graphToMatrix; rewrite Hopen, Henv, Hformat, Hread;
      eexists; split; [reflexivity | discriminate] ..].
  destruct graph as [g|];
    [|left; unfold graphToMatrix; rewrite Hopen, Henv, Hformat, Hread;
      eexists; split; [reflexivity | discriminate]].
  destruct (CMRallocBlockArray w (fst (countEdges edgeElements (graphEdges g))))
    eqn:Halloc1;
    [|left; unfold graphToMatrix; rewrite Hopen, Henv, Hformat, Hread;
      rewrite !CMR_CALL_okay, !bind_ret_l; cbn [fst snd deref];
      rewrite bind_ret_l, Halloc1;
      eexists; split; [reflexivity | discriminate] ..].
  destruct (CMRallocBlockArray w (snd (countEdges edgeElements (graphEdges g))))
    eqn:Halloc2;
    [|left; unfold graphToMatrix; rewrite Hopen, Henv, Hformat, Hread;
      rewrite !CMR_CALL_okay, !bind_ret_l; cbn [fst snd deref];
      rewrite bind_ret_l, Halloc1, CMR_CALL_okay, bind_ret_l, Halloc2;
      eexists; split; [reflexivity | discriminate] ..].
  right. exists g, edgeElements, file.
  repeat split; try assumption.
  destruct inputFormat; try discriminate Hformat; reflexivity.
Qed.

(** X15.  What [graphToMatrix] does when it is called with a matrix format
    for the output (as [main] calls it), for every outcome of opening the
    file, creating the environment, reading the graph, allocating the arrays
    and reconstructing the matrix: it writes no text; it either stops before
    the engine with nothing printed, or makes its one request and stops with
    nothing printed, or makes its one request and then hands one matrix to
    the printer of the output format.  It reaches its [return CMR_OKAY] in
    the last case and only there. *)
Theorem graphToMatrix_prints_one_matrix_or_nothing (w : World) (name : string)
    (inputFormat outputFormat : FileFormat) (cographic : bool) :
  isMatrixFormat outputFormat = true ->
  let run := graphToMatrix w name inputFormat outputFormat cographic in
  (trace run = [] /\ outcome run <> Return tt)
  \/ (exists g edgeElements,
        trace run = [requestFor (negb cographic) cographic g edgeElements] /\
        outcome run <> Return tt)
  \/ (exists g edgeElements matrix,
        run = ([requestFor (negb cographic) cographic g edgeElements;
                matrixPrint outputFormat matrix], Return tt)).
Proof.
  intros Hformat run. subst run.
  destruct (graphToMatrix_stops_or_reaches w name inputFormat outputFormat cographic)
    as [(stop & -> & Hstop) | (g & edgeElements & Hreach)]; [left; auto|].
  right. rewrite (graphToMatrix_reaches_request _ _ _ _ _ _ _ Hreach).
  rewrite bind_emit.
  destruct (answerFor w (negb cographic) cographic g edgeElements) as [[] out];
    try (left; exists g, edgeElements; split; [reflexivity | discriminate]).
  rewrite CMR_CALL_okay, bind_ret_l. unfold printMatrix, matrixPrint.
  destruct outputFormat; try discriminate Hformat; cbn [FileFormat_eqb];
    (destruct (if cographic then compute_transpose out else compute_matrix out)
       as [matrix|];
     [right; exists g, edgeElements, matrix; reflexivity
     |left; exists g, edgeElements; split; [reflexivity | discriminate]]).
Qed.

(** A graph file that is malformed: nothing is printed. *)
Lemma graphToMatrix_prints_one_matrix_or_nothing_witness :
  trace (graphToMatrix (matrixWorld identity2 triangular2Cographic
                          triangular2Cographic None)
                       "-" FILEFORMAT_GRAPH_EDGELIST FILEFORMAT_MATRIX_DENSE false) = [].
Proof.
  destruct (graphToMatrix_prints_one_matrix_or_nothing
              (matrixWorld identity2 triangular2Cographic triangular2Cographic None)
              "-" FILEFORMAT_GRAPH_EDGELIST FILEFORMAT_MATRIX_DENSE false eq_refl)
    as [[Hsilent _] | [(g & tags & Htrace & _) | (g & tags & matrix & Hrun)]].
  - exact Hsilent.
  - discriminate Htrace.
  - discriminate Hrun.
Defined.

(* ===================================================================== *)
(** ** From the command line to the output *)
(* ===================================================================== *)

Lemma main_runs_conversion (w : World) (argv : list string) (o : Options) (job : Job)
    (t : list Event) :
  outcome (setup argv) = Return (inr (o, job)) ->
  convert w o job = (t, Return CMR_OKAY) ->
  main w argv = (t, Return EXIT_SUCCESS).
Proof.
  intros Hsetup Hconvert.
  destruct (setup_job argv o job Hsetup) as [Hsilent _].
  unfold main. destruct (setup argv) as [t0 out].
  cbn [outcome snd trace fst] in Hsetup, Hsilent. subst t0 out.
  unfold bind at 1. rewrite Hconvert. cbn. rewrite app_nil_r. reflexivity.
Qed.

Lemma graphToMatrix_prints (w : World) (name : string)
    (inputFormat outputFormat : FileFormat) (cographic : bool)
    (g : CMR_GRAPH) (edgeElements : CMR_GRAPH_EDGE -> CMR_ELEMENT)
    (out : ComputeOutput) (matrix : CMR_CHRMAT) :
  reachesEngine w name inputFormat g edgeElements ->
  answerFor w (negb cographic) cographic g edgeElements = (CMR_OKAY, out) ->
  (if cographic then compute_transpose out else compute_matrix out) = Some matrix ->
  isMatrixFormat outputFormat = true ->
  graphToMatrix w name inputFormat outputFormat cographic
  = ([requestFor (negb cographic) cographic g edgeElements;
      matrixPrint outputFormat matrix],
     Return tt).
Proof.
  intros Hreach Hanswer Hstored Hformat.
  rewrite (graphToMatrix_reaches_request _ _ _ _ _ _ _ Hreach).
  rewrite bind_emit, Hanswer, CMR_CALL_okay, bind_ret_l, Hstored.
  unfold isMatrixFormat in Hformat. unfold printMatrix, matrixPrint.
  destruct outputFormat; try discriminate Hformat; reflexivity.
Qed.

(** X16.  From the command line to the matrix.  When the command line asks
    for the conversion of an edge list, the library reads the graph, the
    arrays are allocated and the engine stores a matrix in the slot it was
    asked for, the whole output of the program is that matrix, printed in the
    output format of the command line, and the exit code is 0.  The failed
    assertion of [graphToMatrix] for an output format that is not a matrix
    format is never reached from [main]. *)
Theorem edge_list_to_matrix (w : World) (argv : list string) (o : Options) (job : Job)
    (g : CMR_GRAPH) (edgeElements : CMR_GRAPH_EDGE -> CMR_ELEMENT)
    (out : ComputeOutput) (matrix : CMR_CHRMAT) :
  outcome (setup argv) = Return (inr (o, job)) ->
  reachesEngine w (job_instanceFileName job) (job_inputFormat job) g edgeElements ->
  answerFor w (negb (transposed o)) (transposed o) g edgeElements = (CMR_OKAY, out) ->
  (if transposed o then compute_transpose out else compute_matrix out) = Some matrix ->
  main w argv
  = ([requestFor (negb (transposed o)) (transposed o) g edgeElements;
      matrixPrint (job_outputFormat job) matrix],
     Return EXIT_SUCCESS).
Proof.
  intros Hsetup Hreach Hanswer Hstored.
  destruct (setup_job argv o job Hsetup) as (_ & Hformed & _).
  assert (job_inputFormat job = FILEFORMAT_GRAPH_EDGELIST) as Hinput
    by (destruct Hreach as (file & _ & _ & Hinput & _); exact Hinput).
  assert (isMatrixFormat (job_outputFormat job) = true) as Houtput.
  { destruct Hformed as [[Hmatrix _] | [_ Houtput]]; [|exact Houtput].
    rewrite Hinput in Hmatrix. discriminate Hmatrix. }
  apply (main_runs_conversion w argv o job _ Hsetup).
  unfold convert. rewrite Hinput at 1. cbn [isMatrixFormat FileFormat_eqb orb].
  rewrite (graphToMatrix_prints _ _ _ _ _ _ _ _ _ Hreach Hanswer Hstored Houtput).
  reflexivity.
Qed.

(** The tagged triangle, converted with [-t -o sparse]. *)
Lemma edge_list_to_matrix_witness :
  main (graphWorld triangle triangleElements
          {| compute_matrix := None; compute_transpose := Some rowColumn;
             compute_isCorrectForest := true |})
       ["graphic"; "-t"; "-o"; "sparse"; "-"]
  = ([ComputeGraphicMatrix false true 2 [0; 1] 1 [2]; ChrmatPrintSparse rowColumn],
     Return EXIT_SUCCESS).
Proof.
  apply (edge_list_to_matrix
           (graphWorld triangle triangleElements
              {| compute_matrix := None; compute_transpose := Some rowColumn;
                 compute_isCorrectForest := true |})
           ["graphic"; "-t"; "-o"; "sparse"; "-"]
           (setInstanceFileName "-"
              (setOutputFormat FILEFORMAT_MATRIX_SPARSE (setTransposed initialOptions)))
           {| job_instanceFileName := "-";
              job_inputFormat := FILEFORMAT_GRAPH_EDGELIST;
              job_outputFormat := FILEFORMAT_MATRIX_SPARSE |}
           triangle triangleElements
           {| compute_matrix := None; compute_transpose := Some rowColumn;
              compute_isCorrectForest := true |}
           rowColumn).
  - reflexivity.
  - exists "". repeat split; reflexivity.
  - reflexivity.
  - reflexivity.
Defined.

(** X17.  From the command line to the graph.  When the command line asks
    for the test of a matrix, the library reads the matrix, the test answers
    with a positive verdict, a graph and arrays that cover the indices read,
    and no violator, the whole output of the program is the graph in the
    output format of the command line (edge list or dot), every edge from its
    node U to its node V (the lines ["<U e> <V e> r<i+1>"] and
    ["<U e> <V e> c<j+1>"], or the links [ v_<U e> -- v_<V e> [...]] between
    [graph G {] and [}]), and the exit code is 0. *)
Theorem matrix_to_graph_text (w : World) (argv : list string) (o : Options) (job : Job)
    (matrix : CMR_CHRMAT) (test : TestOutput) (g : CMR_GRAPH) :
  outcome (setup argv) = Return (inr (o, job)) ->
  testAnswers w (job_instanceFileName job) (job_inputFormat job) (transposed o)
    (outputNonGraphicElements o || outputNonGraphicMatrix o) matrix test ->
  test_isGraphic test = true ->
  test_graph test = Some g ->
  test_submatrix test = None ->
  ((if swapsRoles (job_outputFormat job) (transposed o)
    then numColumns matrix else numRows matrix)
     <= length (test_forestEdges test))%nat ->
  ((if swapsRoles (job_outputFormat job) (transposed o)
    then numRows matrix else numColumns matrix)
     <= length (test_coforestEdges test))%nat ->
  main w argv
  = (graphFromUtoV (job_outputFormat job) (transposed o) matrix g
       (test_forestEdges test) (test_coforestEdges test),
     Return EXIT_SUCCESS).
Proof.
  intros Hsetup Hanswers Hverdict Hgraph Hnone Hfirst Hsecond.
  assert (isMatrixFormat (job_inputFormat job) = true) as Hinput.
  { destruct Hanswers as (file & _ & _ & Hread & _). unfold readMatrix in Hread.
    destruct (job_inputFormat job); try reflexivity; discriminate Hread. }
  apply (main_runs_conversion w argv o job _ Hsetup).
  unfold convert. rewrite Hinput.
  rewrite (matrixToGraph_after_test _ _ _ _ _ _ _ _ _ _ Hanswers).
  unfold matrixToGraph_output. rewrite Hverdict, Hgraph, Hnone.
  erewrite bind_then by (apply printGraph_absent; assumption).
  rewrite graphTextUV_spelled_out.
  destruct (outputNonGraphicElements o || outputNonGraphicMatrix o); cbn;
    rewrite app_nil_r; reflexivity.
Qed.

(** The cographic matrix [[1,1],[0,1]] with [-t]: the columns first. *)
Lemma matrix_to_graph_text_witness :
  main (matrixWorld triangular2 triangular2Cographic triangular2Cographic None)
       ["graphic"; "-t"; "matrix.txt"]
  = ([line 0 1 "c" 0; line 1 2 "c" 1; line 0 2 "r" 0; line 1 2 "r" 1],
     Return EXIT_SUCCESS).
Proof.
  apply (matrix_to_graph_text
           (matrixWorld triangular2 triangular2Cographic triangular2Cographic None)
           ["graphic"; "-t"; "matrix.txt"]
           (setInstanceFileName "matrix.txt" (setTransposed initialOptions))
           {| job_instanceFileName := "matrix.txt";
              job_inputFormat := FILEFORMAT_MATRIX_DENSE;
              job_outputFormat := FILEFORMAT_GRAPH_EDGELIST |}
           triangular2 triangular2Cographic fourEdges).
  - reflexivity.
  - exists "". repeat split; reflexivity.
  - reflexivity.
  - reflexivity.
  - reflexivity.
  - cbn. lia.
  - cbn. lia.
Defined.

(* ===================================================================== *)
(** ** The command line as a list of words *)
(* ===================================================================== *)

Lemma parseArguments_follows_words (program : string) (n : nat) :
  forall (args : list string) (o : Options),
    (length args <= n)%nat ->
    outcome (parseArguments program args o) = afterWords o (words args).
Proof.
  induction n as [|n IH]; intros [|arg rest] o Hlen; cbn [length] in Hlen;
    try lia; try reflexivity.
  assert (outcome
            match instanceFileName o with
            | None => parseArguments program rest (setInstanceFileName arg o)
            | Some name =>
              usageError program
                ("Error: Two input files <" ++ name ++ "> and <" ++ arg
                   ++ "> specified." ++ nl ++ nl)
            end
          = afterWords o (FileWord arg :: words rest)) as Hpositional.
  { unfold afterWords, hasFile. cbn [scanWords refuses isFileWord fold_left applyWord].
    destruct (instanceFileName o) eqn:Hname; [reflexivity|].
    rewrite IH by lia. unfold afterWords, hasFile. reflexivity. }
  cbn -[printUsage usageError String.eqb afterWords].
  destruct (String.eqb arg "-h"); [reflexivity|].
  destruct (String.eqb arg "-t");
    [rewrite IH by lia; unfold afterWords, hasFile; cbn; rewrite orb_false_r;
     reflexivity|].
  destruct (String.eqb arg "-n");
    [rewrite IH by lia; unfold afterWords, hasFile; cbn; rewrite orb_false_r;
     reflexivity|].
  destruct (String.eqb arg "-N");
    [rewrite IH by lia; unfold afterWords, hasFile; cbn; rewrite orb_false_r;
     reflexivity|].
  destruct (String.eqb arg "-s");
    [rewrite IH by lia; unfold afterWords, hasFile; cbn; rewrite orb_false_r;
     reflexivity|].
  destruct (String.eqb arg "-i").
  { destruct rest as [|value rest']; [exact Hpositional|]. cbn [length] in Hlen.
    unfold afterWords, hasFile.
    cbn [scanWords refuses isFileWord fold_left applyWord]. unfold inputFormatNamed.
    repeat (destruct (String.eqb value _);
            [rewrite IH by lia; unfold afterWords, hasFile; cbn;
             rewrite orb_false_r; reflexivity|]).
    reflexivity. }
  destruct (String.eqb arg "-o").
  { destruct rest as [|value rest']; [exact Hpositional|]. cbn [length] in Hlen.
    unfold afterWords, hasFile.
    cbn [scanWords refuses isFileWord fold_left applyWord]. unfold outputFormatNamed.
    repeat (destruct (String.eqb value _);
            [rewrite IH by lia; unfold afterWords, hasFile; cbn;
             rewrite orb_false_r; reflexivity|]).
    reflexivity. }
  exact Hpositional.
Qed.

Lemma last_cons {A} (a d : A) (l : list A) : List.last (a :: l) d = List.last l a.
Proof.
  revert a d. induction l as [|b l IH]; intros a d; [reflexivity|].
  change (List.last (a :: b :: l) d) with (List.last (b :: l) d).
  rewrite (IH b d), (IH b a). reflexivity.
Qed.

(** What the assignments of the loop add up to: a flag is set when its word
    occurs, a format is the one named last, and the file is the first file
    name. *)
Lemma options_after_words (ws : list Word) :
  forall o : Options,
    let o' := fold_left applyWord ws o in
    transposed o' = transposed o || existsb isTransposeWord ws /\
    outputNonGraphicElements o' = outputNonGraphicElements o || existsb isElementsWord ws /\
    outputNonGraphicMatrix o' = outputNonGraphicMatrix o || existsb isMatrixWord ws /\
    printStats o' = printStats o || existsb isStatsWord ws /\
    inputFormat o' = List.last (inputFormats ws) (inputFormat o) /\
    outputFormat o' = List.last (outputFormats ws) (outputFormat o) /\
    instanceFileName o'
    = match instanceFileName o with
      | Some name => Some name
      | None => head (fileNames ws)
      end.
Proof.
  induction ws as [|w ws IH]; intros o.
  - cbn. rewrite !orb_false_r. destruct (instanceFileName o); repeat split; reflexivity.
  - cbn [fold_left]. specialize (IH (applyWord o w)). cbn zeta in IH |- *.
    destruct IH as (Ht & Hn & HN & Hs & Hi & Ho & Hf).
    rewrite Ht, Hn, HN, Hs, Hi, Ho, Hf. clear Ht Hn HN Hs Hi Ho Hf.
    unfold inputFormats, outputFormats, fileNames.
    destruct w as [| | | | |value|value|name];
      cbn [applyWord existsb isTransposeWord isElementsWord isMatrixWord isStatsWord
           flat_map app orb];
      try (cbn; rewrite ?orb_true_r; repeat split; reflexivity).
    + destruct (inputFormatNamed value) as [f|]; cbn [app]; rewrite ?last_cons;
        repeat split; reflexivity.
    + destruct (outputFormatNamed value) as [f|]; cbn [app]; rewrite ?last_cons;
        repeat split; reflexivity.
    + destruct (instanceFileName o) as [first|] eqn:Hname; cbn;
        rewrite ?Hname; repeat split; reflexivity.
Qed.

Lemma given_input_is_not_dot (ws : list Word) : givenInput ws <> FILEFORMAT_GRAPH_DOT.
Proof.
  unfold givenInput.
  assert (forall d, d <> FILEFORMAT_GRAPH_DOT ->
                    List.last (inputFormats ws) d <> FILEFORMAT_GRAPH_DOT) as Hlast.
  { induction ws as [|w ws IH]; intros d Hd; [exact Hd|].
    unfold inputFormats in *. cbn [flat_map].
    destruct w as [| | | | |value|value|name]; cbn [app]; try (apply IH, Hd).
    unfold inputFormatNamed.
    repeat (destruct (String.eqb value _);
            [cbn [app]; rewrite last_cons; apply IH; discriminate|]).
    apply IH, Hd. }
  apply Hlast. discriminate.
Qed.

(** Completing the formats, by the table [pairing]. *)
Lemma resolveFormats_pairs (program : string) (o : Options) :
  inputFormat o <> FILEFORMAT_GRAPH_DOT ->
  outcome (resolveFormats program o)
  = match instanceFileName o, pairing (inputFormat o) (outputFormat o) with
    | Some name, Some (input, output) =>
      Return (inr {| job_instanceFileName := name; job_inputFormat := input;
                     job_outputFormat := output |})
    | _, _ => Return (inl EXIT_FAILURE)
    end.
Proof.
  intros Hdot. unfold resolveFormats.
  destruct (instanceFileName o) as [name|]; [|reflexivity].
  destruct (inputFormat o), (outputFormat o); try congruence; reflexivity.
Qed.

(** The set-up of [main] ends as the reading of the command line says. *)
Lemma setup_follows_reading (argv : list string) :
  outcome (setup argv)
  = match reading argv with
    | AsksForHelp => Return (inl EXIT_SUCCESS)
    | Refused => Return (inl EXIT_FAILURE)
    | Converts c =>
      Return (inr (fold_left applyWord (words (tl argv)) initialOptions, jobOf c))
    end.
Proof.
  unfold setup, reading.
  pose proof (parseArguments_follows_words (hd "" argv) (length (tl argv)) (tl argv)
                initialOptions (Nat.le_refl _)) as Hparse.
  unfold afterWords in Hparse. cbn [hasFile initialOptions instanceFileName] in Hparse.
  destruct (scanWords false (words (tl argv)));
    rewrite (outcome_bind _ _ _ Hparse); try reflexivity.
  destruct (options_after_words (words (tl argv)) initialOptions)
    as (_ & _ & _ & _ & Hi & Ho & Hf).
  cbn [initialOptions inputFormat outputFormat instanceFileName] in Hi, Ho, Hf.
  fold (givenInput (words (tl argv))) in Hi. fold (givenOutput (words (tl argv))) in Ho.
  assert (outcome (resolveFormats (hd "" argv)
                     (fold_left applyWord (words (tl argv)) initialOptions))
          = match head (fileNames (words (tl argv))),
                  pairing (givenInput (words (tl argv))) (givenOutput (words (tl argv)))
            with
            | Some name, Some (input, output) =>
              Return (inr {| job_instanceFileName := name; job_inputFormat := input;
                             job_outputFormat := output |})
            | _, _ => Return (inl EXIT_FAILURE)
            end) as Hresolve.
  { rewrite resolveFormats_pairs by (rewrite Hi; apply given_input_is_not_dot).
    rewrite Hi, Ho, Hf. reflexivity. }
  destruct (fileNames (words (tl argv))) as [|name names]; cbn [head] in Hresolve;
    [rewrite (outcome_bind _ _ _ Hresolve); reflexivity|].
  destruct (pairing (givenInput (words (tl argv))) (givenOutput (words (tl argv))))
    as [[input output]|]; rewrite (outcome_bind _ _ _ Hresolve); reflexivity.
Qed.

(** What [main] hands to the conversion is what the reading says. *)
Lemma convert_follows_reading (w : World) (argv : list string) (c : Conversion) :
  reading argv = Converts c ->
  convert w (fold_left applyWord (words (tl argv)) initialOptions) (jobOf c)
  = returned (conversion w c).
Proof.
  intros Hreading. unfold reading in Hreading.
  destruct (options_after_words (words (tl argv)) initialOptions)
    as (Ht & Hn & HN & Hs & _).
  cbn [initialOptions transposed outputNonGraphicElements outputNonGraphicMatrix
       printStats orb] in Ht, Hn, HN, Hs.
  unfold convert, conversion. rewrite Ht, Hn, HN, Hs.
  destruct (scanWords false (words (tl argv))); try discriminate Hreading.
  destruct (fileNames (words (tl argv))) as [|name names]; [discriminate Hreading|].
  destruct (pairing (givenInput (words (tl argv))) (givenOutput (words (tl argv))))
    as [[input output]|]; [|discriminate Hreading].
  injection Hreading as <-. cbn [jobOf job_instanceFileName job_inputFormat
    job_outputFormat conv_file conv_input conv_output conv_cographic conv_elements
    conv_matrix conv_stats].
  destruct (isMatrixFormat input); reflexivity.
Qed.

(** The exit code, by the reading of the command line. *)
Lemma exit_code_by_reading (w : World) (argv : list string) :
  outcome (main w argv)
  = match reading argv with
    | AsksForHelp => Return EXIT_SUCCESS
    | Refused => Return EXIT_FAILURE
    | Converts c =>
      match outcome (conversion w c) with
      | Return _ => Return EXIT_SUCCESS
      | Fail CMR_ERROR_INPUT | Fail CMR_ERROR_MEMORY => Return EXIT_FAILURE
      | Fail _ => Return EXIT_SUCCESS
      | Undefined => Undefined
      end
    end.
Proof.
  pose proof (setup_follows_reading argv) as Hsetup.
  destruct (reading argv) as [| |c] eqn:Hreading.
  - exact (main_early w argv _ Hsetup).
  - exact (main_early w argv _ Hsetup).
  - rewrite (main_converts w argv _ _ Hsetup).
    rewrite (convert_follows_reading w argv c Hreading).
    destruct (conversion w c) as [t [[]|[]|]]; reflexivity.
Qed.

(** C9, amended.  The exit code is non-zero exactly when the command line is
    refused or the conversion returns an input error or a memory error; it
    is zero exactly when the command line asks for help or the conversion
    returns [CMR_OKAY] or another error code.  The command line is read word
    by word from the left ([reading]): it asks for help when [-h] is read
    before any word is refused; it is refused when, before any [-h], [-i] or
    [-o] is followed by a format name the program does not know or a second
    file name is read, and also when all words are read and there is no file
    name or the formats do not pair a matrix with a graph. *)
Theorem exit_code_nonzero_iff (w : World) (argv : list string) :
  ((exists code, exitsWith w argv code /\ code <> 0)
   <-> (reading argv = Refused \/
        conversionFails w argv CMR_ERROR_INPUT \/
        conversionFails w argv CMR_ERROR_MEMORY))
  /\
  (exitsWith w argv 0
   <-> (reading argv = AsksForHelp \/
        conversionSucceeds w argv \/
        exists error,
          error <> CMR_ERROR_INPUT /\ error <> CMR_ERROR_MEMORY /\
          conversionFails w argv error)).
Proof.
  unfold exitsWith, conversionFails, conversionSucceeds.
  rewrite (exit_code_by_reading w argv). unfold EXIT_SUCCESS, EXIT_FAILURE.
  destruct (reading argv) as [| |c].
  - repeat split; intros H; split_reading. left. reflexivity.
  - repeat split; intros H; split_reading.
    + left. reflexivity.
    + exists 1. split; [reflexivity | lia].
  - destruct (outcome (conversion w c)) as [[]|error|] eqn:Hconversion;
      [|destruct error|]; repeat split; intros H; split_reading.
    + right. left. exists c. auto.
    + right. right. exists CMR_OKAY. repeat split; try discriminate. exists c. auto.
    + right. left. exists c. auto.
    + exists 1. split; [reflexivity | lia].
    + right. right. exists c. auto.
    + exists 1. split; [reflexivity | lia].
    + right. right. exists CMR_ERROR_OTHER. repeat split; try discriminate.
      exists c. auto.
Qed.

(** Command lines and their readings: [-h] first; two file names before
    [-h]; an unknown format before a second file name; [-i] at the very end
    as a file name; two matrix formats; a graph to be converted. *)
Lemma reading_samples :
  reading ["graphic"; "-t"; "-h"; "a.txt"; "b.txt"] = AsksForHelp /\
  reading ["graphic"; "a.txt"; "b.txt"; "-h"] = Refused /\
  reading ["graphic"; "-o"; "png"; "-h"] = Refused /\
  reading ["graphic"; "-i"; "-h"] = Refused /\
  reading ["graphic"] = Refused /\
  reading ["graphic"; "-i"; "dense"; "-o"; "sparse"; "a.txt"] = Refused /\
  reading ["graphic"; "-n"; "-i"]
  = Converts {| conv_file := "-i"; conv_input := FILEFORMAT_MATRIX_DENSE;
                conv_output := FILEFORMAT_GRAPH_EDGELIST; conv_cographic := false;
                conv_elements := true; conv_matrix := false; conv_stats := false |} /\
  reading ["graphic"; "-o"; "dense"; "-o"; "sparse"; "g.txt"; "-t"]
  = Converts {| conv_file := "g.txt"; conv_input := FILEFORMAT_GRAPH_EDGELIST;
                conv_output := FILEFORMAT_MATRIX_SPARSE; conv_cographic := true;
                conv_elements := false; conv_matrix := false; conv_stats := false |}.
Proof. repeat split; reflexivity. Qed.

(** A complete reading has read at most one file name. *)
Lemma complete_scan_one_file (ws : list Word) :
  forall fileSeen : bool,
    scanWords fileSeen ws = ScanComplete ->
    (length (fileNames ws) <= if fileSeen then 0 else 1)%nat.
Proof.
  induction ws as [|w ws IH]; intros fileSeen Hscan; [destruct fileSeen; cbn; lia|].
  destruct w as [| | | | |value|value|name]; cbn [scanWords refuses] in Hscan;
    try discriminate Hscan;
    try (rewrite orb_false_r in Hscan; apply IH in Hscan; exact Hscan).
  - destruct (inputFormatNamed value); [|discriminate Hscan].
    rewrite orb_false_r in Hscan. apply IH in Hscan. exact Hscan.
  - destruct (outputFormatNamed value); [|discriminate Hscan].
    rewrite orb_false_r in Hscan. apply IH in Hscan. exact Hscan.
  - destruct fileSeen; [discriminate Hscan|]. cbn [orb isFileWord] in Hscan.
    apply IH in Hscan. unfold fileNames in *. cbn [flat_map app length]. lia.
Qed.

(** A file name among the words is one of the arguments. *)
Lemma file_words_are_arguments (n : nat) :
  forall (args : list string) (name : string),
    (length args <= n)%nat -> In name (fileNames (words args)) -> In name args.
Proof.
  induction n as [|n IH]; intros [|arg rest] name Hlen Hin; cbn [length] in Hlen;
    try lia; try (destruct Hin).
  assert (In name (fileNames (FileWord arg :: words rest)) -> In name (arg :: rest))
    as Hpositional.
  { unfold fileNames. cbn [flat_map app]. intros [<- | Hrest]; [left; reflexivity|].
    right. apply IH; [lia | exact Hrest]. }
  cbn [words] in Hin. unfold fileNames in Hin, IH.
  destruct (String.eqb arg "-h"); [right; apply IH; [lia | exact Hin]|].
  destruct (String.eqb arg "-t"); [right; apply IH; [lia | exact Hin]|].
  destruct (String.eqb arg "-n"); [right; apply IH; [lia | exact Hin]|].
  destruct (String.eqb arg "-N"); [right; apply IH; [lia | exact Hin]|].
  destruct (String.eqb arg "-s"); [right; apply IH; [lia | exact Hin]|].
  destruct (String.eqb arg "-i").
  { destruct rest as [|value rest']; [apply Hpositional; exact Hin|].
    cbn [length] in Hlen. right. right. apply IH; [lia | exact Hin]. }
  destruct (String.eqb arg "-o").
  { destruct rest as [|value rest']; [apply Hpositional; exact Hin|].
    cbn [length] in Hlen. right. right. apply IH; [lia | exact Hin]. }
  apply Hpositional. exact Hin.
Qed.

(** X1.  When [main] starts a conversion, it has printed nothing so far, and
    the job pairs a matrix format with a graph format: the input is dense or
    sparse and the output edgelist or dot, or the input is edgelist and the
    output dense or sparse.  The file of the job is the one file name of the
    command line: the only argument that is neither an option nor the value
    of [-i] or [-o]. *)
Theorem conversion_gets_matching_formats (argv : list string) (o : Options) (job : Job) :
  outcome (setup argv) = Return (inr (o, job)) ->
  trace (setup argv) = [] /\
  ((isMatrixFormat (job_inputFormat job) = true /\
    (job_outputFormat job = FILEFORMAT_GRAPH_EDGELIST \/
     job_outputFormat job = FILEFORMAT_GRAPH_DOT))
   \/
   (job_inputFormat job = FILEFORMAT_GRAPH_EDGELIST /\
    isMatrixFormat (job_outputFormat job) = true)) /\
  instanceFileName o = Some (job_instanceFileName job) /\
  fileNames (words (tl argv)) = [job_instanceFileName job] /\
  In (job_instanceFileName job) (tl argv).
Proof.
  intros Hsetup.
  assert (fileNames (words (tl argv)) = [job_instanceFileName job]) as Hfile.
  { pose proof (setup_follows_reading argv) as Hread. rewrite Hsetup in Hread.
    unfold reading in Hread.
    destruct (scanWords false (words (tl argv))) eqn:Hscan; try discriminate Hread.
    apply complete_scan_one_file in Hscan.
    destruct (fileNames (words (tl argv))) as [|name [|second names]];
      [discriminate Hread | | cbn in Hscan; lia].
    destruct (pairing _ _) as [[input output]|]; [|discriminate Hread].
    injection Hread as _ ->. reflexivity. }
  pose proof (setup_handled argv) as Hhandled.
  destruct (setup argv) as [t out]. cbn [outcome snd] in Hsetup. subst out.
  destruct Hhandled as (Hsilent & _ & Hformed & Hname).
  cbn [trace fst snd] in *. unfold wellFormed in Hformed.
  repeat split; try assumption.
  apply (file_words_are_arguments (length (tl argv))); [lia|].
  rewrite Hfile. left. reflexivity.
Qed.

(** An output format alone: the input is taken to be an edge list, and the
    file is the last argument. *)
Lemma conversion_gets_matching_formats_witness :
  trace (setup ["graphic"; "-o"; "sparse"; "graph.txt"]) = [] /\
  fileNames (words ["-o"; "sparse"; "graph.txt"]) = ["graph.txt"] /\
  In "graph.txt" ["-o"; "sparse"; "graph.txt"].
Proof.
  destruct (conversion_gets_matching_formats
              ["graphic"; "-o"; "sparse"; "graph.txt"]
              (setInstanceFileName "graph.txt"
                 (setOutputFormat FILEFORMAT_MATRIX_SPARSE initialOptions))
              {| job_instanceFileName := "graph.txt";
                 job_inputFormat := FILEFORMAT_GRAPH_EDGELIST;
                 job_outputFormat := FILEFORMAT_MATRIX_SPARSE |}
              eq_refl) as (Hsilent & _ & _ & Hfile & Hin).
  split; [exact Hsilent|]. split; [exact Hfile | exact Hin].
Defined.
